(** * S3Sync: change-detection upload pass, restore pass, selective restore

    A shallow embedding of the sync engine of the S3Sync desktop utility
    ([src/S3Sync.py], its predecessor [src/Ver4.2.py] and the headless job
    [src/backupjob.py]) together with the properties of its specification.

    Layout:
    - [hashlib]   : the MD5 object used by [compute_md5] (RFC 1321), as a
                    block-buffered streaming state, and the one-shot digest;
    - [posixpath] : the [os.path] functions the passes call;
    - [Environment] : the file system and the storage SDK, as an interface
                    of fallible operations on an abstract world, and the
                    monad of the passes: state, exceptions, a trace of calls;
    - [backupjob], [Ver4_2], [S3Sync] : the three variants of the passes;
    - [Mock]      : an in-memory world used to run the passes;
    - the properties: the digest, paths and keys, the passes item by item,
      and the properties of the specification, C1 to C10. *)

From Stdlib Require Import ZArith Strings.Byte Strings.Ascii Strings.String.
From stdpp Require Import gmap strings list pretty.
From Equations Require Import Equations.

Local Open Scope Z_scope.

(** ** hashlib.md5 *)

Module hashlib.

Definition w32 (x : Z) : Z := Z.land x 0xffffffff.

Definition rotl32 (x : Z) (s : Z) : Z :=
  w32 (Z.lor (Z.shiftl x s) (Z.shiftr x (32 - s))).

Definition not32 (x : Z) : Z := Z.lxor x 0xffffffff.

Definition K : list Z :=
  [ 0xd76aa478; 0xe8c7b756; 0x242070db; 0xc1bdceee;
    0xf57c0faf; 0x4787c62a; 0xa8304613; 0xfd469501;
    0x698098d8; 0x8b44f7af; 0xffff5bb1; 0x895cd7be;
    0x6b901122; 0xfd987193; 0xa679438e; 0x49b40821;
    0xf61e2562; 0xc040b340; 0x265e5a51; 0xe9b6c7aa;
    0xd62f105d; 0x02441453; 0xd8a1e681; 0xe7d3fbc8;
    0x21e1cde6; 0xc33707d6; 0xf4d50d87; 0x455a14ed;
    0xa9e3e905; 0xfcefa3f8; 0x676f02d9; 0x8d2a4c8a;
    0xfffa3942; 0x8771f681; 0x6d9d6122; 0xfde5380c;
    0xa4beea44; 0x4bdecfa9; 0xf6bb4b60; 0xbebfbc70;
    0x289b7ec6; 0xeaa127fa; 0xd4ef3085; 0x04881d05;
    0xd9d4d039; 0xe6db99e5; 0x1fa27cf8; 0xc4ac5665;
    0xf4292244; 0x432aff97; 0xab9423a7; 0xfc93a039;
    0x655b59c3; 0x8f0ccc92; 0xffeff47d; 0x85845dd1;
    0x6fa87e4f; 0xfe2ce6e0; 0xa3014314; 0x4e0811a1;
    0xf7537e82; 0xbd3af235; 0x2ad7d2bb; 0xeb86d391 ].

Definition S : list Z :=
  [ 7; 12; 17; 22; 7; 12; 17; 22; 7; 12; 17; 22; 7; 12; 17; 22;
    5; 9; 14; 20; 5; 9; 14; 20; 5; 9; 14; 20; 5; 9; 14; 20;
    4; 11; 16; 23; 4; 11; 16; 23; 4; 11; 16; 23; 4; 11; 16; 23;
    6; 10; 15; 21; 6; 10; 15; 21; 6; 10; 15; 21; 6; 10; 15; 21 ].

(** The four chaining registers A, B, C, D. *)
Record regs := Regs { rA : Z; rB : Z; rC : Z; rD : Z }.

Definition iv : regs :=
  Regs 0x67452301 0xefcdab89 0x98badcfe 0x10325476.

Definition Z_of_byte (b : byte) : Z := Z.of_N (Byte.to_N b).

Definition byte_of_Z (z : Z) : byte :=
  default x00 (Byte.of_N (Z.to_N (z mod 256))).

(** Little-endian decoding of a block into 32-bit words. *)
Fixpoint words_of (bs : list byte) : list Z :=
  match bs with
  | b0 :: b1 :: b2 :: b3 :: rest =>
      (Z_of_byte b0 + Z.shiftl (Z_of_byte b1) 8
       + Z.shiftl (Z_of_byte b2) 16 + Z.shiftl (Z_of_byte b3) 24)
      :: words_of rest
  | _ => []
  end.

(** Little-endian encoding of the low [n] bytes of [x]. *)
Fixpoint le_bytes (n : nat) (x : Z) : list byte :=
  match n with
  | O => []
  | Datatypes.S n' => byte_of_Z x :: le_bytes n' (Z.shiftr x 8)
  end.

Definition round (M : list Z) (r : regs) (i : nat) : regs :=
  let '(Regs a b c d) := r in
  let '(f, g) :=
    if (i <? 16)%nat then
      (Z.lor (Z.land b c) (Z.land (not32 b) d), i)
    else if (i <? 32)%nat then
      (Z.lor (Z.land d b) (Z.land (not32 d) c), ((5 * i + 1) mod 16)%nat)
    else if (i <? 48)%nat then
      (Z.lxor (Z.lxor b c) d, ((3 * i + 5) mod 16)%nat)
    else
      (Z.lxor c (Z.lor b (not32 d)), ((7 * i) mod 16)%nat) in
  let f' := w32 (f + a + K !!! i + M !!! g) in
  Regs d (w32 (b + rotl32 f' (S !!! i))) b c.

(** The compression function on one 64-byte block. *)
Definition compress (h : regs) (block : list byte) : regs :=
  let r := foldl (round (words_of block)) h (seq 0 64) in
  Regs (w32 (rA h + rA r)) (w32 (rB h + rB r))
       (w32 (rC h + rC r)) (w32 (rD h + rD r)).

(** Padding appended to a message of [n] bytes. *)
Definition padding (n : Z) : list byte :=
  x80 :: replicate (Z.to_nat ((55 - n) mod 64)) x00
      ++ le_bytes 8 ((8 * n) mod 2 ^ 64).

Definition hex_digit (d : Z) : ascii :=
  default "0"%char (String.get (Z.to_nat d) "0123456789abcdef").

Definition hex_byte (b : byte) : string :=
  let z := Z_of_byte b in
  String (hex_digit (z / 16)) (String (hex_digit (z mod 16)) EmptyString).

Fixpoint hexlify (bs : list byte) : string :=
  match bs with
  | [] => EmptyString
  | b :: rest => hex_byte b +:+ hexlify rest
  end.

Definition encode (h : regs) : list byte :=
  le_bytes 4 (rA h) ++ le_bytes 4 (rB h)
    ++ le_bytes 4 (rC h) ++ le_bytes 4 (rD h).

(** *** The streaming object

    The object keeps the chaining registers, the bytes that do not yet
    fill a block, and the number of bytes fed so far. *)
Record md5_state := Md5State {
  h_regs : regs;
  pending : list byte;
  nbytes : Z
}.

Definition md5 : md5_state := Md5State iv [] 0.

(** Consume every full block at the front of [buf]. *)
Equations? absorb (h : regs) (buf : list byte) : regs * list byte
  by wf (length buf) lt :=
  absorb h buf with decide (64 <= length buf)%nat => {
    | left _ := absorb (compress h (take 64 buf)) (drop 64 buf);
    | right _ := (h, buf) }.
Proof. rewrite length_drop. lia. Qed.

Definition update (st : md5_state) (data : list byte) : md5_state :=
  let '(h, rest) := absorb (h_regs st) (pending st ++ data) in
  Md5State h rest (nbytes st + Z.of_nat (length data)).

Definition digest (st : md5_state) : list byte :=
  encode (fst (absorb (h_regs st) (pending st ++ padding (nbytes st)))).

Definition hexdigest (st : md5_state) : string := hexlify (digest st).

(** *** The one-shot digest of RFC 1321

    Pad the whole message, cut it into 64-byte blocks, fold the
    compression function over the blocks. *)
Equations? blocks (msg : list byte) : list (list byte)
  by wf (length msg) lt :=
  blocks [] := [];
  blocks (b :: bs) := take 64 (b :: bs) :: blocks (drop 64 (b :: bs)).
Proof. rewrite length_drop. lia. Qed.

Definition md5_oneshot (msg : list byte) : string :=
  hexlify
    (encode
       (foldl compress iv (blocks (msg ++ padding (Z.of_nat (length msg)))))).

End hashlib.

(** ** os.path (POSIX flavour)

    The functions of Python's [posixpath] that the passes call, on
    strings. On Windows the same calls go to [ntpath], which agrees with
    these on relative, drive-less paths up to the separator it emits. *)

Module posixpath.

Definition sep : ascii := "/"%char.

Definition startswith_sep (s : string) : bool :=
  match s with
  | String c _ => bool_decide (c = sep)
  | EmptyString => false
  end.

Fixpoint endswith_sep (s : string) : bool :=
  match s with
  | EmptyString => false
  | String c EmptyString => bool_decide (c = sep)
  | String _ s' => endswith_sep s'
  end.

(** [s.split('/')] *)
Fixpoint split (s : string) : list string :=
  match s with
  | EmptyString => [EmptyString]
  | String c s' =>
      if bool_decide (c = sep) then EmptyString :: split s'
      else match split s' with
           | h :: t => String c h :: t
           | [] => [String c EmptyString]
           end
  end.

(** ['/'.join(comps)] *)
Fixpoint join_sep (comps : list string) : string :=
  match comps with
  | [] => EmptyString
  | [c] => c
  | c :: rest => c +:+ String sep (join_sep rest)
  end.

(** [os.path.join(a, b)] *)
Definition join (a b : string) : string :=
  if startswith_sep b then b
  else if bool_decide (a = EmptyString) || endswith_sep a then a +:+ b
  else a +:+ String sep b.

(** [os.path.join(a, *p)] *)
Definition join_all (a : string) (p : list string) : string :=
  foldl join a p.

(** [s.rstrip('/')] *)
Fixpoint rstrip_sep (s : string) : string :=
  match s with
  | EmptyString => EmptyString
  | String c s' =>
      match rstrip_sep s' with
      | EmptyString => if bool_decide (c = sep) then EmptyString
                       else String c EmptyString
      | r => String c r
      end
  end.

(** [(p[:i], p[i:])] with [i = p.rfind('/') + 1] *)
Fixpoint rsplit_sep (p : string) : string * string :=
  match p with
  | EmptyString => (EmptyString, EmptyString)
  | String c p' =>
      let '(head, tail) := rsplit_sep p' in
      if bool_decide (head = EmptyString) && negb (bool_decide (c = sep))
      then (EmptyString, String c tail)
      else (String c head, tail)
  end.

Definition basename (p : string) : string := snd (rsplit_sep p).

Definition dirname (p : string) : string :=
  let head := fst (rsplit_sep p) in
  match rstrip_sep head with
  | EmptyString => head
  | stripped => stripped
  end.

(** One iteration of the component loop of [normpath]; [new_comps] is
    kept in reverse, so that its last element is at the head. *)
Definition norm_step (initial_slashes : nat) (new_comps : list string)
    (comp : string) : list string :=
  if bool_decide (comp = "") || bool_decide (comp = ".") then new_comps
  else if negb (bool_decide (comp = ".."))
          || (bool_decide (initial_slashes = 0%nat)
              && bool_decide (new_comps = []))
          || bool_decide (head new_comps = Some "..")
  then comp :: new_comps
  else tail new_comps.

(** POSIX gives a meaning of its own to exactly two leading slashes. *)
Definition count_initial_slashes (path : string) : nat :=
  if startswith_sep path then
    if String.prefix "//" path && negb (String.prefix "///" path) then 2 else 1
  else 0.

Definition normpath (path : string) : string :=
  if bool_decide (path = "") then "."
  else
    let initial_slashes := count_initial_slashes path in
    let comps := rev (foldl (norm_step initial_slashes) [] (split path)) in
    let path' :=
      string_of_list_ascii (replicate initial_slashes sep) +:+ join_sep comps in
    if bool_decide (path' = "") then "." else path'.

Definition abspath (cwd path : string) : string :=
  if startswith_sep path then normpath path
  else normpath (join cwd path).

Fixpoint commonprefix_len (l1 l2 : list string) : nat :=
  match l1, l2 with
  | x :: l1', y :: l2' =>
      if bool_decide (x = y) then Datatypes.S (commonprefix_len l1' l2') else 0%nat
  | _, _ => 0%nat
  end.

Definition nonempty (s : string) : bool := negb (bool_decide (s = "")).

(** [os.path.relpath(path, start)]; [None] stands for the [ValueError]
    raised on an empty path. *)
Definition relpath (cwd path start : string) : option string :=
  if bool_decide (path = "") then None
  else
    let start_list := filter (fun x => nonempty x = true) (split (abspath cwd start)) in
    let path_list := filter (fun x => nonempty x = true) (split (abspath cwd path)) in
    let i := commonprefix_len start_list path_list in
    let rel_list := replicate (length start_list - i) ".." ++ drop i path_list in
    match rel_list with
    | [] => Some "."
    | a :: p => Some (join_all a p)
    end.

End posixpath.

(** [s.replace("\\", "/")] *)
Fixpoint replace_backslash (s : string) : string :=
  match s with
  | EmptyString => EmptyString
  | String c s' =>
      String (if bool_decide (c = "\"%char) then "/"%char else c)
             (replace_backslash s')
  end.

(** The characters of a string. *)
Fixpoint occurs (c : ascii) (s : string) : Prop :=
  match s with
  | EmptyString => False
  | String x s' => x = c \/ occurs c s'
  end.

(** A relative path in normal form: no empty, [.] or [..] component.
    These are the remainders of the keys the upload pass derives. *)
Definition plain (comp : string) : bool :=
  negb (bool_decide (comp = "")) && negb (bool_decide (comp = "."))
  && negb (bool_decide (comp = "..")).

Definition plain_relative (rest : string) : bool :=
  forallb plain (posixpath.split rest).

(** The components [normpath] keeps: not empty, and without a slash. *)
Definition slash_free (s : string) : Prop := ~ occurs posixpath.sep s.

Definition good (comp : string) : Prop := comp <> "" /\ slash_free comp.

(** The characters [str.strip()] removes, among the first 256 code
    points. *)
Definition is_space (c : ascii) : bool :=
  let n := nat_of_ascii c in
  bool_decide (n = 32 \/ (9 <= n <= 13) \/ (28 <= n <= 31)
               \/ n = 133 \/ n = 160)%nat.

Fixpoint lstrip (s : string) : string :=
  match s with
  | String c s' => if is_space c then lstrip s' else s
  | EmptyString => EmptyString
  end.

Fixpoint rstrip (s : string) : string :=
  match s with
  | EmptyString => EmptyString
  | String c s' =>
      match rstrip s' with
      | EmptyString => if is_space c then EmptyString else String c EmptyString
      | r => String c r
      end
  end.

(** [s.strip()] *)
Definition strip (s : string) : string := rstrip (lstrip s).

Definition bytes_of_string (s : string) : list byte :=
  (fun a => hashlib.byte_of_Z (Z.of_N (N_of_ascii a))) <$> String.list_ascii_of_string s.

(** ** Exceptions and results *)

(** The exceptions the passes can see: [botocore]'s [ClientError], with
    the code found at [e.response['Error']['Code']], and every other
    subclass of [Exception]. Both carry their [str(e)]. *)
Inductive exn :=
| ClientError (code : string) (msg : string)
| OtherError (msg : string).

Definition str (e : exn) : string :=
  match e with
  | ClientError _ msg => msg
  | OtherError msg => msg
  end.

Inductive result (A : Type) :=
| Ok (a : A)
| Raise (e : exn).
Arguments Ok {A} a.
Arguments Raise {A} e.

(** ** The environment: local file system and storage SDK *)

(** An entry of a listing page: [obj['Key']], [obj['Size']]. *)
Record s3_object := S3Object { Key : string; Size : Z }.

(** A page of [list_objects_v2]; [Contents] is absent on an empty page. *)
Record page := Page { Contents : option (list s3_object) }.

(** Every operation may change the world and, except for [os_walk] and
    [os_getcwd], may raise. A transfer also reports the byte amounts it
    hands to its [Callback], in order, before it returns or raises.
    [paginate] gives the pages drained before the listing ended or
    failed. [running] is the cancellation flag of the browse tab, which
    the display thread shares with the worker and may change while any
    operation is going on. *)
Class Environment (W : Type) := {
  os_getcwd : W -> string;
  os_walk : string -> W -> list (string * list string) * W;
  os_path_getsize : string -> W -> result Z * W;
  open_rb : string -> W -> result (list byte) * W;
  os_makedirs : string -> W -> result unit * W;
  head_object : string -> string -> W -> result (gmap string string) * W;
  upload_file :
    string -> string -> string -> gmap string string -> W ->
    (list Z * result unit) * W;
  paginate : string -> string -> W -> (list page * option exn) * W;
  download_file :
    string -> string -> string -> W -> (list Z * result unit) * W;
  running : W -> bool;
  set_running : bool -> W -> W
}.

(** The calls a pass makes, in the order it makes them. *)
Inductive call :=
| Walk (top : string)
| Getsize (path : string)
| Open (path : string)
| Makedirs (path : string)
| HeadObject (Bucket Key : string)
| UploadFile (Filename Bucket Key : string) (Metadata : gmap string string)
| Paginate (Bucket Prefix : string)
| DownloadFile (Bucket Key Filename : string)
| Messagebox (kind title message : string).

Global Instance call_eq_dec : EqDecision call.
Proof. solve_decision. Defined.

Definition is_transfer (c : call) : bool :=
  match c with
  | UploadFile _ _ _ _ | DownloadFile _ _ _ => true
  | _ => false
  end.

Definition touches_local_tree (c : call) : bool :=
  match c with
  | Makedirs _ | DownloadFile _ _ _ => true
  | _ => false
  end.

(** ** The machine: world, call trace, and the fields of [self] *)

Record machine (W : Type) := Machine {
  world : W;
  calls : list call;
  log_text : list string;
  bytes_uploaded : Z;
  total_size : Z;
  bytes_downloaded : Z;
  total_download_size : Z;
  progress : Z * Z
}.
Arguments Machine {W}.
Arguments world {W}.
Arguments calls {W}.
Arguments log_text {W}.
Arguments bytes_uploaded {W}.
Arguments total_size {W}.
Arguments bytes_downloaded {W}.
Arguments total_download_size {W}.
Arguments progress {W}.

Definition M (W A : Type) : Type := machine W -> result A * machine W.

Definition ret {W A} (a : A) : M W A := fun m => (Ok a, m).

Definition bind {W A B} (c : M W A) (k : A -> M W B) : M W B :=
  fun m =>
    match c m with
    | (Ok a, m') => k a m'
    | (Raise e, m') => (Raise e, m')
    end.

Definition raise {W A} (e : exn) : M W A := fun m => (Raise e, m).

(** [try: body  except Exception as e: handler(e)] *)
Definition try_except {W A} (body : M W A) (handler : exn -> M W A) : M W A :=
  fun m =>
    match body m with
    | (Ok a, m') => (Ok a, m')
    | (Raise e, m') => handler e m'
    end.

(** [try: body  finally: final] *)
Definition try_finally {W A} (body : M W A) (final : M W unit) : M W A :=
  fun m =>
    match body m with
    | (r, m') =>
        match final m' with
        | (Ok _, m'') => (r, m'')
        | (Raise e, m'') => (Raise e, m'')
        end
    end.

Declare Scope py_scope.
Delimit Scope py_scope with py.
Notation "x <- c ;; k" := (bind c (fun x => k))
  (at level 100, c at next level, right associativity) : py_scope.
Notation "c ;;; k" := (bind c (fun _ => k))
  (at level 100, right associativity) : py_scope.
Local Open Scope py_scope.

(** [for x in l: body(x)] *)
Fixpoint for_each {W A} (l : list A) (body : A -> M W unit) : M W unit :=
  match l with
  | [] => ret tt
  | x :: rest => body x ;;; for_each rest body
  end.

(** A loop whose body may [break]: the body answers whether to go on. *)
Inductive flow := Next | Break.

Fixpoint for_each_break {W A} (l : list A) (body : A -> M W flow) : M W unit :=
  match l with
  | [] => ret tt
  | x :: rest =>
      f <- body x ;;
      match f with
      | Next => for_each_break rest body
      | Break => ret tt
      end
  end.

(** The file object of [open(file_path, "rb")] is the bytes not yet
    read; [f.read(4096)] hands out at most 4096 of them. The loop
    [for chunk in iter(lambda: f.read(4096), b"")] stops at the first
    empty chunk. *)
Equations? read_loop (f : list byte) (hash_md5 : hashlib.md5_state) :
    hashlib.md5_state by wf (length f) lt :=
  read_loop f hash_md5 with decide (take 4096 f = []) => {
    | left _ := hash_md5;
    | right _ := read_loop (drop 4096 f) (hashlib.update hash_md5 (take 4096 f)) }.
Proof. destruct f; [done|]. rewrite length_drop. simpl. lia. Qed.

(** Updates of one field of the machine. *)
Definition put_world {W} (w : W) (m : machine W) : machine W :=
  Machine w (calls m) (log_text m) (bytes_uploaded m) (total_size m)
    (bytes_downloaded m) (total_download_size m) (progress m).

Definition add_call {W} (c : call) (m : machine W) : machine W :=
  Machine (world m) (calls m ++ [c]) (log_text m) (bytes_uploaded m)
    (total_size m) (bytes_downloaded m) (total_download_size m) (progress m).

Definition add_log {W} (message : string) (m : machine W) : machine W :=
  Machine (world m) (calls m) (log_text m ++ [message]) (bytes_uploaded m)
    (total_size m) (bytes_downloaded m) (total_download_size m) (progress m).

Definition put_bytes_uploaded {W} (v : Z) (m : machine W) : machine W :=
  Machine (world m) (calls m) (log_text m) v (total_size m)
    (bytes_downloaded m) (total_download_size m) (progress m).

Definition put_total_size {W} (v : Z) (m : machine W) : machine W :=
  Machine (world m) (calls m) (log_text m) (bytes_uploaded m) v
    (bytes_downloaded m) (total_download_size m) (progress m).

Definition put_bytes_downloaded {W} (v : Z) (m : machine W) : machine W :=
  Machine (world m) (calls m) (log_text m) (bytes_uploaded m) (total_size m)
    v (total_download_size m) (progress m).

Definition put_total_download_size {W} (v : Z) (m : machine W) : machine W :=
  Machine (world m) (calls m) (log_text m) (bytes_uploaded m) (total_size m)
    (bytes_downloaded m) v (progress m).

Definition put_progress {W} (v : Z * Z) (m : machine W) : machine W :=
  Machine (world m) (calls m) (log_text m) (bytes_uploaded m) (total_size m)
    (bytes_downloaded m) (total_download_size m) v.

Section Primitives.
Context {W : Type} `{Environment W}.

Definition record (c : call) : M W unit := fun m => (Ok tt, add_call c m).

(** Run an operation of the environment on the current world. *)
Definition perform {A} (op : W -> A * W) : M W A :=
  fun m => let '(a, w) := op (world m) in (Ok a, put_world w m).

Definition lift {A} (r : result A) : M W A :=
  match r with
  | Ok a => ret a
  | Raise e => raise e
  end.

(** [self.log(message)], and [print(message)] in the headless job. *)
Definition log (message : string) : M W unit :=
  fun m => (Ok tt, add_log message m).

Definition get {A} (field : machine W -> A) : M W A := fun m => (Ok (field m), m).

Definition set_bytes_uploaded (v : Z) : M W unit :=
  fun m => (Ok tt, put_bytes_uploaded v m).

Definition set_total_size (v : Z) : M W unit :=
  fun m => (Ok tt, put_total_size v m).

Definition set_bytes_downloaded (v : Z) : M W unit :=
  fun m => (Ok tt, put_bytes_downloaded v m).

Definition set_total_download_size (v : Z) : M W unit :=
  fun m => (Ok tt, put_total_download_size v m).

(** [self.progress_bar.set(value)]; the pair [(n, d)] stands for the
    value [n / d]. *)
Definition progress_bar_set (value : Z * Z) : M W unit :=
  fun m => (Ok tt, put_progress value m).

(** [update_progress(current, total)]: the bar is set to
    [current / total if total > 0 else 0]. *)
Definition update_progress (current total : Z) : M W unit :=
  progress_bar_set (if 0 <? total then (current, total) else (0, 1)).

Definition getsize (path : string) : M W Z :=
  record (Getsize path) ;;;
  r <- perform (os_path_getsize path) ;; lift r.

Definition makedirs (path : string) : M W unit :=
  record (Makedirs path) ;;;
  r <- perform (os_makedirs path) ;; lift r.

Definition walk (top : string) : M W (list (string * list string)) :=
  record (Walk top) ;;; perform (os_walk top).

Definition getcwd : M W string := get (fun m => os_getcwd (world m)).

Definition relpath (path start : string) : M W string :=
  cwd <- getcwd ;;
  match posixpath.relpath cwd path start with
  | Some r => ret r
  | None => raise (OtherError "no path specified")
  end.

Definition s3_head_object (Bucket Key : string) : M W (gmap string string) :=
  record (HeadObject Bucket Key) ;;;
  r <- perform (head_object Bucket Key) ;; lift r.

(** [s3.upload_file(Filename, Bucket, Key, ExtraArgs={'Metadata': ..},
    Callback=..)] *)
Definition s3_upload_file (Filename Bucket Key : string)
    (Metadata : gmap string string) (Callback : Z -> M W unit) : M W unit :=
  record (UploadFile Filename Bucket Key Metadata) ;;;
  r <- perform (upload_file Filename Bucket Key Metadata) ;;
  for_each (fst r) Callback ;;;
  lift (snd r).

Definition s3_download_file (Bucket Key Filename : string)
    (Callback : Z -> M W unit) : M W unit :=
  record (DownloadFile Bucket Key Filename) ;;;
  r <- perform (download_file Bucket Key Filename) ;;
  for_each (fst r) Callback ;;;
  lift (snd r).

Definition messagebox (kind title message : string) : M W unit :=
  record (Messagebox kind title message).

(** [compute_md5(file_path)], the same in the three files. *)
Definition compute_md5 (file_path : string) : M W string :=
  record (Open file_path) ;;;
  r <- perform (open_rb file_path) ;;
  f <- lift r ;;
  ret (hashlib.hexdigest (read_loop f hashlib.md5)).

(** The enumeration that opens every upload pass:
    [for root, _, files in os.walk(local_dir): for file in files: ...] *)
Definition gather_file (local_dir root : string)
    (acc : Z * list (string * string)) (file : string) :
    M W (Z * list (string * string)) :=
  let full_path := posixpath.join root file in
  size <- getsize full_path ;;
  rel_path <- relpath full_path local_dir ;;
  ret (fst acc + size, snd acc ++ [(full_path, rel_path)]).

Fixpoint gather_files (local_dir root : string) (files : list string)
    (acc : Z * list (string * string)) : M W (Z * list (string * string)) :=
  match files with
  | [] => ret acc
  | file :: rest =>
      acc' <- gather_file local_dir root acc file ;;
      gather_files local_dir root rest acc'
  end.

Fixpoint gather_dirs (local_dir : string) (tree : list (string * list string))
    (acc : Z * list (string * string)) : M W (Z * list (string * string)) :=
  match tree with
  | [] => ret acc
  | (root, files) :: rest =>
      acc' <- gather_files local_dir root files acc ;;
      gather_dirs local_dir rest acc'
  end.

Definition gather (local_dir : string) : M W (Z * list (string * string)) :=
  tree <- walk local_dir ;;
  gather_dirs local_dir tree (0, []).

End Primitives.

(** The entry widgets a pass reads with [.get()]. *)
Record entries := Entries {
  entry_access : string;
  entry_secret : string;
  entry_bucket : string;
  entry_computer_id : string;
  backup_dir_entry : string;
  restore_dir_entry : string
}.

(** [x or "Default"] *)
Definition or_default (x : string) : string :=
  if bool_decide (x = "") then "Default" else x.

(** [(key, size)] pairs of every object on the pages, with their total. *)
Definition collect_page (acc : Z * list (string * Z)) (pg : page) :
    Z * list (string * Z) :=
  match Contents pg with
  | Some objs =>
      foldl (fun a obj => (fst a + Size obj, snd a ++ [(Key obj, Size obj)])) acc objs
  | None => acc
  end.

Definition collect_pages (pages : list page) : Z * list (string * Z) :=
  foldl collect_page (0, []) pages.

(** ** backupjob.py: the headless upload pass *)

Module backupjob.
Section Pass.
Context {W : Type} `{Environment W}.

Definition s3_key (computer_folder rel_path : string) : string :=
  replace_backslash ("backup/" +:+ computer_folder +:+ "/" +:+ rel_path).

(** The body of the loop over [file_list]. The inner [try] answers
    whether the iteration ends there ([continue]). *)
Definition backup_file (bucket computer_folder : string)
    (entry : string * string) : M W unit :=
  let '(full_path, rel_path) := entry in
  let s3_key := s3_key computer_folder rel_path in
  local_md5 <- compute_md5 full_path ;;
  try_except
    (skip <-
       try_except
         (response <- s3_head_object bucket s3_key ;;
          let s3_md5 := response !! "file_md5" in
          if bool_decide (s3_md5 = Some local_md5) then
            log ("Skipping " +:+ full_path +:+ " (no changes)") ;;;
            ret true
          else ret false)
         (fun e =>
            match e with
            | ClientError code _ =>
                if negb (bool_decide (code = "404")) then
                  log ("Error checking " +:+ s3_key +:+ ": " +:+ str e) ;;;
                  ret true
                else ret false
            | _ => raise e
            end) ;;
     if skip : bool then ret tt
     else
       s3_upload_file full_path bucket s3_key {[ "file_md5" := local_md5 ]}
         (fun _ => ret tt) ;;;
       log ("Uploaded " +:+ full_path +:+ " to s3://" +:+ bucket +:+ "/" +:+ s3_key))
    (fun e => log ("Error uploading " +:+ full_path +:+ ": " +:+ str e)).

Definition backup_directory (local_dir bucket access_key secret_key
    computer_folder : string) : M W unit :=
  gathered <- gather local_dir ;;
  for_each (snd gathered) (backup_file bucket computer_folder).

End Pass.
End backupjob.

(** ** Ver4.2.py: S3BackupApp *)

Module Ver4_2.
Section Pass.
Context {W : Type} `{Environment W}.

Definition get_s3_client (ui : entries) : M W bool :=
  let access_key := strip (entry_access ui) in
  let secret_key := strip (entry_secret ui) in
  if bool_decide (access_key = "") || bool_decide (secret_key = "") then
    messagebox "showerror" "Error" "Please provide AWS credentials." ;;;
    ret false
  else ret true.

Definition progress_callback (bytes_amount : Z) : M W unit :=
  b <- get bytes_uploaded ;;
  set_bytes_uploaded (b + bytes_amount) ;;;
  b' <- get bytes_uploaded ;;
  t <- get total_size ;;
  update_progress b' t.

Definition s3_key (prefix rel_path : string) : string :=
  replace_backslash (posixpath.join prefix rel_path).

Definition backup_file (bucket prefix : string)
    (entry : string * string) : M W unit :=
  let '(full_path, rel_path) := entry in
  let s3_key := s3_key prefix rel_path in
  local_md5 <- compute_md5 full_path ;;
  skip <-
    try_except
      (response <- s3_head_object bucket s3_key ;;
       let s3_md5 := response !! "file_md5" in
       if bool_decide (s3_md5 = Some local_md5) then
         log ("Skipping " +:+ full_path +:+ " (no changes)") ;;;
         size <- getsize full_path ;;
         b <- get bytes_uploaded ;;
         set_bytes_uploaded (b + size) ;;;
         progress_callback 0 ;;;
         ret true
       else ret false)
      (fun e =>
         match e with
         | ClientError code _ =>
             if negb (bool_decide (code = "404")) then
               log ("Error checking " +:+ s3_key +:+ ": " +:+ str e) ;;;
               ret true
             else ret false
         | _ => raise e
         end) ;;
  if skip : bool then ret tt
  else
    try_except
      (s3_upload_file full_path bucket s3_key {[ "file_md5" := local_md5 ]}
         progress_callback ;;;
       log ("Uploaded " +:+ full_path +:+ " to s3://" +:+ bucket +:+ "/" +:+ s3_key))
      (fun e => log ("Error uploading " +:+ full_path +:+ ": " +:+ str e)).

Definition backup_directory (ui : entries) : M W unit :=
  let local_dir := backup_dir_entry ui in
  let bucket := strip (entry_bucket ui) in
  let computer_folder := or_default (strip (entry_computer_id ui)) in
  let prefix := "backup/" +:+ computer_folder +:+ "/" in
  if bool_decide (local_dir = "") || bool_decide (bucket = "") then
    messagebox "showerror" "Error"
      "Please select a backup directory and enter a bucket name."
  else
    s3 <- get_s3_client ui ;;
    if negb s3 then ret tt
    else
      gathered <- gather local_dir ;;
      set_total_size (fst gathered) ;;;
      set_bytes_uploaded 0 ;;;
      progress_bar_set (0, 1) ;;;
      for_each (snd gathered) (backup_file bucket prefix).

Definition download_progress_callback (bytes_amount : Z) : M W unit :=
  b <- get bytes_downloaded ;;
  set_bytes_downloaded (b + bytes_amount) ;;;
  b' <- get bytes_downloaded ;;
  t <- get total_download_size ;;
  update_progress b' t.

(** The listing loop inside its [try]: a failure of the paginator
    raises out of the loop, whatever was accumulated. *)
Definition list_objects (bucket prefix : string) : M W (Z * list (string * Z)) :=
  record (Paginate bucket prefix) ;;;
  r <- perform (paginate bucket prefix) ;;
  match snd r with
  | None => ret (collect_pages (fst r))
  | Some e => raise e
  end.

Definition restore_object (bucket prefix restore_dir : string)
    (obj : string * Z) : M W unit :=
  let '(s3_key, size) := obj in
  rel_path <- relpath s3_key prefix ;;
  let local_path := posixpath.join restore_dir rel_path in
  makedirs (posixpath.dirname local_path) ;;;
  try_except
    (s3_download_file bucket s3_key local_path download_progress_callback ;;;
     log ("Downloaded " +:+ s3_key +:+ " to " +:+ local_path))
    (fun e => log ("Error downloading " +:+ s3_key +:+ ": " +:+ str e)).

Definition restore_backup (ui : entries) : M W unit :=
  let bucket := strip (entry_bucket ui) in
  let restore_dir := restore_dir_entry ui in
  let computer_folder := or_default (strip (entry_computer_id ui)) in
  let prefix := "backup/" +:+ computer_folder +:+ "/" in
  if bool_decide (bucket = "") || bool_decide (restore_dir = "") then
    messagebox "showerror" "Error"
      "Please enter bucket name and select restore directory."
  else
    s3 <- get_s3_client ui ;;
    if negb s3 then ret tt
    else
      listing <-
        try_except
          (l <- list_objects bucket prefix ;; ret (Some l))
          (fun e =>
             match e with
             | ClientError _ _ =>
                 log ("Error listing objects: " +:+ str e) ;;; ret None
             | _ => raise e
             end) ;;
      match listing with
      | None => ret tt
      | Some (total_download_size, object_list) =>
          set_total_download_size total_download_size ;;;
          set_bytes_downloaded 0 ;;;
          progress_bar_set (0, 1) ;;;
          for_each object_list (restore_object bucket prefix restore_dir)
      end.

Definition run_backup (ui : entries) : M W unit :=
  try_except
    (log "Starting backup..." ;;;
     backup_directory ui ;;;
     log "Backup completed successfully!" ;;;
     messagebox "showinfo" "Backup" "Backup completed successfully!")
    (fun e =>
       log ("Backup error: " +:+ str e) ;;;
       messagebox "showerror" "Backup Error" (str e)).

Definition run_restore (ui : entries) : M W unit :=
  try_except
    (log "Starting restore..." ;;;
     restore_backup ui ;;;
     log "Restore completed successfully!" ;;;
     messagebox "showinfo" "Restore" "Restore completed successfully!")
    (fun e =>
       log ("Restore error: " +:+ str e) ;;;
       messagebox "showerror" "Restore Error" (str e)).

End Pass.
End Ver4_2.

(** ** S3Sync.py: BackupFrame and BrowseRestoreFrame *)

(** A row of the browse tree: the columns Name, Size, Last Modified and
    S3 Key of [self.tree.item(item)['values']]. *)
Record tree_item := TreeItem {
  item_name : string;
  item_size : Z;
  item_last_modified : string;
  item_key : string
}.

Module S3Sync.
Section Pass.
Context {W : Type} `{Environment W}.

Definition get_s3_client (ui : entries) : M W bool :=
  let access_key := strip (entry_access ui) in
  let secret_key := strip (entry_secret ui) in
  if bool_decide (access_key = "") || bool_decide (secret_key = "") then
    messagebox "showerror" "Error" "Please provide AWS credentials." ;;;
    ret false
  else ret true.

Definition progress_callback (bytes_amount : Z) : M W unit :=
  b <- get bytes_uploaded ;;
  set_bytes_uploaded (b + bytes_amount) ;;;
  b' <- get bytes_uploaded ;;
  t <- get total_size ;;
  update_progress b' t.

Definition s3_key (prefix rel_path : string) : string :=
  replace_backslash (posixpath.join prefix rel_path).

Definition backup_file (bucket prefix : string)
    (entry : string * string) : M W unit :=
  let '(full_path, rel_path) := entry in
  let s3_key := s3_key prefix rel_path in
  local_md5 <- compute_md5 full_path ;;
  skip <-
    try_except
      (response <- s3_head_object bucket s3_key ;;
       let s3_md5 := response !! "file_md5" in
       if bool_decide (s3_md5 = Some local_md5) then
         log ("Skipping " +:+ full_path +:+ " (no changes)") ;;;
         size <- getsize full_path ;;
         b <- get bytes_uploaded ;;
         set_bytes_uploaded (b + size) ;;;
         b' <- get bytes_uploaded ;;
         t <- get total_size ;;
         update_progress b' t ;;;
         ret true
       else ret false)
      (fun _ => ret false) ;;
  if skip : bool then ret tt
  else
    try_except
      (s3_upload_file full_path bucket s3_key {[ "file_md5" := local_md5 ]}
         progress_callback ;;;
       log ("Uploaded " +:+ full_path +:+ " to s3://" +:+ bucket +:+ "/" +:+ s3_key))
      (fun e => log ("Error uploading " +:+ full_path +:+ ": " +:+ str e)).

Definition backup_directory (ui : entries) : M W unit :=
  let local_dir := backup_dir_entry ui in
  let bucket := strip (entry_bucket ui) in
  let computer_folder := or_default (strip (entry_computer_id ui)) in
  let prefix := "backup/" +:+ computer_folder +:+ "/" in
  if bool_decide (local_dir = "") || bool_decide (bucket = "") then
    messagebox "showerror" "Error"
      "Please select a backup directory and enter a bucket name."
  else
    s3 <- get_s3_client ui ;;
    if negb s3 then ret tt
    else
      gathered <- gather local_dir ;;
      set_total_size (fst gathered) ;;;
      set_bytes_uploaded 0 ;;;
      progress_bar_set (0, 1) ;;;
      for_each (snd gathered) (backup_file bucket prefix).

Definition download_progress_callback (bytes_amount : Z) : M W unit :=
  b <- get bytes_downloaded ;;
  set_bytes_downloaded (b + bytes_amount) ;;;
  b' <- get bytes_downloaded ;;
  t <- get total_download_size ;;
  update_progress b' t.

Definition list_objects (bucket prefix : string) : M W (Z * list (string * Z)) :=
  record (Paginate bucket prefix) ;;;
  r <- perform (paginate bucket prefix) ;;
  match snd r with
  | None => ret (collect_pages (fst r))
  | Some e => raise e
  end.

Definition restore_object (bucket prefix restore_dir : string)
    (obj : string * Z) : M W unit :=
  let '(s3_key, size) := obj in
  rel_path <- relpath s3_key prefix ;;
  let local_path := posixpath.join restore_dir rel_path in
  makedirs (posixpath.dirname local_path) ;;;
  try_except
    (s3_download_file bucket s3_key local_path download_progress_callback ;;;
     log ("Downloaded " +:+ s3_key +:+ " to " +:+ local_path))
    (fun e => log ("Error downloading " +:+ s3_key +:+ ": " +:+ str e)).

Definition restore_backup (ui : entries) : M W unit :=
  let bucket := strip (entry_bucket ui) in
  let restore_dir := restore_dir_entry ui in
  let computer_folder := or_default (strip (entry_computer_id ui)) in
  let prefix := "backup/" +:+ computer_folder +:+ "/" in
  if bool_decide (bucket = "") || bool_decide (restore_dir = "") then
    messagebox "showerror" "Error"
      "Please enter bucket name and select restore directory."
  else
    s3 <- get_s3_client ui ;;
    if negb s3 then ret tt
    else
      listing <-
        try_except
          (l <- list_objects bucket prefix ;; ret (Some l))
          (fun e => log ("Error listing objects: " +:+ str e) ;;; ret None) ;;
      match listing with
      | None => ret tt
      | Some (total_download_size, object_list) =>
          set_total_download_size total_download_size ;;;
          set_bytes_downloaded 0 ;;;
          progress_bar_set (0, 1) ;;;
          for_each object_list (restore_object bucket prefix restore_dir)
      end.

Definition run_backup (ui : entries) : M W unit :=
  try_except
    (log "Starting backup..." ;;;
     backup_directory ui ;;;
     log "Backup completed successfully!" ;;;
     messagebox "showinfo" "Backup" "Backup completed successfully!")
    (fun e =>
       log ("Backup error: " +:+ str e) ;;;
       messagebox "showerror" "Backup Error" (str e)).

Definition run_restore (ui : entries) : M W unit :=
  try_except
    (log "Starting restore..." ;;;
     restore_backup ui ;;;
     log "Restore completed successfully!" ;;;
     messagebox "showinfo" "Restore" "Restore completed successfully!")
    (fun e =>
       log ("Restore error: " +:+ str e) ;;;
       messagebox "showerror" "Restore Error" (str e)).

(** *** BrowseRestoreFrame *)

Definition browse_get_s3_client (ui : entries) : M W bool :=
  let access_key := strip (entry_access ui) in
  let secret_key := strip (entry_secret ui) in
  if bool_decide (access_key = "") || bool_decide (secret_key = "") then
    messagebox "showerror" "Error" "AWS credentials required" ;;;
    ret false
  else ret true.

Definition is_running : M W bool := perform (fun w => (running w, w)).

Definition clear_running : M W unit :=
  perform (fun w => (tt, set_running false w)).

(** The callback of the browse tab; the deferred
    [self.after(10, self.update_progress, ...)] is taken at once. *)
Definition browse_progress_callback (total_size : Z) (bytes_amount : Z) :
    M W unit :=
  b <- get bytes_downloaded ;;
  set_bytes_downloaded (b + bytes_amount) ;;;
  b' <- get bytes_downloaded ;;
  update_progress b' total_size.

(** The body of the loop over [selected_items]. *)
Definition restore_item (ui : entries) (bucket restore_dir : string)
    (total_size : Z) (item : tree_item) : M W flow :=
  r <- is_running ;;
  if negb r then ret Break
  else
    let s3_key := item_key item in
    rel_path <-
      relpath s3_key ("backup/" +:+ or_default (strip (entry_computer_id ui))) ;;
    let local_path := posixpath.join restore_dir rel_path in
    makedirs (posixpath.dirname local_path) ;;;
    try_except
      (s3_download_file bucket s3_key local_path
         (browse_progress_callback total_size) ;;;
       log ("Successfully restored: " +:+ posixpath.basename local_path))
      (fun e => log ("Failed to restore " +:+ s3_key +:+ ": " +:+ str e)) ;;;
    ret Next.

(** [ui] holds the entries of the backup tab, except
    [restore_dir_entry], which is the browse tab's own. *)
Definition restore_selected_files (ui : entries)
    (selected_items : list tree_item) : M W unit :=
  try_finally
    (try_except
       (if bool_decide (selected_items = []) then
          messagebox "showwarning" "Warning" "No files selected for restore"
        else
          let restore_dir := strip (restore_dir_entry ui) in
          if bool_decide (restore_dir = "") then
            messagebox "showerror" "Error" "Please select a restore directory"
          else
            s3 <- browse_get_s3_client ui ;;
            if negb s3 then ret tt
            else
              let bucket := strip (entry_bucket ui) in
              let total_size := foldl Z.add 0 (item_size <$> selected_items) in
              set_bytes_downloaded 0 ;;;
              progress_bar_set (0, 1) ;;;
              for_each_break selected_items
                (restore_item ui bucket restore_dir total_size) ;;;
              r <- is_running ;;
              (if r : bool then
                 messagebox "showinfo" "Restore Complete"
                   "Selected files restoration completed"
               else ret tt) ;;;
              clear_running)
       (fun e =>
          log ("Restore error: " +:+ str e) ;;;
          messagebox "showerror" "Error" ("Restore failed: " +:+ str e)))
    clear_running.

End Pass.
End S3Sync.

(** ** The three upload passes, side by side *)

Inductive variant := Headless | Pro | Tabbed.

Definition prefix_of (computer_folder : string) : string :=
  "backup/" +:+ computer_folder +:+ "/".

Definition key_of (v : variant) (computer_folder rel_path : string) : string :=
  match v with
  | Headless => backupjob.s3_key computer_folder rel_path
  | Pro => Ver4_2.s3_key (prefix_of computer_folder) rel_path
  | Tabbed => S3Sync.s3_key (prefix_of computer_folder) rel_path
  end.

Definition backup_file_of {W} `{Environment W} (v : variant)
    (bucket computer_folder : string) : string * string -> M W unit :=
  match v with
  | Headless => backupjob.backup_file bucket computer_folder
  | Pro => Ver4_2.backup_file bucket (prefix_of computer_folder)
  | Tabbed => S3Sync.backup_file bucket (prefix_of computer_folder)
  end.

(** The loop over [file_list] of each pass. *)
Definition backup_loop {W} `{Environment W} (v : variant)
    (bucket computer_folder : string) (file_list : list (string * string)) :
    M W unit :=
  for_each file_list (backup_file_of v bucket computer_folder).

Definition sum_amounts (amounts : list Z) : Z := foldr Z.add 0 amounts.

(** The lines the passes log. *)
Definition skipping_line (full_path : string) : string :=
  "Skipping " +:+ full_path +:+ " (no changes)".

Definition check_error_line (s3_key : string) (e : exn) : string :=
  "Error checking " +:+ s3_key +:+ ": " +:+ str e.

Definition uploaded_line (full_path bucket s3_key : string) : string :=
  "Uploaded " +:+ full_path +:+ " to s3://" +:+ bucket +:+ "/" +:+ s3_key.

Definition upload_error_line (full_path : string) (e : exn) : string :=
  "Error uploading " +:+ full_path +:+ ": " +:+ str e.

Definition listing_error_line (e : exn) : string :=
  "Error listing objects: " +:+ str e.

Definition downloaded_line (s3_key local_path : string) : string :=
  "Downloaded " +:+ s3_key +:+ " to " +:+ local_path.

Definition download_error_line (s3_key : string) (e : exn) : string :=
  "Error downloading " +:+ s3_key +:+ ": " +:+ str e.

Definition restored_line (local_path : string) : string :=
  "Successfully restored: " +:+ posixpath.basename local_path.

Definition restore_failed_line (s3_key : string) (e : exn) : string :=
  "Failed to restore " +:+ s3_key +:+ ": " +:+ str e.

(** The line a transfer leaves in the log, by its outcome. *)
Definition transfer_line (done : string) (failed : exn -> string)
    (res : result unit) : string :=
  match res with
  | Ok _ => done
  | Raise e => failed e
  end.

(** The decision of a pass on the answer of the metadata fetch: the
    answers after which it goes on to upload the file. *)
Definition wants_upload (v : variant) (r : result (gmap string string))
    (local_md5 : string) : Prop :=
  match r with
  | Ok metadata => metadata !! "file_md5" <> Some local_md5
  | Raise (ClientError code _) => code = "404" \/ v = Tabbed
  | Raise (OtherError _) => v = Tabbed
  end.

(** A callback that only moves counters and the bar. *)
Definition quiet {W} (cb : Z -> M W unit) : Prop :=
  forall amounts m, exists m',
    for_each amounts cb m = (Ok tt, m')
    /\ world m' = world m /\ calls m' = calls m /\ log_text m' = log_text m.

(** The entries with which a restore pass gets as far as the listing. *)
Definition restore_ready (ui : entries) : bool :=
  negb (bool_decide (strip (entry_bucket ui) = ""))
  && negb (bool_decide (restore_dir_entry ui = ""))
  && negb (bool_decide (strip (entry_access ui) = ""))
  && negb (bool_decide (strip (entry_secret ui) = "")).

(** The calls made after the first [n]. *)
Definition calls_since {W} (n : nat) (m : machine W) : list call :=
  drop n (calls m).

(** ** An in-memory world

    Local files by path, one bucket of objects by key, and tables of
    injected faults. It is used to run the passes on concrete inputs. *)

Module Mock.

Record mock := MockWorld {
  cwd : string;
  tree : list (string * list string);
  files : gmap string (list byte);
  dirs : list string;
  objects : gmap string (list byte * gmap string string);
  head_faults : gmap string exn;
  upload_faults : gmap string exn;
  download_faults : gmap string exn;
  makedirs_faults : gmap string exn;
  listing_fault : option exn;
  flag : bool;
  cancel_during : option string
}.

Definition size_of (content : list byte) : Z := Z.of_nat (length content).

Definition with_files (w : mock) (fs : gmap string (list byte)) (fl : bool) : mock :=
  MockWorld (cwd w) (tree w) fs (dirs w) (objects w) (head_faults w)
    (upload_faults w) (download_faults w) (makedirs_faults w)
    (listing_fault w) fl (cancel_during w).

Definition with_dirs (w : mock) (ds : list string) : mock :=
  MockWorld (cwd w) (tree w) (files w) ds (objects w) (head_faults w)
    (upload_faults w) (download_faults w) (makedirs_faults w)
    (listing_fault w) (flag w) (cancel_during w).

Definition with_objects (w : mock)
    (os : gmap string (list byte * gmap string string)) : mock :=
  MockWorld (cwd w) (tree w) (files w) (dirs w) os (head_faults w)
    (upload_faults w) (download_faults w) (makedirs_faults w)
    (listing_fault w) (flag w) (cancel_during w).

Definition not_found : exn :=
  ClientError "404" "An error occurred (404) when calling the HeadObject operation: Not Found".

Definition no_such_file (path : string) : exn :=
  OtherError ("[Errno 2] No such file or directory: '" +:+ path +:+ "'").

Definition mock_getsize (path : string) (w : mock) : result Z * mock :=
  match files w !! path with
  | Some content => (Ok (size_of content), w)
  | None => (Raise (no_such_file path), w)
  end.

Definition mock_open (path : string) (w : mock) : result (list byte) * mock :=
  match files w !! path with
  | Some content => (Ok content, w)
  | None => (Raise (no_such_file path), w)
  end.

Definition mock_makedirs (path : string) (w : mock) : result unit * mock :=
  match makedirs_faults w !! path with
  | Some e => (Raise e, w)
  | None =>
      if bool_decide (path = "") then (Raise (no_such_file path), w)
      else (Ok tt, with_dirs w (path :: dirs w))
  end.

Definition mock_head (Bucket Key : string) (w : mock) :
    result (gmap string string) * mock :=
  match head_faults w !! Key with
  | Some e => (Raise e, w)
  | None =>
      match objects w !! Key with
      | Some (_, metadata) => (Ok metadata, w)
      | None => (Raise not_found, w)
      end
  end.

Definition mock_upload (Filename Bucket Key : string)
    (Metadata : gmap string string) (w : mock) : (list Z * result unit) * mock :=
  match upload_faults w !! Key with
  | Some e => (([], Raise e), w)
  | None =>
      match files w !! Filename with
      | Some content =>
          (([size_of content], Ok tt),
           with_objects w (<[Key := (content, Metadata)]> (objects w)))
      | None => (([], Raise (no_such_file Filename)), w)
      end
  end.

Definition listed (Prefix : string) (w : mock) : list s3_object :=
  (fun kv => S3Object (fst kv) (size_of (fst (snd kv))))
    <$> filter (fun kv => String.prefix Prefix (fst kv) = true)
          (map_to_list (objects w)).

Definition mock_paginate (Bucket Prefix : string) (w : mock) :
    (list page * option exn) * mock :=
  let pages :=
    match listed Prefix w with
    | [] => [Page None]
    | objs => [Page (Some objs)]
    end in
  ((pages, listing_fault w), w).

Definition mock_download (Bucket Key Filename : string) (w : mock) :
    (list Z * result unit) * mock :=
  match download_faults w !! Key with
  | Some e => (([], Raise e), w)
  | None =>
      match objects w !! Key with
      | Some (content, _) =>
          (([size_of content], Ok tt),
           with_files w (<[Filename := content]> (files w))
             (if bool_decide (cancel_during w = Some Key) then false else flag w))
      | None => (([], Raise not_found), w)
      end
  end.

Definition mock_set_running (b : bool) (w : mock) : mock :=
  with_files w (files w) b.

#[global] Instance mock_environment : Environment mock := {
  os_getcwd := cwd;
  os_walk := fun _ w => (tree w, w);
  os_path_getsize := mock_getsize;
  open_rb := mock_open;
  os_makedirs := mock_makedirs;
  head_object := mock_head;
  upload_file := mock_upload;
  paginate := mock_paginate;
  download_file := mock_download;
  running := flag;
  set_running := mock_set_running
}.

Definition start (w : mock) : machine mock := Machine w [] [] 0 0 0 0 (0, 1).

(** The scenario of the specification: [a.txt] holding "hello" and
    [sub/b.txt] holding "world" under [/data]. *)
Definition laptop : mock :=
  MockWorld "/home/u"
    [("/data", ["a.txt"]); ("/data/sub", ["b.txt"])]
    {[ "/data/a.txt" := bytes_of_string "hello";
       "/data/sub/b.txt" := bytes_of_string "world" ]}
    [] ∅ ∅ ∅ ∅ ∅ None false None.

Definition ui : entries :=
  Entries "AKIA" "secret" "bucket" "" "/data" "/out".

Definition with_head_fault (w : mock) (key : string) (e : exn) : mock :=
  MockWorld (cwd w) (tree w) (files w) (dirs w) (objects w)
    (<[key := e]> (head_faults w))
    (upload_faults w) (download_faults w) (makedirs_faults w)
    (listing_fault w) (flag w) (cancel_during w).

Definition with_upload_fault (w : mock) (key : string) (e : exn) : mock :=
  MockWorld (cwd w) (tree w) (files w) (dirs w) (objects w) (head_faults w)
    (<[key := e]> (upload_faults w)) (download_faults w) (makedirs_faults w)
    (listing_fault w) (flag w) (cancel_during w).

Definition with_download_fault (w : mock) (key : string) (e : exn) : mock :=
  MockWorld (cwd w) (tree w) (files w) (dirs w) (objects w) (head_faults w)
    (upload_faults w) (<[key := e]> (download_faults w)) (makedirs_faults w)
    (listing_fault w) (flag w) (cancel_during w).

Definition with_listing_fault (w : mock) (e : exn) : mock :=
  MockWorld (cwd w) (tree w) (files w) (dirs w) (objects w) (head_faults w)
    (upload_faults w) (download_faults w) (makedirs_faults w)
    (Some e) (flag w) (cancel_during w).

Definition with_cancel_during (w : mock) (key : string) : mock :=
  MockWorld (cwd w) (tree w) (files w) (dirs w) (objects w) (head_faults w)
    (upload_faults w) (download_faults w) (makedirs_faults w)
    (listing_fault w) (flag w) (Some key).

(** The world a pass leaves behind. *)
Definition after {A} (r : result A * machine mock) : mock := world (snd r).

Definition with_flag (w : mock) (b : bool) : mock := mock_set_running b w.

Definition a_txt : string * string := ("/data/a.txt", "a.txt").
Definition b_txt : string * string := ("/data/sub/b.txt", "sub/b.txt").

(** The laptop once its two files are in the bucket. *)
Definition synced : mock :=
  after (S3Sync.backup_directory ui (start laptop)).

(** The bucket holds [a.txt] without fingerprint metadata. *)
Definition untagged : mock :=
  with_objects laptop {[ "backup/Default/a.txt" := (bytes_of_string "hello", ∅) ]}.

Definition internal_error : exn :=
  ClientError "500"
    "An error occurred (500) when calling the HeadObject operation: Internal Server Error".

Definition timed_out : exn := OtherError "Read timeout on endpoint URL".

(** The metadata of [a.txt] cannot be fetched. *)
Definition flaky : mock :=
  with_head_fault laptop "backup/Default/a.txt" internal_error.

(** The upload of [a.txt] times out. *)
Definition upload_broken : mock :=
  with_upload_fault laptop "backup/Default/a.txt" timed_out.

(** The download of [sub/b.txt] times out. *)
Definition download_broken : mock :=
  with_download_fault synced "backup/Default/sub/b.txt" timed_out.

(** The listing fails after its first page. *)
Definition unlistable : mock := with_listing_fault synced internal_error.

Definition unreachable : mock := with_listing_fault synced timed_out.

(** A file is already where [a.txt] is to be restored. *)
Definition stale : mock :=
  with_files synced (<["/out/a.txt" := bytes_of_string "old"]> (files synced)) false.

(** The user clicks the button again while [a.txt] is coming down. *)
Definition interrupted : mock :=
  with_cancel_during (with_flag synced true) "backup/Default/a.txt".

Definition selected : list tree_item :=
  [ TreeItem "a.txt" 5 "2024-05-01 10:00:00" "backup/Default/a.txt";
    TreeItem "b.txt" 5 "2024-05-01 10:00:01" "backup/Default/sub/b.txt" ].

End Mock.

(** ** Further worlds *)

Module Cases.

(** [a.txt] was edited after the last backup. *)
Definition edited : Mock.mock :=
  Mock.with_files Mock.synced
    (<["/data/a.txt" := bytes_of_string "HELLO"]> (Mock.files Mock.synced)) false.

(** [a.txt] was listed by the walk and is gone when it is to be read. *)
Definition vanished : Mock.mock :=
  Mock.with_files Mock.laptop (delete "/data/a.txt" (Mock.files Mock.laptop)) false.

(** The metadata fetch of [a.txt] times out. *)
Definition slow : Mock.mock :=
  Mock.with_head_fault Mock.laptop "backup/Default/a.txt" Mock.timed_out.

(** A world in which files can be read but not measured: the in-memory
    world with a size query that always fails. *)
Record unsized := Unsized { inner : Mock.mock }.

Definition on_inner {A} (op : Mock.mock -> A * Mock.mock) (w : unsized) :
    A * unsized :=
  (fst (op (inner w)), Unsized (snd (op (inner w)))).

#[global] Instance unsized_environment : Environment unsized := {
  os_getcwd := fun w => Mock.cwd (inner w);
  os_walk := fun top => on_inner (fun w => (Mock.tree w, w));
  os_path_getsize := fun path w => (Raise (Mock.no_such_file path), w);
  open_rb := fun path => on_inner (Mock.mock_open path);
  os_makedirs := fun path => on_inner (Mock.mock_makedirs path);
  head_object := fun b k => on_inner (Mock.mock_head b k);
  upload_file := fun f b k md => on_inner (Mock.mock_upload f b k md);
  paginate := fun b p => on_inner (Mock.mock_paginate b p);
  download_file := fun b k f => on_inner (Mock.mock_download b k f);
  running := fun w => Mock.flag (inner w);
  set_running := fun b w => Unsized (Mock.mock_set_running b (inner w))
}.

Definition start_unsized (w : Mock.mock) : machine unsized :=
  Machine (Unsized w) [] [] 0 0 0 0 (0, 1).

End Cases.

(** ** Notions for the enumeration and the validation *)

(** The full paths of a walk, in the order the enumeration visits them. *)
Definition walked_paths (tree : list (string * list string)) : list string :=
  tree ≫= (fun entry => posixpath.join (fst entry) <$> snd entry).

(** The calls of the enumeration: the walk and the size queries. *)
Definition is_enumeration (c : call) : bool :=
  match c with
  | Walk _ | Getsize _ => true
  | _ => false
  end.

(** The size queries of [paths], one after the other from the world [w],
    as long as each of them answers: the total of the sizes added to
    [total], and the world they leave. *)
Fixpoint measured {W} `{Environment W} (paths : list string) (total : Z) (w : W) :
    option (Z * W) :=
  match paths with
  | [] => Some (total, w)
  | path :: rest =>
      match os_path_getsize path w with
      | (Ok size, w') => measured rest (total + size) w'
      | (Raise _, _) => None
      end
  end.

(** The entries with which an upload pass of the two windows gets as far
    as the enumeration. *)
Definition backup_ready (ui : entries) : bool :=
  negb (bool_decide (backup_dir_entry ui = ""))
  && negb (bool_decide (strip (entry_bucket ui) = ""))
  && negb (bool_decide (strip (entry_access ui) = ""))
  && negb (bool_decide (strip (entry_secret ui) = "")).

(** The error box of a pass that is not ready. *)
Definition backup_refusal (ui : entries) : string :=
  if bool_decide (backup_dir_entry ui = "")
     || bool_decide (strip (entry_bucket ui) = "")
  then "Please select a backup directory and enter a bucket name."
  else "Please provide AWS credentials.".

Definition restore_refusal (ui : entries) : string :=
  if bool_decide (strip (entry_bucket ui) = "")
     || bool_decide (restore_dir_entry ui = "")
  then "Please enter bucket name and select restore directory."
  else "Please provide AWS credentials.".

(** ** Notions for the selective restore *)

(** The entries with which the selective restore reaches its loop. *)
Definition browse_ready (ui : entries) : bool :=
  negb (bool_decide (strip (restore_dir_entry ui) = ""))
  && negb (bool_decide (strip (entry_access ui) = ""))
  && negb (bool_decide (strip (entry_secret ui) = "")).

Module Walls.

(** The directory [/out/sub] cannot be made. *)
Definition read_only : Mock.mock :=
  Mock.MockWorld (Mock.cwd Mock.synced) (Mock.tree Mock.synced)
    (Mock.files Mock.synced) (Mock.dirs Mock.synced) (Mock.objects Mock.synced)
    (Mock.head_faults Mock.synced) (Mock.upload_faults Mock.synced)
    (Mock.download_faults Mock.synced)
    {[ "/out/sub" := OtherError "[Errno 13] Permission denied: '/out/sub'" ]}
    (Mock.listing_fault Mock.synced) true (Mock.cancel_during Mock.synced).

End Walls.

(** ** Notions for whole runs *)

(** A file that is in the bucket as it is on the disk, in a world that
    reading, asking and measuring leave as it is. *)
Definition unchanged {W} `{Environment W} (v : variant) (bucket ns : string)
    (sizes : string -> Z) (w : W) (entry : string * string) : Prop :=
  exists content metadata,
    open_rb (fst entry) w = (Ok content, w)
    /\ head_object bucket (key_of v ns (snd entry)) w = (Ok metadata, w)
    /\ metadata !! "file_md5" = Some (hashlib.md5_oneshot content)
    /\ os_path_getsize (fst entry) w = (Ok (sizes (fst entry)), w).

(** [page.get('Contents', [])] *)
Definition page_objects (pg : page) : list s3_object :=
  default [] (Contents pg).

(** The objects of a listing, page after page. *)
Definition listed_objects (pages : list page) : list s3_object :=
  pages ≫= page_objects.

(** ** Ver4.2.py: the scheduled backup *)

Module Scheduler.

Definition TIME_CONVERSIONS : gmap string Z :=
  {[ "Seconds" := 1000; "Minutes" := 60000; "Hours" := 3600000;
     "Days" := 86400000 ]}.

(** The timers of the window: [self.after(ms, callback)] answers the
    identifier of a new timer, [self.after_cancel(id)] drops one. *)
Class Toolkit (T : Type) := {
  after : Z -> T -> string * T;
  after_cancel : string -> T -> T
}.

(** The requests made to the timers, in order; the callback of every
    [after] is [self.scheduled_backup]. *)
Inductive tk_call :=
| After (ms : Z)
| AfterCancel (id : string).

(** [self.scheduled_job] and the timers of the window. *)
Record app (T : Type) := App {
  scheduled_job : option string;
  toolkit : T;
  tk_calls : list tk_call
}.
Arguments App {T}.
Arguments scheduled_job {T}.
Arguments toolkit {T}.
Arguments tk_calls {T}.

(** The two widgets of the schedule row. *)
Record schedule_entries := ScheduleEntries {
  entry_interval : string;
  interval_unit : string
}.

Section Schedule.
Context {W : Type} `{Environment W} {T : Type} `{Toolkit T}.

(** [int(s)] of the interpreter, [None] for its [ValueError], and the
    [repr] of a string, which is the text of the [KeyError] of a
    dictionary. *)
Variable python_int : string -> option Z.
Variable repr : string -> string.

Definition start_scheduled_backup (se : schedule_entries) (a : app T) :
    M W (app T) :=
  if bool_decide (scheduled_job a <> None) then
    messagebox "showinfo" "Info" "Scheduled backup already running" ;;;
    ret a
  else
    match python_int (entry_interval se) with
    | None =>
        messagebox "showerror" "Error" "Invalid interval value" ;;;
        ret a
    | Some interval =>
        let unit := interval_unit se in
        match TIME_CONVERSIONS !! unit with
        | None => raise (OtherError (repr unit))
        | Some factor =>
            let delay := interval * factor in
            let '(job, tk) := after delay (toolkit a) in
            let a' := App (Some job) tk (tk_calls a ++ [After delay]) in
            log ("Scheduled backup started (every " +:+ pretty interval
                 +:+ " " +:+ unit +:+ ")") ;;;
            ret a'
        end
    end.

(** [if self.scheduled_job:] is the truth of an optional string. *)
Definition stop_scheduled_backup (a : app T) : M W (app T) :=
  match scheduled_job a with
  | Some job =>
      if bool_decide (job = "") then ret a
      else
        let a' :=
          App None (after_cancel job (toolkit a))
            (tk_calls a ++ [AfterCancel job]) in
        log "Scheduled backup stopped" ;;;
        ret a'
  | None => ret a
  end.

(** The callback of the timer. *)
Definition scheduled_backup (ui : entries) (se : schedule_entries)
    (a : app T) : M W (app T) :=
  Ver4_2.run_backup ui ;;;
  start_scheduled_backup se a.

End Schedule.

(** Timers numbered as Tk numbers them. *)
#[global] Instance counting_toolkit : Toolkit nat := {
  after := fun _ n => ("after#" +:+ pretty n, Datatypes.S n);
  after_cancel := fun _ n => n
}.

(** [int] on strings of ASCII digits. *)
Definition decimal (s : string) : option Z :=
  if bool_decide (s = "") then None
  else
    foldl (fun acc c =>
             let d := nat_of_ascii c in
             match acc with
             | Some n =>
                 if bool_decide (48 <= d <= 57)%nat
                 then Some (10 * n + Z.of_nat (d - 48))
                 else None
             | None => None
             end)
      (Some 0) (list_ascii_of_string s).

(** [repr] on strings of letters. *)
Definition quoted (s : string) : string := "'" +:+ s +:+ "'".

End Scheduler.

(** ** backupjob.py: the script around the headless pass *)

Module Job.

(** What the script does on the desktop, in order. *)
Inductive job_event :=
| Notify (title message app_name : string)
| Sleep (seconds : Z).

(** The host of the script:
    [logging.basicConfig(filename='backup_log.txt', ...)], which opens
    the log file, and
    [notification.notify(title=..., message=..., app_name=...)]. *)
Class Desktop (D : Type) := {
  basic_config : D -> result unit * D;
  notify : string -> string -> string -> D -> result unit * D
}.

(** [main] sets the root logger to [DEBUG] on the log file: what the SDK
    logs while the client is made, and during each of its calls, goes
    to the same file as the lines of the script. *)
Class Chatty (W : Type) := {
  client_records : string -> string -> W -> list string;
  call_records : call -> W -> list string
}.

(** The world of the script: the file system and the bucket of the pass,
    the desktop, the messages of the records in [backup_log.txt] and
    the events so far. *)
Record job_world (W D : Type) := JobWorld {
  storage : W;
  desktop : D;
  backup_log : list string;
  events : list job_event
}.
Arguments JobWorld {W D}.
Arguments storage {W D}.
Arguments desktop {W D}.
Arguments backup_log {W D}.
Arguments events {W D}.

(** An operation of [os]: it logs nothing. *)
Definition on_storage {W D A} (op : W -> A * W) (w : job_world W D) :
    A * job_world W D :=
  (fst (op (storage w)),
   JobWorld (snd (op (storage w))) (desktop w) (backup_log w) (events w)).

(** A call of the SDK: its records are added to the log file. *)
Definition on_sdk {W D A} `{Chatty W} (c : call) (op : W -> A * W)
    (w : job_world W D) : A * job_world W D :=
  (fst (op (storage w)),
   JobWorld (snd (op (storage w))) (desktop w)
     (backup_log w ++ call_records c (storage w)) (events w)).

#[global] Instance job_environment {W D} `{Environment W} `{Chatty W} :
    Environment (job_world W D) := {
  os_getcwd := fun w => os_getcwd (storage w);
  os_walk := fun top => on_storage (os_walk top);
  os_path_getsize := fun path => on_storage (os_path_getsize path);
  open_rb := fun path => on_storage (open_rb path);
  os_makedirs := fun path => on_storage (os_makedirs path);
  head_object := fun b k => on_sdk (HeadObject b k) (head_object b k);
  upload_file := fun f b k md =>
    on_sdk (UploadFile f b k md) (upload_file f b k md);
  paginate := fun b p => on_sdk (Paginate b p) (paginate b p);
  download_file := fun b k f =>
    on_sdk (DownloadFile b k f) (download_file b k f);
  running := fun w => running (storage w);
  set_running := fun b w =>
    JobWorld (set_running b (storage w)) (desktop w) (backup_log w) (events w)
}.

(** The options of the section [Settings] by name, each with what
    [settings.get] answers for it: its value, or the exception that the
    interpolation of the value raises. *)
Definition section := gmap string (result string).

(** [settings.get(option, fallback)] *)
Definition settings_get (settings : section) (option fallback : string) :
    result string :=
  match settings !! option with
  | Some r => r
  | None => Ok fallback
  end.

Definition and_then {A B} (r : result A) (k : A -> result B) : result B :=
  match r with
  | Ok a => k a
  | Raise e => Raise e
  end.

(** [config] is what [config.read(CONFIG_FILE)] leaves: an exception for
    a file it cannot parse, no section when there is no file or no
    section [Settings], the section otherwise. The answer [None] stands
    for the five [None]s. *)
Definition load_config (config : result (option section)) :
    result (option (string * string * string * string * string)) :=
  and_then config (fun found =>
  match found with
  | Some settings =>
      and_then (settings_get settings "aws_access_key" "") (fun aws_access_key =>
      and_then (settings_get settings "aws_secret_key" "") (fun aws_secret_key =>
      and_then (settings_get settings "bucket_name" "") (fun bucket_name =>
      and_then (settings_get settings "computer_id" "Default") (fun computer_id =>
      and_then (settings_get settings "backup_dir" "") (fun backup_dir =>
      Ok (Some (aws_access_key, aws_secret_key, bucket_name, computer_id,
                backup_dir)))))))
  | None => Ok None
  end).

Section Script.
Context {W D : Type} `{Environment W} `{Chatty W} `{Desktop D}.

(** [print(message)] goes where the pass prints. *)
Definition print (message : string) : M (job_world W D) unit :=
  fun m => (Ok tt, add_log message m).

Definition logging_basicConfig : M (job_world W D) unit :=
  r <- perform (fun w =>
         let '(r, d) := basic_config (desktop w) in
         (r, JobWorld (storage w) d (backup_log w) (events w))) ;;
  lift r.

(** [log(message)]: a record of [backup_log.txt]. *)
Definition log (message : string) : M (job_world W D) unit :=
  perform (fun w =>
    (tt, JobWorld (storage w) (desktop w) (backup_log w ++ [message]) (events w))).

(** [get_s3_client(access_key, secret_key)]: making the client is
    logged by the SDK. *)
Definition get_s3_client (access_key secret_key : string) :
    M (job_world W D) unit :=
  perform (fun w =>
    (tt, JobWorld (storage w) (desktop w)
           (backup_log w ++ client_records access_key secret_key (storage w))
           (events w))).

(** [backup_directory] as the script runs it: the client is made, then
    the pass goes over the tree. *)
Definition backup_directory (local_dir bucket access_key secret_key
    computer_folder : string) : M (job_world W D) unit :=
  get_s3_client access_key secret_key ;;;
  backupjob.backup_directory local_dir bucket access_key secret_key
    computer_folder.

Definition show_windows_notification (message : string) :
    M (job_world W D) unit :=
  r <- perform (fun w =>
         let '(r, d) := notify "S3Sync" message "S3Sync" (desktop w) in
         (r, JobWorld (storage w) d (backup_log w)
               (events w ++ [Notify "S3Sync" message "S3Sync"]))) ;;
  lift r.

(** [time.sleep(seconds)] *)
Definition sleep (seconds : Z) : M (job_world W D) unit :=
  perform (fun w =>
    (tt, JobWorld (storage w) (desktop w) (backup_log w)
           (events w ++ [Sleep seconds]))).

Definition refuse : M (job_world W D) unit :=
  print "Error: Please provide valid AWS credentials, bucket name, and backup directory in config.ini." ;;;
  log "Error: Invalid AWS credentials, bucket name, or backup directory.".

Definition main (config : result (option section)) : M (job_world W D) unit :=
  logging_basicConfig ;;;
  log "Backup script started." ;;;
  loaded <- lift (load_config config) ;;
  match loaded with
  | None => refuse
  | Some (access_key, secret_key, bucket, computer_folder, local_dir) =>
      if bool_decide (access_key = "") || bool_decide (secret_key = "")
         || bool_decide (bucket = "") || bool_decide (local_dir = "")
      then refuse
      else
        log ("Starting backup for " +:+ local_dir +:+ "...") ;;;
        backup_directory local_dir bucket access_key secret_key
          computer_folder ;;;
        log "Backup completed successfully." ;;;
        show_windows_notification "Backup completed successfully!" ;;;
        sleep 5 ;;;
        log "Backup script completed."
  end.

End Script.

(** The configuration the script goes on to the pass with. *)
Definition config_ready (config : result (option section)) : bool :=
  match load_config config with
  | Ok (Some (access_key, secret_key, bucket, _, local_dir)) =>
      negb (bool_decide (access_key = "")) && negb (bool_decide (secret_key = ""))
      && negb (bool_decide (bucket = "")) && negb (bool_decide (local_dir = ""))
  | _ => false
  end.

(** The configuration that is read and found wanting. *)
Definition config_refused (config : result (option section)) : bool :=
  match load_config config with
  | Ok (Some (access_key, secret_key, bucket, _, local_dir)) =>
      bool_decide (access_key = "") || bool_decide (secret_key = "")
      || bool_decide (bucket = "") || bool_decide (local_dir = "")
  | Ok None => true
  | Raise _ => false
  end.

(** A desktop on which the log file can be opened, and notifications
    work or not. *)
#[global] Instance bool_desktop : Desktop bool := {
  basic_config := fun works => (Ok tt, works);
  notify := fun _ _ _ works =>
    (if works then Ok tt
     else Raise (OtherError "No usable implementation found!"), works)
}.

(** An SDK that logs one record for the client and one per call. *)
#[global] Instance mock_chatty : Chatty Mock.mock := {
  client_records := fun _ _ _ => ["Setting config variable for region"];
  call_records := fun c _ =>
    match c with
    | HeadObject _ Key => ["Making request for OperationModel(name=HeadObject) " +:+ Key]
    | UploadFile _ _ Key _ => ["Making request for OperationModel(name=PutObject) " +:+ Key]
    | _ => []
    end
}.

(** The file the windows save, with the user directory left blank. *)
Definition saved : section :=
  {[ "aws_access_key" := Ok "AKIA"; "aws_secret_key" := Ok "secret";
     "bucket_name" := Ok "bucket"; "computer_id" := Ok ""; "backup_dir" := Ok "/data";
     "restore_dir" := Ok "/out"; "interval" := Ok "60";
     "interval_unit" := Ok "Minutes" ]}.

(** A value that cannot be interpolated. *)
Definition bad_percent : exn :=
  OtherError "'%' must be followed by '%' or '(', found: '%'".

Definition start {W D} (w : W) (d : D) : machine (job_world W D) :=
  Machine (JobWorld w d [] []) [] [] 0 0 0 0 (0, 1).

End Job.

(** ** Properties of the world that a computation keeps *)

Definition keeps {W A} (P : W -> Prop) (c : M W A) : Prop :=
  forall m, P (world m) -> P (world (snd (c m))).

(** A property of the world that the operations of a pass of
    [backupjob.py] preserve. *)
Record respects {W} `{Environment W} (P : W -> Prop) : Prop := Respects {
  respects_walk : forall top w, P w -> P (snd (os_walk top w));
  respects_getsize : forall path w, P w -> P (snd (os_path_getsize path w));
  respects_open : forall path w, P w -> P (snd (open_rb path w));
  respects_head : forall b k w, P w -> P (snd (head_object b k w));
  respects_upload : forall f b k md w, P w -> P (snd (upload_file f b k md w))
}.

(** ** The shape of a fingerprint *)

Definition lower_hex (c : ascii) : bool :=
  bool_decide (c ∈ list_ascii_of_string "0123456789abcdef").

(** Thirty-two lowercase hexadecimal digits. *)
Definition is_fingerprint (s : string) : bool :=
  bool_decide (String.length s = 32%nat)
  && forallb lower_hex (list_ascii_of_string s).

(** * Properties *)

(** Reading a field of an updated machine. *)
Ltac machine_simpl :=
  cbn [world calls log_text bytes_uploaded total_size bytes_downloaded
       total_download_size progress put_world add_call add_log
       put_bytes_uploaded put_total_size put_bytes_downloaded
       put_total_download_size put_progress fst snd] in *.

(** ** The digest *)

Example md5_empty : hashlib.md5_oneshot [] = "d41d8cd98f00b204e9800998ecf8427e".
Proof. vm_compute. reflexivity. Qed.

Example md5_hello :
  hashlib.md5_oneshot (bytes_of_string "hello") = "5d41402abc4b2a76b9719d911017c592".
Proof. vm_compute. reflexivity. Qed.

Example md5_two_blocks :
  hashlib.md5_oneshot
    (bytes_of_string
       "12345678901234567890123456789012345678901234567890123456789012345678901234567890")
  = "57edf4a22be3c955ac49da2e2107b67a".
Proof. vm_compute. reflexivity. Qed.

Example md5_two_chunks :
  hashlib.hexdigest (read_loop (replicate 5000 "a"%byte) hashlib.md5)
  = "7aaa7dec709fa4fa82f3746abfd80bdb".
Proof. vm_compute. reflexivity. Qed.

Example md5_stream_hello :
  hashlib.hexdigest (hashlib.update hashlib.md5 (bytes_of_string "hello"))
  = "5d41402abc4b2a76b9719d911017c592".
Proof. vm_compute. reflexivity. Qed.

Section Digest.
Import hashlib.

Lemma absorb_step h buf :
  absorb h buf =
    if decide (64 <= length buf)%nat
    then absorb (compress h (take 64 buf)) (drop 64 buf)
    else (h, buf).
Proof.
  rewrite absorb_equation_1 at 1.
  destruct (decide (64 <= length buf)%nat); reflexivity.
Qed.

Lemma absorb_short h buf : (length buf < 64)%nat -> absorb h buf = (h, buf).
Proof. intros Hlt. rewrite absorb_step. case_decide; [lia | reflexivity]. Qed.

(** Feeding [a] and then [b] absorbs the same blocks as feeding
    [a ++ b] at once. *)
Lemma absorb_app a : forall h b,
  absorb h (a ++ b) = absorb (absorb h a).1 ((absorb h a).2 ++ b).
Proof.
  remember (length a) as n eqn:Hn. revert a Hn.
  induction n as [n IH] using lt_wf_ind. intros a Hn h b.
  rewrite (absorb_step h a). case_decide as Hlen.
  - rewrite (absorb_step h (a ++ b)).
    rewrite decide_True by (rewrite length_app; lia).
    rewrite take_app_le, drop_app_le by lia.
    apply (IH (length (drop 64 a))); [rewrite length_drop; lia | reflexivity].
  - reflexivity.
Qed.

Lemma blocks_unfold b bs :
  blocks (b :: bs) = take 64 (b :: bs) :: blocks (drop 64 (b :: bs)).
Proof. simp blocks. reflexivity. Qed.

(** On a whole number of blocks, the streaming absorption is the fold
    of the compression function. *)
Lemma absorb_blocks l : forall h,
  (length l mod 64 = 0)%nat -> absorb h l = (foldl compress h (blocks l), []).
Proof.
  remember (length l) as n eqn:Hn. revert l Hn.
  induction n as [n IH] using lt_wf_ind. intros l Hn h Hmod.
  destruct l as [|b bs].
  - rewrite absorb_short by (simpl; lia). simp blocks. reflexivity.
  - assert (64 <= length (b :: bs))%nat as Hge.
    { rewrite <- Hn. simpl in Hn.
      destruct (decide (n < 64)%nat) as [Hlt|]; [|lia].
      rewrite Nat.mod_small in Hmod by lia. lia. }
    rewrite absorb_step, decide_True by exact Hge.
    rewrite blocks_unfold. cbn [foldl].
    apply (IH (length (drop 64 (b :: bs)))); [rewrite length_drop; lia | reflexivity |].
    rewrite length_drop, <- Hn.
    rewrite <- Hn in Hge.
    rewrite <- (Nat.Div0.mod_add (n - 64) 1 64).
    replace (n - 64 + 1 * 64)%nat with n by lia. exact Hmod.
Qed.

Lemma length_le_bytes n x : length (le_bytes n x) = n.
Proof. revert x. induction n; intros; simpl; [|rewrite IHn]; reflexivity. Qed.

Lemma padded_length (msg : list byte) :
  (length (msg ++ padding (Z.of_nat (length msg))) mod 64 = 0)%nat.
Proof.
  unfold padding. rewrite length_app. cbn [length].
  rewrite length_app, length_replicate, length_le_bytes.
  set (n := Z.of_nat (length msg)).
  assert (0 <= (55 - n) mod 64 < 64) as Hr by (apply Z.mod_pos_bound; lia).
  apply Nat2Z.inj. rewrite Nat2Z.inj_mod.
  rewrite Nat2Z.inj_add. cbn [Z.of_nat].
  rewrite !Nat2Z.inj_succ, Nat2Z.inj_add, Z2Nat.id by lia.
  fold n. change (Z.of_nat 8) with 8. change (Z.of_nat 64) with 64.
  change (Z.of_nat 0) with 0.
  pose proof (Z.div_mod (55 - n) 64 ltac:(lia)) as Hdm.
  replace (n + Z.succ ((55 - n) mod 64 + 8))
    with ((1 - (55 - n) / 64) * 64) by lia.
  apply Z.mod_mul. lia.
Qed.

Lemma update_app st a b : update (update st a) b = update st (a ++ b).
Proof.
  unfold update.
  rewrite (app_assoc (pending st) a b), (absorb_app (pending st ++ a)).
  destruct (absorb (h_regs st) (pending st ++ a)) as [h1 r1].
  cbn [h_regs pending nbytes fst snd].
  destruct (absorb h1 (r1 ++ b)) as [h2 r2].
  f_equal. rewrite length_app. lia.
Qed.

Lemma digest_update_nil st : digest (update st []) = digest st.
Proof.
  unfold digest, update. rewrite app_nil_r.
  rewrite (absorb_app (pending st) (h_regs st) (padding (nbytes st))).
  destruct (absorb (h_regs st) (pending st)) as [h1 r1].
  cbn [h_regs pending nbytes fst snd length Z.of_nat].
  rewrite Z.add_0_r. reflexivity.
Qed.

Lemma read_loop_step f st :
  read_loop f st =
    if decide (take 4096 f = []) then st
    else read_loop (drop 4096 f) (update st (take 4096 f)).
Proof.
  rewrite read_loop_equation_1 at 1.
  destruct (decide (take 4096 f = [])); reflexivity.
Qed.

(** The chunk loop feeds the object exactly the bytes of the file. *)
Lemma read_loop_update f : forall st,
  digest (read_loop f st) = digest (update st f).
Proof.
  remember (length f) as n eqn:Hn. revert f Hn.
  induction n as [n IH] using lt_wf_ind. intros f Hn st.
  rewrite read_loop_step.
  destruct (decide (take 4096 f = [])) as [Hnil|Hne].
  - destruct f; [|discriminate]. symmetry. apply digest_update_nil.
  - rewrite (IH (length (drop 4096 f))); [| |reflexivity].
    + rewrite update_app, take_drop. reflexivity.
    + destruct f; [done|]. rewrite length_drop. subst n. simpl. lia.
Qed.

(** One [update] with the whole message gives the digest of RFC 1321. *)
Lemma hexdigest_update_oneshot msg :
  hexdigest (update md5 msg) = md5_oneshot msg.
Proof.
  unfold hexdigest, digest, md5_oneshot, update, md5.
  cbn [h_regs pending nbytes app].
  destruct (absorb iv msg) as [h1 r1] eqn:E.
  cbn [h_regs pending nbytes]. rewrite Z.add_0_l.
  pose proof (absorb_app msg iv (padding (Z.of_nat (length msg)))) as Happ.
  rewrite E in Happ. cbn [fst snd] in Happ. rewrite <- Happ.
  rewrite absorb_blocks by apply padded_length. reflexivity.
Qed.

Lemma read_loop_oneshot f :
  hexdigest (read_loop f md5) = md5_oneshot f.
Proof.
  unfold hexdigest. rewrite read_loop_update.
  apply hexdigest_update_oneshot.
Qed.

End Digest.

(** ** Paths and keys *)

Section Strings.

Lemma append_cons (c : ascii) (a b : string) :
  String c a +:+ b = String c (a +:+ b).
Proof. reflexivity. Qed.

Lemma append_nil_l (s : string) : "" +:+ s = s.
Proof. reflexivity. Qed.

Lemma append_nil_r (s : string) : s +:+ "" = s.
Proof.
  induction s as [|c s IH]; [reflexivity|].
  rewrite append_cons, IH. reflexivity.
Qed.

Lemma append_assoc (a b c : string) : (a +:+ b) +:+ c = a +:+ (b +:+ c).
Proof.
  induction a as [|x a IH]; [reflexivity|].
  rewrite !append_cons, IH. reflexivity.
Qed.

Lemma length_append (a b : string) :
  String.length (a +:+ b) = (String.length a + String.length b)%nat.
Proof.
  induction a as [|x a IH]; [reflexivity|].
  rewrite append_cons. simpl. rewrite IH. reflexivity.
Qed.

Lemma append_inv_length (a b c d : string) :
  String.length a = String.length b -> a +:+ c = b +:+ d -> a = b /\ c = d.
Proof.
  revert b. induction a as [|x a IH]; intros [|y b] Hlen Heq;
    try discriminate.
  - split; [reflexivity | exact Heq].
  - rewrite !append_cons in Heq.
    injection Heq as -> Heq. injection Hlen as Hlen.
    destruct (IH b Hlen Heq) as [-> ->]. split; reflexivity.
Qed.

(** Cancellation of a common suffix. *)
Lemma append_cancel_r (a b c : string) : a +:+ c = b +:+ c -> a = b.
Proof.
  intros Heq.
  assert (String.length a = String.length b) as Hlen.
  { apply (f_equal String.length) in Heq. rewrite !length_append in Heq. lia. }
  apply (append_inv_length a b c c Hlen Heq).
Qed.

Lemma replace_backslash_append (a b : string) :
  replace_backslash (a +:+ b) = replace_backslash a +:+ replace_backslash b.
Proof.
  induction a as [|x a IH]; [reflexivity|].
  rewrite append_cons. simpl. rewrite IH, append_cons. reflexivity.
Qed.

Lemma replace_backslash_length (a : string) :
  String.length (replace_backslash a) = String.length a.
Proof. induction a as [|x a IH]; [reflexivity | simpl; f_equal; exact IH]. Qed.

Lemma replace_backslash_free (s : string) :
  ~ occurs "\"%char (replace_backslash s).
Proof.
  induction s as [|x s IH]; simpl; [tauto|].
  intros [Hx | Hs]; [|tauto].
  case_bool_decide; [discriminate | congruence].
Qed.

Lemma replace_backslash_id (s : string) :
  ~ occurs "\"%char s -> replace_backslash s = s.
Proof.
  induction s as [|x s IH]; simpl; [reflexivity|].
  intros Hno. rewrite IH by tauto.
  case_bool_decide; [subst; tauto | reflexivity].
Qed.

Lemma replace_backslash_literal (ns rel : string) :
  replace_backslash ("backup/" +:+ ns +:+ "/" +:+ rel)
  = "backup/" +:+ replace_backslash ns +:+ "/" +:+ replace_backslash rel.
Proof.
  rewrite !replace_backslash_append. reflexivity.
Qed.

Lemma join_relative (prefix rel : string) :
  posixpath.startswith_sep rel = false ->
  posixpath.join (prefix +:+ "/") rel = prefix +:+ "/" +:+ rel.
Proof.
  intros Hrel. unfold posixpath.join. rewrite Hrel.
  assert (posixpath.endswith_sep (prefix +:+ "/") = true) as ->.
  { induction prefix as [|x [|y p] IH]; simpl in *; try reflexivity. exact IH. }
  rewrite orb_true_r, append_assoc. reflexivity.
Qed.

(** Keys of two namespaces with the same relative path differ as soon
    as the namespaces differ after normalisation. *)
Lemma backupjob_key_distinct (ns1 ns2 rel : string) :
  replace_backslash ns1 <> replace_backslash ns2 ->
  backupjob.s3_key ns1 rel <> backupjob.s3_key ns2 rel.
Proof.
  intros Hne Heq. apply Hne. unfold backupjob.s3_key in Heq.
  rewrite !replace_backslash_literal in Heq.
  apply (inj (String.append "backup/")) in Heq.
  rewrite <- !append_assoc in Heq.
  apply append_cancel_r in Heq. apply append_cancel_r in Heq. exact Heq.
Qed.

End Strings.

Section Relpath.
Import posixpath.

Lemma split_not_nil s : split s <> [].
Proof.
  destruct s as [|c s]; simpl; [discriminate|].
  case_bool_decide; [discriminate|]. destruct (split s); discriminate.
Qed.

Lemma split_append_sep a b : split (a +:+ String sep b) = split a ++ split b.
Proof.
  induction a as [|c a IH]; [reflexivity|].
  rewrite append_cons. simpl. rewrite IH.
  case_bool_decide; [reflexivity|].
  pose proof (split_not_nil a). destruct (split a); [done | reflexivity].
Qed.

Lemma split_slash_free s : Forall slash_free (split s).
Proof.
  induction s as [|c s IH]; simpl.
  - repeat constructor. intros [].
  - case_bool_decide as Hc.
    + constructor; [intros [] | exact IH].
    + pose proof (split_not_nil s). destruct (split s) as [|h t]; [done|].
      inversion IH as [|? ? Hh Ht]; subst. constructor; [|exact Ht].
      intros [Hx | Hx]; [congruence | exact (Hh Hx)].
Qed.

Lemma join_sep_cons c comps :
  comps <> [] -> join_sep (c :: comps) = c +:+ String sep (join_sep comps).
Proof. destruct comps; [done | reflexivity]. Qed.

Lemma join_sep_split s : join_sep (split s) = s.
Proof.
  induction s as [|c s IH]; [reflexivity|]. simpl.
  pose proof (split_not_nil s) as Hne.
  case_bool_decide as Hc.
  - rewrite join_sep_cons by exact Hne. rewrite IH, Hc. reflexivity.
  - destruct (split s) as [|h [|h' t]]; [done | |].
    + simpl in *. rewrite IH. reflexivity.
    + rewrite join_sep_cons in IH |- * by discriminate.
      rewrite append_cons, IH. reflexivity.
Qed.

Lemma split_slash_free_id c : slash_free c -> split c = [c].
Proof.
  induction c as [|x c IH]; [reflexivity|]. intros Hfree. simpl.
  rewrite bool_decide_eq_false_2 by (intros ->; apply Hfree; left; reflexivity).
  rewrite IH; [reflexivity|]. intros Hc. apply Hfree. right. exact Hc.
Qed.

Lemma split_join_sep comps :
  comps <> [] -> Forall slash_free comps -> split (join_sep comps) = comps.
Proof.
  induction comps as [|c comps IH]; [done|]. intros _ Hall.
  inversion Hall as [|? ? Hc Hrest]; subst.
  destruct comps as [|c' comps'].
  - apply split_slash_free_id. exact Hc.
  - rewrite join_sep_cons by discriminate.
    rewrite split_append_sep, split_slash_free_id by exact Hc.
    rewrite IH by (done || exact Hrest). reflexivity.
Qed.

Lemma split_slashes k s :
  split (string_of_list_ascii (replicate k sep) +:+ s) = replicate k "" ++ split s.
Proof.
  induction k as [|k IH]; [reflexivity|].
  cbn [replicate string_of_list_ascii]. rewrite append_cons.
  cbn [split]. rewrite bool_decide_eq_true_2 by reflexivity.
  rewrite IH. reflexivity.
Qed.

Lemma filter_nonempty_good comps :
  Forall good comps -> filter (fun x => nonempty x = true) comps = comps.
Proof.
  induction 1 as [|c comps [Hc _] _ IH]; [reflexivity|].
  rewrite filter_cons_True, IH; [reflexivity|].
  unfold nonempty. rewrite bool_decide_eq_false_2 by exact Hc. reflexivity.
Qed.

Lemma filter_nonempty_replicate k :
  filter (fun x => nonempty x = true) (replicate k "") = [].
Proof.
  induction k as [|k IH]; [reflexivity|]. cbn [replicate].
  rewrite filter_cons_False; [exact IH|]. unfold nonempty. simpl. discriminate.
Qed.

(** Splitting an absolute normal path gives back its components. *)
Lemma filter_split_abs k comps :
  Forall good comps ->
  filter (fun x => nonempty x = true)
    (split (string_of_list_ascii (replicate k sep) +:+ join_sep comps)) = comps.
Proof.
  intros Hgood. rewrite split_slashes, filter_app, filter_nonempty_replicate.
  destruct comps as [|c comps]; [reflexivity|].
  rewrite split_join_sep.
  - apply filter_nonempty_good. exact Hgood.
  - discriminate.
  - eapply Forall_impl; [exact Hgood|]. intros ? [_ ?]. assumption.
Qed.

Lemma norm_step_rooted k1 k2 acc comp :
  (k1 = 0%nat <-> k2 = 0%nat) -> norm_step k1 acc comp = norm_step k2 acc comp.
Proof.
  intros Hk. unfold norm_step.
  replace (bool_decide (k1 = 0%nat)) with (bool_decide (k2 = 0%nat));
    [reflexivity|]. apply bool_decide_ext. tauto.
Qed.

Lemma plain_spec comp :
  plain comp = true -> comp <> "" /\ comp <> "." /\ comp <> "..".
Proof.
  unfold plain. rewrite !andb_true_iff, !negb_true_iff.
  intros [[H1 H2] H3].
  apply bool_decide_eq_false in H1, H2, H3. tauto.
Qed.

Lemma norm_step_plain k acc comp :
  plain comp = true -> norm_step k acc comp = comp :: acc.
Proof.
  intros Hp. apply plain_spec in Hp as (H1 & H2 & H3). unfold norm_step.
  rewrite (bool_decide_eq_false_2 _ H1), (bool_decide_eq_false_2 _ H2),
    (bool_decide_eq_false_2 _ H3). reflexivity.
Qed.

Lemma foldl_norm_plain k comps : forall acc,
  forallb plain comps = true ->
  foldl (norm_step k) acc comps = rev comps ++ acc.
Proof.
  induction comps as [|c comps IH]; intros acc Hall; [reflexivity|].
  simpl in Hall. apply andb_true_iff in Hall as [Hc Hall].
  cbn [foldl]. rewrite norm_step_plain by exact Hc.
  rewrite IH by exact Hall. cbn [rev]. rewrite <- app_assoc. reflexivity.
Qed.

Lemma norm_step_good k acc comp :
  Forall good acc -> slash_free comp -> Forall good (norm_step k acc comp).
Proof.
  intros Hacc Hfree. unfold norm_step.
  destruct (bool_decide (comp = "")) eqn:He; [exact Hacc|].
  apply bool_decide_eq_false in He. cbn [orb].
  destruct (bool_decide (comp = ".")); [exact Hacc|].
  match goal with |- Forall _ (if ?b then _ else _) => destruct b end.
  - constructor; [split; assumption | exact Hacc].
  - destruct acc; [constructor|]. inversion Hacc; assumption.
Qed.

Lemma foldl_norm_good k comps : forall acc,
  Forall good acc -> Forall slash_free comps ->
  Forall good (foldl (norm_step k) acc comps).
Proof.
  induction comps as [|c comps IH]; intros acc Hacc Hall; [exact Hacc|].
  inversion Hall; subst. cbn [foldl].
  apply IH; [apply norm_step_good|]; assumption.
Qed.

Lemma commonprefix_len_app l r : commonprefix_len l (l ++ r) = length l.
Proof.
  induction l as [|x l IH]; [destruct r; reflexivity|].
  simpl. rewrite bool_decide_eq_true_2 by reflexivity. rewrite IH. reflexivity.
Qed.

Lemma startswith_append a b :
  a <> "" -> startswith_sep (a +:+ b) = startswith_sep a.
Proof. destruct a; [done | reflexivity]. Qed.

Lemma endswith_cons c s : s <> "" -> endswith_sep (String c s) = endswith_sep s.
Proof. destruct s; [done | reflexivity]. Qed.

Lemma append_not_nil_r a b : b <> "" -> a +:+ b <> "".
Proof. destruct a; [intros ?; assumption | rewrite append_cons; discriminate]. Qed.

Lemma endswith_append a b :
  b <> "" -> endswith_sep (a +:+ b) = endswith_sep b.
Proof.
  intros Hb. induction a as [|c a IH]; [reflexivity|].
  rewrite append_cons, endswith_cons by (apply append_not_nil_r; exact Hb).
  exact IH.
Qed.

Lemma endswith_slash_free y : slash_free y -> endswith_sep y = false.
Proof.
  induction y as [|c y IH]; [reflexivity|]. intros Hfree.
  destruct y as [|c' y'].
  - simpl. apply bool_decide_eq_false_2. intros ->. apply Hfree. left. reflexivity.
  - rewrite endswith_cons by discriminate. apply IH.
    intros Hy. apply Hfree. right. exact Hy.
Qed.

Lemma startswith_good y : good y -> startswith_sep y = false.
Proof.
  intros [Hne Hfree]. destruct y as [|c y]; [done|]. simpl.
  apply bool_decide_eq_false_2. intros ->. apply Hfree. left. reflexivity.
Qed.

Lemma join_append cwd x y :
  x <> "" -> startswith_sep x = false ->
  join cwd (x +:+ y) = join cwd x +:+ y.
Proof.
  intros Hx Hrel. unfold join.
  rewrite startswith_append, Hrel by exact Hx.
  destruct (bool_decide (cwd = "") || endswith_sep cwd);
    rewrite ?append_assoc, ?append_cons; reflexivity.
Qed.

Lemma join_rooted cwd x :
  startswith_sep cwd = true -> startswith_sep x = false ->
  startswith_sep (join cwd x) = true.
Proof.
  intros Hcwd Hx. unfold join. rewrite Hx.
  assert (cwd <> "") as Hne by (intros ->; discriminate).
  destruct (bool_decide (cwd = "") || endswith_sep cwd);
    rewrite startswith_append by exact Hne; exact Hcwd.
Qed.

(** On good components, joining one by one is joining with slashes. *)
Lemma join_all_join_sep p : forall a,
  a <> "" -> endswith_sep a = false -> Forall good p ->
  join_all a p = join_sep (a :: p).
Proof.
  unfold join_all.
  induction p as [|y p IH]; intros a Ha Hend Hall; [reflexivity|].
  inversion Hall as [|? ? Hy Hp]; subst. cbn [foldl].
  assert (join a y = a +:+ String sep y) as ->.
  { unfold join. rewrite (startswith_good y Hy), Hend.
    rewrite bool_decide_eq_false_2 by exact Ha. reflexivity. }
  rewrite IH; [| apply append_not_nil_r; discriminate | | exact Hp].
  - destruct p as [|y' p']; [reflexivity|].
    rewrite !join_sep_cons by discriminate.
    rewrite append_assoc, append_cons. reflexivity.
  - rewrite endswith_append by discriminate.
    rewrite endswith_cons by (apply Hy).
    apply endswith_slash_free, Hy.
Qed.

Lemma count_initial_slashes_rooted p :
  startswith_sep p = true -> count_initial_slashes p <> 0%nat.
Proof.
  intros Hp. unfold count_initial_slashes. rewrite Hp.
  destruct (_ && _); discriminate.
Qed.

(** The components of the absolute form of a relative path, as
    [relpath] splits them. *)
Lemma abspath_components cwd p :
  startswith_sep cwd = true -> startswith_sep p = false ->
  filter (fun x => nonempty x = true) (split (abspath cwd p))
  = rev (foldl (norm_step 1) [] (split (join cwd p))).
Proof.
  intros Hcwd Hp. unfold abspath. rewrite Hp.
  pose proof (join_rooted cwd p Hcwd Hp) as Hroot.
  pose proof (count_initial_slashes_rooted _ Hroot) as Hk.
  set (q := join cwd p) in *. unfold normpath.
  assert (q <> "") as Hq by (intros Heq; rewrite Heq in Hroot; discriminate).
  rewrite (bool_decide_eq_false_2 _ Hq).
  set (k := count_initial_slashes q) in *.
  assert (foldl (norm_step k) [] (split q) = foldl (norm_step 1) [] (split q)) as ->.
  { generalize (@nil string). induction (split q) as [|c l IH]; intros acc;
      [reflexivity|].
    cbn [foldl]. rewrite (norm_step_rooted k 1) by lia. apply IH. }
  assert (Forall good (rev (foldl (norm_step 1) [] (split q)))) as Hgood.
  { apply Forall_rev, foldl_norm_good; [constructor | apply split_slash_free]. }
  rewrite bool_decide_eq_false_2.
  - apply filter_split_abs. exact Hgood.
  - destruct k as [|k]; [done|]. cbn [replicate string_of_list_ascii].
    rewrite append_cons. discriminate.
Qed.

(** [relpath] of a key under the prefix it starts with is the rest of
    the key, when that rest is a relative path in normal form. *)
Lemma relpath_strip cwd p0 rest :
  startswith_sep cwd = true ->
  p0 <> "" -> startswith_sep p0 = false ->
  plain_relative rest = true ->
  relpath cwd (p0 +:+ "/" +:+ rest) (p0 +:+ "/") = Some rest.
Proof.
  intros Hcwd Hp0 Hrel Hplain. unfold relpath.
  rewrite bool_decide_eq_false_2 by (apply append_not_nil_r; discriminate).
  rewrite !abspath_components
    by (try exact Hcwd; rewrite startswith_append by exact Hp0; exact Hrel).
  rewrite !join_append by assumption.
  set (Q := join cwd p0).
  change (Q +:+ "/" +:+ rest) with (Q +:+ String sep rest).
  change (Q +:+ "/") with (Q +:+ String sep "").
  rewrite !split_append_sep, !foldl_app.
  set (F := foldl (norm_step 1) [] (split Q)).
  change (foldl (norm_step 1) F (split "")) with F.
  rewrite foldl_norm_plain by exact Hplain.
  rewrite rev_app_distr, rev_involutive.
  rewrite commonprefix_len_app, Nat.sub_diag. cbn [replicate app].
  rewrite drop_app_length.
  pose proof (split_not_nil rest) as Hne.
  pose proof (split_slash_free rest) as Hfree.
  pose proof (join_sep_split rest) as Hjoin.
  unfold plain_relative in Hplain.
  destruct (split rest) as [|a p]; [done|].
  cbn [forallb] in Hplain. apply andb_true_iff in Hplain as [Ha Hp].
  apply Forall_cons in Hfree as [Hfa Hfp].
  apply plain_spec in Ha as (Ha & _).
  rewrite join_all_join_sep, Hjoin; [reflexivity | exact Ha | |].
  - apply endswith_slash_free. exact Hfa.
  - apply Forall_forall. intros y Hy. split.
    + rewrite forallb_forall in Hp.
      apply list_elem_of_In in Hy.
      apply plain_spec, Hp, Hy.
    + rewrite Forall_forall in Hfp. apply Hfp, Hy.
Qed.

End Relpath.

(** ** Running the primitives *)

Section Runs.
Context {W : Type} `{Environment W}.

Lemma bind_ok {A B} (c : M W A) (k : A -> M W B) m a m' :
  c m = (Ok a, m') -> bind c k m = k a m'.
Proof. unfold bind. intros ->. reflexivity. Qed.

Lemma bind_raise {A B} (c : M W A) (k : A -> M W B) m e m' :
  c m = (Raise e, m') -> bind c k m = (Raise e, m').
Proof. unfold bind. intros ->. reflexivity. Qed.

Lemma try_except_ok {A} (c : M W A) handler m a m' :
  c m = (Ok a, m') -> try_except c handler m = (Ok a, m').
Proof. unfold try_except. intros ->. reflexivity. Qed.

Lemma try_except_raise {A} (c : M W A) handler m e m' :
  c m = (Raise e, m') -> try_except c handler m = handler e m'.
Proof. unfold try_except. intros ->. reflexivity. Qed.

Lemma for_each_cons_ok {A} (x : A) rest (body : A -> M W unit) m m' :
  body x m = (Ok tt, m') -> for_each (x :: rest) body m = for_each rest body m'.
Proof. intros Hx. cbn [for_each]. unfold bind. rewrite Hx. reflexivity. Qed.

Lemma for_each_app {A} (l1 l2 : list A) (body : A -> M W unit) : forall m m1,
  for_each l1 body m = (Ok tt, m1) ->
  for_each (l1 ++ l2) body m = for_each l2 body m1.
Proof.
  induction l1 as [|x l1 IH]; intros m m1 Hrun.
  - injection Hrun as <-. reflexivity.
  - cbn [for_each app] in *. unfold bind in *.
    destruct (body x m) as [[[]|e] m2]; [|discriminate].
    apply IH. exact Hrun.
Qed.

(** The loop reaches the file after [pre] in the machine [pre] left. *)
Lemma for_each_reach {A} (pre post : list A) x (body : A -> M W unit) m0 m m' :
  for_each pre body m0 = (Ok tt, m) ->
  body x m = (Ok tt, m') ->
  for_each (pre ++ x :: post) body m0 = for_each post body m'.
Proof.
  intros Hpre Hx. rewrite (for_each_app _ _ _ _ _ Hpre).
  apply for_each_cons_ok. exact Hx.
Qed.

Lemma for_each_ret {A} (l : list A) (m : machine W) :
  for_each l (fun _ => ret tt) m = (Ok tt, m).
Proof. induction l as [|x l IH]; [reflexivity | exact IH]. Qed.

Lemma compute_md5_run path m content w :
  open_rb path (world m) = (Ok content, w) ->
  compute_md5 path m
  = (Ok (hashlib.md5_oneshot content), put_world w (add_call (Open path) m)).
Proof.
  intros Hopen. unfold compute_md5, bind, record, perform, lift, ret.
  cbn [world add_call]. rewrite Hopen. cbv beta iota zeta.
  rewrite read_loop_oneshot. reflexivity.
Qed.

Lemma compute_md5_raise path m e w :
  open_rb path (world m) = (Raise e, w) ->
  compute_md5 path m = (Raise e, put_world w (add_call (Open path) m)).
Proof.
  intros Hopen. unfold compute_md5, bind, record, perform, lift, ret.
  cbn [world add_call]. rewrite Hopen. reflexivity.
Qed.

Lemma s3_head_object_run Bucket Key m r w :
  head_object Bucket Key (world m) = (r, w) ->
  s3_head_object Bucket Key m
  = (r, put_world w (add_call (HeadObject Bucket Key) m)).
Proof.
  intros Hhead. unfold s3_head_object, bind, record, perform, lift.
  cbn [world add_call]. rewrite Hhead. destruct r; reflexivity.
Qed.

Lemma getsize_run path m r w :
  os_path_getsize path (world m) = (r, w) ->
  getsize path m = (r, put_world w (add_call (Getsize path) m)).
Proof.
  intros Hsize. unfold getsize, bind, record, perform, lift.
  cbn [world add_call]. rewrite Hsize. destruct r; reflexivity.
Qed.

Lemma makedirs_run path m r w :
  os_makedirs path (world m) = (r, w) ->
  makedirs path m = (r, put_world w (add_call (Makedirs path) m)).
Proof.
  intros Hmk. unfold makedirs, bind, record, perform, lift.
  cbn [world add_call]. rewrite Hmk. destruct r as [[]|]; reflexivity.
Qed.

(** The callbacks of an upload only move the counter and the bar. *)
Lemma upload_callbacks amounts : forall m : machine W,
  exists m',
    for_each amounts S3Sync.progress_callback m = (Ok tt, m')
    /\ for_each amounts Ver4_2.progress_callback m = (Ok tt, m')
    /\ world m' = world m /\ calls m' = calls m /\ log_text m' = log_text m
    /\ total_size m' = total_size m
    /\ bytes_uploaded m' = bytes_uploaded m + sum_amounts amounts.
Proof.
  induction amounts as [|a amounts IH]; intros m.
  - exists m. cbn. repeat split; lia.
  - destruct (IH (put_progress
                    (if 0 <? total_size m
                     then (bytes_uploaded m + a, total_size m) else (0, 1))
                    (put_bytes_uploaded (bytes_uploaded m + a) m)))
      as (m' & H1 & H2 & Hw & Hc & Hl & Ht & Hb).
    exists m'. cbn [for_each]. split; [exact H1|]. split; [exact H2|].
    cbn in Hw, Hc, Hl, Ht, Hb. cbn [sum_amounts foldr].
    fold (sum_amounts amounts). repeat split; try assumption. lia.
Qed.

Lemma download_callbacks amounts : forall m : machine W,
  exists m',
    for_each amounts S3Sync.download_progress_callback m = (Ok tt, m')
    /\ for_each amounts Ver4_2.download_progress_callback m = (Ok tt, m')
    /\ world m' = world m /\ calls m' = calls m /\ log_text m' = log_text m
    /\ total_download_size m' = total_download_size m
    /\ bytes_downloaded m' = bytes_downloaded m + sum_amounts amounts.
Proof.
  induction amounts as [|a amounts IH]; intros m.
  - exists m. cbn. repeat split; lia.
  - destruct (IH (put_progress
                    (if 0 <? total_download_size m
                     then (bytes_downloaded m + a, total_download_size m)
                     else (0, 1))
                    (put_bytes_downloaded (bytes_downloaded m + a) m)))
      as (m' & H1 & H2 & Hw & Hc & Hl & Ht & Hb).
    exists m'. cbn [for_each]. split; [exact H1|]. split; [exact H2|].
    cbn in Hw, Hc, Hl, Ht, Hb. cbn [sum_amounts foldr].
    fold (sum_amounts amounts). repeat split; try assumption. lia.
Qed.

End Runs.

(** ** The upload pass, file by file *)

Section UploadPass.
Context {W : Type} `{Environment W}.

Lemma quiet_tabbed : quiet (W := W) S3Sync.progress_callback.
Proof.
  intros amounts m.
  destruct (upload_callbacks amounts m) as (m' & H1 & _ & Hw & Hc & Hl & _).
  exists m'. auto.
Qed.

Lemma quiet_pro : quiet (W := W) Ver4_2.progress_callback.
Proof.
  intros amounts m.
  destruct (upload_callbacks amounts m) as (m' & _ & H2 & Hw & Hc & Hl & _).
  exists m'. auto.
Qed.

Lemma quiet_none : quiet (W := W) (fun _ => ret tt).
Proof. intros amounts m. exists m. rewrite for_each_ret. auto. Qed.

(** The upload of one file and the line it logs: the transfer is
    attempted once, and whether it succeeds or raises, the phase ends
    normally with one more line in the log. *)
Lemma upload_phase cb full_path bucket key md (m : machine W) :
  quiet cb ->
  exists m',
    try_except
      (s3_upload_file full_path bucket key md cb ;;;
       log (uploaded_line full_path bucket key))
      (fun e => log (upload_error_line full_path e)) m = (Ok tt, m')
    /\ calls m' = calls m ++ [UploadFile full_path bucket key md]
    /\ world m' = snd (upload_file full_path bucket key md (world m))
    /\ log_text m' = log_text m ++
         [transfer_line (uploaded_line full_path bucket key)
            (upload_error_line full_path)
            (snd (fst (upload_file full_path bucket key md (world m))))].
Proof.
  intros Hquiet.
  unfold try_except, s3_upload_file, bind, record, perform.
  cbn [world add_call].
  destruct (upload_file full_path bucket key md (world m)) as [[amounts res] w3].
  cbn [fst snd].
  destruct (Hquiet amounts
              (put_world w3 (add_call (UploadFile full_path bucket key md) m)))
    as (m1 & Hrun & Hw & Hc & Hl).
  rewrite Hrun. cbn in Hw, Hc, Hl.
  destruct res as [[]|e]; cbn; eexists; (split; [reflexivity|]); cbn;
    rewrite Hw, Hc, Hl; auto.
Qed.

Lemma try_bind_ok {A B} (c : M W A) (k : A -> M W B) handler m a m' :
  c m = (Ok a, m') ->
  try_except (bind c k) handler m = try_except (k a) handler m'.
Proof. unfold try_except, bind. intros ->. reflexivity. Qed.

(** The metadata fetch and the comparison, when the pass decides to
    upload: the inner block ends without [continue]. *)
Lemma fetch_then_upload_headless bucket key full_path md5 (m : machine W) r w :
  head_object bucket key (world m) = (r, w) ->
  wants_upload Headless r md5 ->
  try_except
    (response <- s3_head_object bucket key ;;
     if bool_decide (response !! "file_md5" = Some md5) then
       log (skipping_line full_path) ;;; ret true
     else ret false)
    (fun e =>
       match e with
       | ClientError code _ =>
           if negb (bool_decide (code = "404")) then
             log (check_error_line key e) ;;; ret true
           else ret false
       | _ => raise e
       end) m
  = (Ok false, put_world w (add_call (HeadObject bucket key) m)).
Proof.
  intros Hhead Hwants. unfold try_except, bind.
  rewrite (s3_head_object_run _ _ _ _ _ Hhead).
  destruct r as [md|[code msg|msg]]; cbn in Hwants.
  - rewrite bool_decide_eq_false_2 by exact Hwants. reflexivity.
  - destruct Hwants as [->|Hv]; [reflexivity | discriminate].
  - discriminate.
Qed.

Lemma fetch_then_upload_pro bucket key full_path md5 (m : machine W) r w :
  head_object bucket key (world m) = (r, w) ->
  wants_upload Pro r md5 ->
  try_except
    (response <- s3_head_object bucket key ;;
     if bool_decide (response !! "file_md5" = Some md5) then
       log (skipping_line full_path) ;;;
       size <- getsize full_path ;;
       b <- get bytes_uploaded ;;
       set_bytes_uploaded (b + size) ;;;
       Ver4_2.progress_callback 0 ;;;
       ret true
     else ret false)
    (fun e =>
       match e with
       | ClientError code _ =>
           if negb (bool_decide (code = "404")) then
             log (check_error_line key e) ;;; ret true
           else ret false
       | _ => raise e
       end) m
  = (Ok false, put_world w (add_call (HeadObject bucket key) m)).
Proof.
  intros Hhead Hwants. unfold try_except, bind.
  rewrite (s3_head_object_run _ _ _ _ _ Hhead).
  destruct r as [md|[code msg|msg]]; cbn in Hwants.
  - rewrite bool_decide_eq_false_2 by exact Hwants. reflexivity.
  - destruct Hwants as [->|Hv]; [reflexivity | discriminate].
  - discriminate.
Qed.

Lemma fetch_then_upload_tabbed bucket key full_path md5 (m : machine W) r w :
  head_object bucket key (world m) = (r, w) ->
  wants_upload Tabbed r md5 ->
  try_except
    (response <- s3_head_object bucket key ;;
     if bool_decide (response !! "file_md5" = Some md5) then
       log (skipping_line full_path) ;;;
       size <- getsize full_path ;;
       b <- get bytes_uploaded ;;
       set_bytes_uploaded (b + size) ;;;
       b' <- get bytes_uploaded ;;
       t <- get total_size ;;
       update_progress b' t ;;;
       ret true
     else ret false)
    (fun _ => ret false) m
  = (Ok false, put_world w (add_call (HeadObject bucket key) m)).
Proof.
  intros Hhead Hwants. unfold try_except, bind.
  rewrite (s3_head_object_run _ _ _ _ _ Hhead).
  destruct r as [md|e]; cbn in Hwants; [|reflexivity].
  rewrite bool_decide_eq_false_2 by exact Hwants. reflexivity.
Qed.

Lemma backup_file_uploads v bucket ns full_path rel_path (m : machine W)
    content w1 r w2 :
  open_rb full_path (world m) = (Ok content, w1) ->
  head_object bucket (key_of v ns rel_path) w1 = (r, w2) ->
  wants_upload v r (hashlib.md5_oneshot content) ->
  let key := key_of v ns rel_path in
  let md : gmap string string := {[ "file_md5" := hashlib.md5_oneshot content ]} in
  exists m',
    backup_file_of v bucket ns (full_path, rel_path) m = (Ok tt, m')
    /\ calls m' = calls m ++
         [Open full_path; HeadObject bucket key; UploadFile full_path bucket key md]
    /\ world m' = snd (upload_file full_path bucket key md w2)
    /\ log_text m' = log_text m ++
         [transfer_line (uploaded_line full_path bucket key)
            (upload_error_line full_path)
            (snd (fst (upload_file full_path bucket key md w2)))].
Proof.
  intros Hopen Hhead Hwants key md.
  set (m1 := put_world w1 (add_call (Open full_path) m)).
  set (m2 := put_world w2 (add_call (HeadObject bucket key) m1)).
  assert (
    backup_file_of v bucket ns (full_path, rel_path) m
    = try_except
        (s3_upload_file full_path bucket key md
           match v with
           | Headless => fun _ => ret tt
           | Pro => Ver4_2.progress_callback
           | Tabbed => S3Sync.progress_callback
           end ;;;
         log (uploaded_line full_path bucket key))
        (fun e => log (upload_error_line full_path e)) m2) as Hrun.
  { destruct v; cbn [backup_file_of key_of] in *.
    - unfold backupjob.backup_file.
      erewrite bind_ok by (apply compute_md5_run; exact Hopen).
      erewrite try_bind_ok
        by (apply (fetch_then_upload_headless _ _ _ _ m1 r w2); assumption).
      reflexivity.
    - unfold Ver4_2.backup_file.
      erewrite bind_ok by (apply compute_md5_run; exact Hopen).
      erewrite bind_ok
        by (apply (fetch_then_upload_pro _ _ _ _ m1 r w2); assumption).
      reflexivity.
    - unfold S3Sync.backup_file.
      erewrite bind_ok by (apply compute_md5_run; exact Hopen).
      erewrite bind_ok
        by (apply (fetch_then_upload_tabbed _ _ _ _ m1 r w2); assumption).
      reflexivity. }
  rewrite Hrun.
  destruct (upload_phase
              match v with
              | Headless => fun _ => ret tt
              | Pro => Ver4_2.progress_callback
              | Tabbed => S3Sync.progress_callback
              end full_path bucket key md m2) as (m' & Hm' & Hc & Hw & Hl).
  { destruct v; [apply quiet_none | apply quiet_pro | apply quiet_tabbed]. }
  exists m'. split; [exact Hm'|]. cbn in Hc, Hw, Hl.
  rewrite Hc, Hw, Hl, <- !app_assoc. auto.
Qed.

End UploadPass.

Section UploadDecisions.
Context {W : Type} `{Environment W}.

Lemma s3_head_object_eq Bucket Key (m : machine W) :
  s3_head_object Bucket Key m
  = (fst (head_object Bucket Key (world m)),
     put_world (snd (head_object Bucket Key (world m)))
       (add_call (HeadObject Bucket Key) m)).
Proof.
  destruct (head_object Bucket Key (world m)) as [r w] eqn:E.
  apply s3_head_object_run. exact E.
Qed.

Lemma getsize_eq path (m : machine W) :
  getsize path m
  = (fst (os_path_getsize path (world m)),
     put_world (snd (os_path_getsize path (world m)))
       (add_call (Getsize path) m)).
Proof.
  destruct (os_path_getsize path (world m)) as [r w] eqn:E.
  apply getsize_run. exact E.
Qed.

Lemma makedirs_eq path (m : machine W) :
  makedirs path m
  = (fst (os_makedirs path (world m)),
     put_world (snd (os_makedirs path (world m)))
       (add_call (Makedirs path) m)).
Proof.
  destruct (os_makedirs path (world m)) as [r w] eqn:E.
  apply makedirs_run. exact E.
Qed.

(** An unchanged file in the two passes that show progress: nothing is
    transferred and the counter moves by the size of the file. *)
Lemma backup_file_skips v bucket ns full_path rel_path (m : machine W)
    content w1 metadata w2 size w3 :
  v <> Headless ->
  open_rb full_path (world m) = (Ok content, w1) ->
  head_object bucket (key_of v ns rel_path) w1 = (Ok metadata, w2) ->
  metadata !! "file_md5" = Some (hashlib.md5_oneshot content) ->
  os_path_getsize full_path w2 = (Ok size, w3) ->
  exists m',
    backup_file_of v bucket ns (full_path, rel_path) m = (Ok tt, m')
    /\ calls m' = calls m ++
         [Open full_path; HeadObject bucket (key_of v ns rel_path);
          Getsize full_path]
    /\ bytes_uploaded m' = bytes_uploaded m + size
    /\ log_text m' = log_text m ++ [skipping_line full_path]
    /\ world m' = w3.
Proof.
  intros Hv Hopen Hhead Hsame Hsize.
  destruct v; [done | |]; cbn [backup_file_of key_of] in *.
  - unfold Ver4_2.backup_file.
    erewrite bind_ok by (apply compute_md5_run; exact Hopen).
    unfold try_except, bind.
    rewrite s3_head_object_eq. machine_simpl. rewrite Hhead. machine_simpl.
    rewrite bool_decide_eq_true_2 by exact Hsame.
    cbn [log]. rewrite getsize_eq. machine_simpl. rewrite Hsize.
    cbn. eexists. split; [reflexivity|]. cbn.
    rewrite <- !app_assoc, Z.add_0_r. auto.
  - unfold S3Sync.backup_file.
    erewrite bind_ok by (apply compute_md5_run; exact Hopen).
    unfold try_except, bind.
    rewrite s3_head_object_eq. machine_simpl. rewrite Hhead. machine_simpl.
    rewrite bool_decide_eq_true_2 by exact Hsame.
    cbn [log]. rewrite getsize_eq. machine_simpl. rewrite Hsize.
    cbn. eexists. split; [reflexivity|]. cbn.
    rewrite <- !app_assoc. auto.
Qed.

(** The same file in the headless pass, which keeps no counter. *)
Lemma backup_file_skips_headless bucket ns full_path rel_path (m : machine W)
    content w1 metadata w2 :
  open_rb full_path (world m) = (Ok content, w1) ->
  head_object bucket (backupjob.s3_key ns rel_path) w1 = (Ok metadata, w2) ->
  metadata !! "file_md5" = Some (hashlib.md5_oneshot content) ->
  exists m',
    backupjob.backup_file bucket ns (full_path, rel_path) m = (Ok tt, m')
    /\ calls m' = calls m ++
         [Open full_path; HeadObject bucket (backupjob.s3_key ns rel_path)]
    /\ log_text m' = log_text m ++ [skipping_line full_path]
    /\ world m' = w2.
Proof.
  intros Hopen Hhead Hsame.
  unfold backupjob.backup_file.
  erewrite bind_ok by (apply compute_md5_run; exact Hopen).
  unfold try_except, bind.
  rewrite s3_head_object_eq. machine_simpl. rewrite Hhead. machine_simpl.
  rewrite bool_decide_eq_true_2 by exact Hsame.
  cbn. eexists. split; [reflexivity|]. cbn.
  rewrite <- !app_assoc. auto.
Qed.

(** A metadata fetch that fails otherwise than with "404", in the
    headless pass: a line is logged and the file is left alone. *)
Lemma fetch_error_skips_headless bucket ns full_path rel_path (m : machine W)
    content w1 e w2 :
  open_rb full_path (world m) = (Ok content, w1) ->
  head_object bucket (backupjob.s3_key ns rel_path) w1 = (Raise e, w2) ->
  (forall msg, e <> ClientError "404" msg) ->
  exists m',
    backupjob.backup_file bucket ns (full_path, rel_path) m = (Ok tt, m')
    /\ calls m' = calls m ++
         [Open full_path; HeadObject bucket (backupjob.s3_key ns rel_path)]
    /\ log_text m' = log_text m ++
         [match e with
          | ClientError _ _ => check_error_line (backupjob.s3_key ns rel_path) e
          | OtherError _ => upload_error_line full_path e
          end]
    /\ world m' = w2.
Proof.
  intros Hopen Hhead Hother.
  unfold backupjob.backup_file.
  erewrite bind_ok by (apply compute_md5_run; exact Hopen).
  unfold try_except, bind.
  rewrite s3_head_object_eq. machine_simpl. rewrite Hhead. machine_simpl.
  destruct e as [code msg|msg].
  - rewrite bool_decide_eq_false_2 by (intros ->; exact (Hother msg eq_refl)).
    cbn. eexists. split; [reflexivity|]. cbn. rewrite <- !app_assoc. auto.
  - cbn. eexists. split; [reflexivity|]. cbn. rewrite <- !app_assoc. auto.
Qed.

(** The same failure in Ver4.2.py: a [ClientError] is logged and the
    file is left alone; any other exception leaves the loop. *)
Lemma fetch_error_in_pro bucket ns full_path rel_path (m : machine W)
    content w1 e w2 :
  open_rb full_path (world m) = (Ok content, w1) ->
  head_object bucket (key_of Pro ns rel_path) w1 = (Raise e, w2) ->
  (forall msg, e <> ClientError "404" msg) ->
  exists m',
    Ver4_2.backup_file bucket (prefix_of ns) (full_path, rel_path) m
    = (match e with ClientError _ _ => Ok tt | OtherError _ => Raise e end, m')
    /\ calls m' = calls m ++
         [Open full_path; HeadObject bucket (key_of Pro ns rel_path)]
    /\ log_text m' = log_text m ++
         match e with
         | ClientError _ _ => [check_error_line (key_of Pro ns rel_path) e]
         | OtherError _ => []
         end
    /\ world m' = w2.
Proof.
  intros Hopen Hhead Hother. cbn [key_of] in *.
  unfold Ver4_2.backup_file.
  erewrite bind_ok by (apply compute_md5_run; exact Hopen).
  unfold try_except, bind.
  rewrite s3_head_object_eq. machine_simpl. rewrite Hhead. machine_simpl.
  destruct e as [code msg|msg].
  - rewrite bool_decide_eq_false_2 by (intros ->; exact (Hother msg eq_refl)).
    cbn. eexists. split; [reflexivity|]. cbn. rewrite <- !app_assoc. auto.
  - cbn. eexists. split; [reflexivity|]. cbn.
    rewrite <- !app_assoc, app_nil_r. auto.
Qed.

End UploadDecisions.

(** ** The restore pass, object by object *)

Section RestorePass.
Context {W : Type} `{Environment W}.

Lemma relpath_eq path start (m : machine W) :
  relpath path start m
  = match posixpath.relpath (os_getcwd (world m)) path start with
    | Some r => (Ok r, m)
    | None => (Raise (OtherError "no path specified"), m)
    end.
Proof.
  unfold relpath, bind, getcwd, get.
  destruct (posixpath.relpath _ _ _); reflexivity.
Qed.

Lemma quiet_download_tabbed : quiet (W := W) S3Sync.download_progress_callback.
Proof.
  intros amounts m.
  destruct (download_callbacks amounts m) as (m' & H1 & _ & Hw & Hc & Hl & _).
  exists m'. auto.
Qed.

(** The download of one object and the line it logs. *)
Lemma download_phase cb done failed bucket key local_path (m : machine W) :
  quiet cb ->
  exists m',
    try_except
      (s3_download_file bucket key local_path cb ;;; log done)
      (fun e => log (failed e)) m = (Ok tt, m')
    /\ calls m' = calls m ++ [DownloadFile bucket key local_path]
    /\ world m' = snd (download_file bucket key local_path (world m))
    /\ log_text m' = log_text m ++
         [transfer_line done failed
            (snd (fst (download_file bucket key local_path (world m))))].
Proof.
  intros Hquiet.
  unfold try_except, s3_download_file, bind, record, perform.
  machine_simpl.
  destruct (download_file bucket key local_path (world m)) as [[amounts res] w3].
  machine_simpl.
  destruct (Hquiet amounts
              (put_world w3 (add_call (DownloadFile bucket key local_path) m)))
    as (m1 & Hrun & Hw & Hc & Hl).
  rewrite Hrun. machine_simpl.
  destruct res as [[]|e]; cbn; eexists; (split; [reflexivity|]); cbn;
    rewrite Hw, Hc, Hl; auto.
Qed.

Lemma restore_object_same bucket prefix restore_dir obj (m : machine W) :
  Ver4_2.restore_object bucket prefix restore_dir obj m
  = S3Sync.restore_object bucket prefix restore_dir obj m.
Proof. reflexivity. Qed.

(** One object of the restore pass, when its directory can be made:
    the directory is made, then the object is fetched to the path,
    and the iteration ends normally whatever the transfer did. *)
Lemma restore_object_run bucket prefix restore_dir key size (m : machine W)
    rel w1 :
  posixpath.relpath (os_getcwd (world m)) key prefix = Some rel ->
  let local_path := posixpath.join restore_dir rel in
  os_makedirs (posixpath.dirname local_path) (world m) = (Ok tt, w1) ->
  exists m',
    S3Sync.restore_object bucket prefix restore_dir (key, size) m = (Ok tt, m')
    /\ calls m' = calls m ++
         [Makedirs (posixpath.dirname local_path);
          DownloadFile bucket key local_path]
    /\ world m' = snd (download_file bucket key local_path w1)
    /\ log_text m' = log_text m ++
         [transfer_line (downloaded_line key local_path)
            (download_error_line key)
            (snd (fst (download_file bucket key local_path w1)))].
Proof.
  intros Hrel local_path Hmk. unfold S3Sync.restore_object.
  unfold bind at 1. rewrite relpath_eq, Hrel.
  unfold bind at 1. fold local_path. rewrite makedirs_eq, Hmk. machine_simpl.
  destruct (download_phase S3Sync.download_progress_callback
              (downloaded_line key local_path) (download_error_line key)
              bucket key local_path
              (put_world w1 (add_call (Makedirs (posixpath.dirname local_path)) m))
              quiet_download_tabbed)
    as (m' & Hrun & Hc & Hw & Hl).
  exists m'. split; [exact Hrun|]. machine_simpl.
  rewrite Hc, Hw, Hl, <- !app_assoc. auto.
Qed.

End RestorePass.

Section Listing.
Context {W : Type} `{Environment W}.

Lemma restore_ready_spec ui :
  restore_ready ui = true ->
  bool_decide (strip (entry_bucket ui) = "") = false
  /\ bool_decide (restore_dir_entry ui = "") = false
  /\ bool_decide (strip (entry_access ui) = "") = false
  /\ bool_decide (strip (entry_secret ui) = "") = false.
Proof.
  unfold restore_ready. rewrite !andb_true_iff, !negb_true_iff. tauto.
Qed.

Lemma list_objects_eq bucket prefix (m : machine W) :
  S3Sync.list_objects bucket prefix m
  = (match snd (fst (paginate bucket prefix (world m))) with
     | None => Ok (collect_pages (fst (fst (paginate bucket prefix (world m)))))
     | Some e => Raise e
     end,
     put_world (snd (paginate bucket prefix (world m)))
       (add_call (Paginate bucket prefix) m)).
Proof.
  unfold S3Sync.list_objects, bind, record, perform. machine_simpl.
  destruct (paginate bucket prefix (world m)) as [[pages [e|]] w]; reflexivity.
Qed.

Lemma list_objects_same bucket prefix (m : machine W) :
  Ver4_2.list_objects bucket prefix m = S3Sync.list_objects bucket prefix m.
Proof. reflexivity. Qed.

(** A listing that fails, in S3Sync.py: one line, and the pass is over. *)
Lemma restore_backup_listing_fails ui (m : machine W) pages e w1 :
  restore_ready ui = true ->
  let bucket := strip (entry_bucket ui) in
  let prefix := prefix_of (or_default (strip (entry_computer_id ui))) in
  paginate bucket prefix (world m) = ((pages, Some e), w1) ->
  S3Sync.restore_backup ui m
  = (Ok tt, add_log (listing_error_line e)
              (put_world w1 (add_call (Paginate bucket prefix) m))).
Proof.
  intros Hready bucket prefix Hlist.
  apply restore_ready_spec in Hready as (Hb & Hr & Ha & Hs).
  unfold S3Sync.restore_backup, S3Sync.get_s3_client.
  subst bucket prefix. unfold prefix_of in *.
  rewrite Hb, Hr, Ha, Hs. cbn [orb negb].
  unfold bind at 1. cbn [ret negb].
  unfold bind at 1. unfold try_except. unfold bind at 1.
  rewrite list_objects_eq, Hlist. reflexivity.
Qed.

(** The same in Ver4.2.py, where only a [ClientError] is caught. *)
Lemma restore_backup_listing_fails_pro ui (m : machine W) pages e w1 :
  restore_ready ui = true ->
  let bucket := strip (entry_bucket ui) in
  let prefix := prefix_of (or_default (strip (entry_computer_id ui))) in
  paginate bucket prefix (world m) = ((pages, Some e), w1) ->
  Ver4_2.restore_backup ui m
  = match e with
    | ClientError _ _ =>
        (Ok tt, add_log (listing_error_line e)
                  (put_world w1 (add_call (Paginate bucket prefix) m)))
    | OtherError _ =>
        (Raise e, put_world w1 (add_call (Paginate bucket prefix) m))
    end.
Proof.
  intros Hready bucket prefix Hlist.
  apply restore_ready_spec in Hready as (Hb & Hr & Ha & Hs).
  unfold Ver4_2.restore_backup, Ver4_2.get_s3_client.
  subst bucket prefix. unfold prefix_of in *.
  rewrite Hb, Hr, Ha, Hs. cbn [orb negb].
  unfold bind at 1. cbn [ret negb].
  unfold bind at 1. unfold try_except. unfold bind at 1.
  rewrite list_objects_same, list_objects_eq, Hlist.
  destruct e; reflexivity.
Qed.

End Listing.

(** ** The selective restore *)

Section Browse.
Context {W : Type} `{Environment W}.

Lemma put_world_id (m : machine W) : put_world (world m) m = m.
Proof. destruct m. reflexivity. Qed.

Lemma browse_callbacks total amounts : forall m : machine W,
  exists m',
    for_each amounts (S3Sync.browse_progress_callback total) m = (Ok tt, m')
    /\ world m' = world m /\ calls m' = calls m /\ log_text m' = log_text m
    /\ bytes_downloaded m' = bytes_downloaded m + sum_amounts amounts.
Proof.
  induction amounts as [|a amounts IH]; intros m.
  - exists m. cbn. repeat split; lia.
  - destruct (IH (put_progress
                    (if 0 <? total then (bytes_downloaded m + a, total) else (0, 1))
                    (put_bytes_downloaded (bytes_downloaded m + a) m)))
      as (m' & H1 & Hw & Hc & Hl & Hb).
    exists m'. cbn [for_each]. split; [exact H1|].
    cbn in Hw, Hc, Hl, Hb. cbn [sum_amounts foldr].
    fold (sum_amounts amounts). repeat split; try assumption. lia.
Qed.

(** The flag is down when the loop reaches an item: the loop is left,
    whatever is still selected. *)
Lemma for_each_break_cancelled ui bucket restore_dir total items (m : machine W) :
  running (world m) = false ->
  for_each_break items (S3Sync.restore_item ui bucket restore_dir total) m
  = (Ok tt, m).
Proof.
  intros Hflag. destruct items as [|item rest]; [reflexivity|].
  cbn [for_each_break]. unfold S3Sync.restore_item, S3Sync.is_running.
  unfold bind at 1. unfold bind at 1. unfold perform.
  rewrite Hflag, put_world_id. reflexivity.
Qed.

(** The flag is up: the item is restored, and its transfer is taken to
    its end before the flag is looked at again. *)
Lemma restore_item_run ui bucket restore_dir total item (m : machine W)
    rel w1 amounts res w2 :
  running (world m) = true ->
  posixpath.relpath (os_getcwd (world m)) (item_key item)
    ("backup/" +:+ or_default (strip (entry_computer_id ui))) = Some rel ->
  let local_path := posixpath.join restore_dir rel in
  os_makedirs (posixpath.dirname local_path) (world m) = (Ok tt, w1) ->
  download_file bucket (item_key item) local_path w1 = ((amounts, res), w2) ->
  exists m',
    S3Sync.restore_item ui bucket restore_dir total item m = (Ok Next, m')
    /\ calls m' = calls m ++
         [Makedirs (posixpath.dirname local_path);
          DownloadFile bucket (item_key item) local_path]
    /\ world m' = w2
    /\ bytes_downloaded m' = bytes_downloaded m + sum_amounts amounts
    /\ log_text m' = log_text m ++
         [transfer_line (restored_line local_path)
            (restore_failed_line (item_key item)) res].
Proof.
  intros Hflag Hrel local_path Hmk Hdl.
  unfold S3Sync.restore_item, S3Sync.is_running.
  unfold bind at 1. unfold perform. rewrite Hflag, put_world_id. cbn [negb].
  unfold bind at 1. rewrite relpath_eq, Hrel. fold local_path.
  unfold bind at 1. rewrite makedirs_eq, Hmk. machine_simpl.
  unfold bind at 1. unfold try_except, s3_download_file, bind, record, perform.
  machine_simpl. rewrite Hdl. machine_simpl.
  destruct (browse_callbacks total amounts
              (put_world w2
                 (add_call (DownloadFile bucket (item_key item) local_path)
                    (put_world w1
                       (add_call (Makedirs (posixpath.dirname local_path)) m)))))
    as (m1 & Hrun & Hw & Hc & Hl & Hb).
  rewrite Hrun. machine_simpl.
  destruct res as [[]|e]; cbn; eexists; (split; [reflexivity|]); cbn;
    rewrite Hw, Hc, Hl, Hb, <- ?app_assoc; auto.
Qed.

End Browse.

(** ** Whole passes *)

Section WholePass.
Context {W : Type} `{Environment W}.

(** In backupjob.py and S3Sync.py the only exception that leaves an
    iteration of the upload loop is one of opening the file: whatever
    the metadata fetch, the size query and the transfer do, the
    iteration ends normally, after the file was opened and its metadata
    asked for. *)
Lemma backup_file_ends_normally v bucket ns full_path rel_path (m : machine W)
    content w1 :
  v <> Pro ->
  open_rb full_path (world m) = (Ok content, w1) ->
  exists m' later,
    backup_file_of v bucket ns (full_path, rel_path) m = (Ok tt, m')
    /\ calls m' = calls m ++
         Open full_path :: HeadObject bucket (key_of v ns rel_path) :: later.
Proof.
  intros Hv Hopen.
  destruct (head_object bucket (key_of v ns rel_path) w1) as [r w2] eqn:Hhead.
  destruct v; [| done |].
  - (* backupjob.py *)
    destruct r as [metadata|e].
    + destruct (decide (metadata !! "file_md5" = Some (hashlib.md5_oneshot content)))
        as [Hsame|Hdiff].
      * destruct (backup_file_skips_headless bucket ns full_path rel_path m
                    content w1 metadata w2 Hopen Hhead Hsame)
          as (m' & Hrun & Hcalls & _).
        exists m', []. auto.
      * destruct (backup_file_uploads Headless bucket ns full_path rel_path m
                    content w1 _ w2 Hopen Hhead Hdiff)
          as (m' & Hrun & Hcalls & _).
        exists m'. eexists. split; [exact Hrun | exact Hcalls].
    + assert ((exists msg, e = ClientError "404" msg)
              \/ (forall msg, e <> ClientError "404" msg)) as [[msg ->]|Hother].
      { destruct e as [code msg|msg]; [|right; discriminate].
        destruct (decide (code = "404")) as [->|Hcode].
        - left. exists msg. reflexivity.
        - right. intros msg' [= Heq _]. exact (Hcode Heq). }
      * destruct (backup_file_uploads Headless bucket ns full_path rel_path m
                    content w1 _ w2 Hopen Hhead (or_introl eq_refl))
          as (m' & Hrun & Hcalls & _).
        exists m'. eexists. split; [exact Hrun | exact Hcalls].
      * destruct (fetch_error_skips_headless bucket ns full_path rel_path m
                    content w1 e w2 Hopen Hhead Hother)
          as (m' & Hrun & Hcalls & _).
        exists m', []. auto.
  - (* S3Sync.py *)
    assert (wants_upload Tabbed r (hashlib.md5_oneshot content)
            \/ exists metadata,
                 r = Ok metadata
                 /\ metadata !! "file_md5" = Some (hashlib.md5_oneshot content))
      as [Hwants|(metadata & -> & Hsame)].
    { destruct r as [metadata|e]; [|left; destruct e; cbn; auto].
      destruct (decide (metadata !! "file_md5" = Some (hashlib.md5_oneshot content)));
        [right; eauto | left; assumption]. }
    + destruct (backup_file_uploads Tabbed bucket ns full_path rel_path m
                  content w1 r w2 Hopen Hhead Hwants)
        as (m' & Hrun & Hcalls & _).
      exists m'. eexists. split; [exact Hrun | exact Hcalls].
    + destruct (os_path_getsize full_path w2) as [[size|e] w3] eqn:Hsize.
      * destruct (backup_file_skips Tabbed bucket ns full_path rel_path m
                    content w1 metadata w2 size w3 ltac:(done) Hopen Hhead
                    Hsame Hsize)
          as (m' & Hrun & Hcalls & _).
        exists m', [Getsize full_path]. auto.
      * (* the size query raises inside the [try]: the file is uploaded *)
        cbn [backup_file_of key_of] in *. unfold S3Sync.backup_file.
        erewrite bind_ok by (apply compute_md5_run; exact Hopen).
        unfold bind at 1. unfold try_except at 1. unfold bind at 1.
        rewrite s3_head_object_eq. machine_simpl. rewrite Hhead. machine_simpl.
        rewrite bool_decide_eq_true_2 by exact Hsame.
        unfold bind at 1. cbn [log]. unfold bind at 1.
        rewrite getsize_eq. machine_simpl. rewrite Hsize. machine_simpl.
        cbn [ret].
        match goal with
        | |- exists m' later, try_except ?body ?handler ?m1 = _ /\ _ =>
            destruct (upload_phase S3Sync.progress_callback full_path bucket
                        (S3Sync.s3_key (prefix_of ns) rel_path)
                        {[ "file_md5" := hashlib.md5_oneshot content ]} m1
                        quiet_tabbed)
              as (m' & Hrun & Hcalls & _)
        end.
        exists m'. eexists. split; [exact Hrun|].
        rewrite Hcalls. machine_simpl. rewrite <- !app_assoc. reflexivity.
Qed.

(** So the two passes visit every file of the list, whatever fails on
    the way, as long as the files can be opened. *)
Lemma backup_loop_visits_every_file v bucket ns file_list : forall m : machine W,
  v <> Pro ->
  (forall full_path rel_path w,
     (full_path, rel_path) ∈ file_list ->
     exists content w', open_rb full_path w = (Ok content, w')) ->
  exists m',
    backup_loop v bucket ns file_list m = (Ok tt, m')
    /\ (forall c, c ∈ calls m -> c ∈ calls m')
    /\ forall full_path rel_path,
         (full_path, rel_path) ∈ file_list ->
         HeadObject bucket (key_of v ns rel_path) ∈ calls m'.
Proof.
  induction file_list as [|[full_path rel_path] rest IH]; intros m Hv Hopen.
  - exists m. split; [reflexivity|]. split; [auto|].
    intros ? ? Hin. apply elem_of_nil in Hin. destruct Hin.
  - destruct (Hopen full_path rel_path (world m)) as (content & w1 & Hop);
      [left|].
    destruct (backup_file_ends_normally v bucket ns full_path rel_path m
                content w1 Hv Hop) as (m1 & later & Hrun & Hcalls).
    destruct (IH m1 Hv) as (m' & Hloop & Hmono & Hvisit).
    { intros fp rp w Hin. apply (Hopen fp rp). right. exact Hin. }
    exists m'. split.
    + unfold backup_loop in *. rewrite (for_each_cons_ok _ _ _ _ _ Hrun).
      exact Hloop.
    + split.
      * intros c Hc. apply Hmono. rewrite Hcalls. set_solver.
      * intros fp rp Hin. apply elem_of_cons in Hin as [[= -> ->]|Hin].
        -- apply Hmono. rewrite Hcalls. set_solver.
        -- exact (Hvisit fp rp Hin).
Qed.


End WholePass.

(** * The properties of the specification *)


(** C3. In each upload pass, a file whose key has no remote counterpart
    (the metadata fetch answers "404") is uploaded: the pass calls
    [upload_file] on the file with the metadata [{file_md5: digest}],
    logs nothing about the fetch, and goes on with the next file. *)
Theorem absent_object_uploaded_with_fingerprint {W} {env : Environment W}
    (v : variant) (bucket ns : string)
    (pre post : list (string * string)) (full_path rel_path : string)
    (m0 m : machine W) (content : list byte) (w1 w2 : W) (msg : string) :
  backup_loop v bucket ns pre m0 = (Ok tt, m) ->
  open_rb full_path (world m) = (Ok content, w1) ->
  head_object bucket (key_of v ns rel_path) w1
  = (Raise (ClientError "404" msg), w2) ->
  exists m',
    backup_loop v bucket ns (pre ++ (full_path, rel_path) :: post) m0
    = backup_loop v bucket ns post m'
    /\ calls m' = calls m ++
         [Open full_path; HeadObject bucket (key_of v ns rel_path);
          UploadFile full_path bucket (key_of v ns rel_path)
            {[ "file_md5" := hashlib.md5_oneshot content ]}]
    /\ world m'
       = snd (upload_file full_path bucket (key_of v ns rel_path)
                {[ "file_md5" := hashlib.md5_oneshot content ]} w2)
    /\ log_text m' = log_text m ++
         [transfer_line
            (uploaded_line full_path bucket (key_of v ns rel_path))
            (upload_error_line full_path)
            (snd (fst (upload_file full_path bucket (key_of v ns rel_path)
                         {[ "file_md5" := hashlib.md5_oneshot content ]} w2)))].
Proof.
  intros Hpre Hopen Hhead.
  destruct (backup_file_uploads v bucket ns full_path rel_path m content w1
              _ w2 Hopen Hhead) as (m' & Hrun & Hcalls & Hworld & Hlog).
  { cbn. left. reflexivity. }
  exists m'. split; [|auto].
  unfold backup_loop. eapply for_each_reach; eassumption.
Qed.

Lemma absent_object_uploaded_witness :
  let m0 := Mock.start Mock.laptop in
  let m := snd (backup_loop Tabbed "bucket" "Default" [Mock.a_txt] m0) in
  Mock.objects (world m) !! "backup/Default/sub/b.txt" = None
  /\ Mock.objects
       (snd (upload_file "/data/sub/b.txt" "bucket" "backup/Default/sub/b.txt"
               {[ "file_md5" := hashlib.md5_oneshot (bytes_of_string "world") ]}
               (world m))) !! "backup/Default/sub/b.txt"
     = Some (bytes_of_string "world",
             {[ "file_md5" := "7d793037a0760186574b0282f2f435e7" ]})
  /\ exists m',
    backup_loop Tabbed "bucket" "Default" ([Mock.a_txt] ++ Mock.b_txt :: []) m0
    = backup_loop Tabbed "bucket" "Default" [] m'
    /\ calls m' = calls m ++
         [Open "/data/sub/b.txt";
          HeadObject "bucket" (key_of Tabbed "Default" "sub/b.txt");
          UploadFile "/data/sub/b.txt" "bucket" (key_of Tabbed "Default" "sub/b.txt")
            {[ "file_md5" := hashlib.md5_oneshot (bytes_of_string "world") ]}]
    /\ world m'
       = snd (upload_file "/data/sub/b.txt" "bucket"
                (key_of Tabbed "Default" "sub/b.txt")
                {[ "file_md5" := hashlib.md5_oneshot (bytes_of_string "world") ]}
                (world m))
    /\ log_text m' = log_text m ++
         [transfer_line
            (uploaded_line "/data/sub/b.txt" "bucket"
               (key_of Tabbed "Default" "sub/b.txt"))
            (upload_error_line "/data/sub/b.txt")
            (snd (fst (upload_file "/data/sub/b.txt" "bucket"
                         (key_of Tabbed "Default" "sub/b.txt")
                         {[ "file_md5" := hashlib.md5_oneshot (bytes_of_string "world") ]}
                         (world m))))].
Proof.
  intros m0 m. split; [vm_compute; reflexivity|]. split; [vm_compute; reflexivity|].
  apply (absent_object_uploaded_with_fingerprint Tabbed "bucket" "Default"
           [Mock.a_txt] [] "/data/sub/b.txt" "sub/b.txt" m0 m
           (bytes_of_string "world") (world m) (world m)
           "An error occurred (404) when calling the HeadObject operation: Not Found");
    vm_compute; reflexivity.
Defined.

(** C10. In each upload pass, a file whose remote object exists but
    carries no [file_md5] entry in its metadata is treated as changed:
    the absent fingerprint does not compare equal to the local one, and
    the pass uploads the file with the metadata [{file_md5: digest}],
    which tags the object again. *)
Theorem untagged_object_reuploaded {W} {env : Environment W}
    (v : variant) (bucket ns : string)
    (pre post : list (string * string)) (full_path rel_path : string)
    (m0 m : machine W) (content : list byte) (w1 w2 : W)
    (metadata : gmap string string) :
  backup_loop v bucket ns pre m0 = (Ok tt, m) ->
  open_rb full_path (world m) = (Ok content, w1) ->
  head_object bucket (key_of v ns rel_path) w1 = (Ok metadata, w2) ->
  metadata !! "file_md5" = None ->
  exists m',
    backup_loop v bucket ns (pre ++ (full_path, rel_path) :: post) m0
    = backup_loop v bucket ns post m'
    /\ calls m' = calls m ++
         [Open full_path; HeadObject bucket (key_of v ns rel_path);
          UploadFile full_path bucket (key_of v ns rel_path)
            {[ "file_md5" := hashlib.md5_oneshot content ]}]
    /\ world m'
       = snd (upload_file full_path bucket (key_of v ns rel_path)
                {[ "file_md5" := hashlib.md5_oneshot content ]} w2).
Proof.
  intros Hpre Hopen Hhead Hnone.
  destruct (backup_file_uploads v bucket ns full_path rel_path m content w1
              _ w2 Hopen Hhead) as (m' & Hrun & Hcalls & Hworld & Hlog).
  { cbn. rewrite Hnone. discriminate. }
  exists m'. split; [|auto].
  unfold backup_loop. eapply for_each_reach; eassumption.
Qed.

Lemma untagged_object_reuploaded_witness :
  let m := Mock.start Mock.untagged in
  Mock.objects Mock.untagged !! "backup/Default/a.txt"
  = Some (bytes_of_string "hello", ∅)
  /\ exists m',
       backup_loop Headless "bucket" "Default" ([] ++ Mock.a_txt :: [Mock.b_txt]) m
       = backup_loop Headless "bucket" "Default" [Mock.b_txt] m'
       /\ calls m' = calls m ++
            [Open "/data/a.txt";
             HeadObject "bucket" (key_of Headless "Default" "a.txt");
             UploadFile "/data/a.txt" "bucket" (key_of Headless "Default" "a.txt")
               {[ "file_md5" := hashlib.md5_oneshot (bytes_of_string "hello") ]}]
       /\ world m'
          = snd (upload_file "/data/a.txt" "bucket"
                   (key_of Headless "Default" "a.txt")
                   {[ "file_md5" := hashlib.md5_oneshot (bytes_of_string "hello") ]}
                   Mock.untagged).
Proof.
  intros m. split; [vm_compute; reflexivity|].
  apply (untagged_object_reuploaded Headless "bucket" "Default"
           [] [Mock.b_txt] "/data/a.txt" "a.txt" m m
           (bytes_of_string "hello") Mock.untagged Mock.untagged ∅);
    vm_compute; reflexivity.
Defined.




(** In S3Sync.py every failure of the metadata fetch is swallowed
    ([except Exception: pass]) and the file goes on to the upload. *)
Lemma fetch_error_uploads_tabbed {W} {env : Environment W}
    (bucket ns full_path rel_path : string) (m : machine W)
    (content : list byte) (w1 w2 : W) (e : exn) :
  open_rb full_path (world m) = (Ok content, w1) ->
  head_object bucket (key_of Tabbed ns rel_path) w1 = (Raise e, w2) ->
  exists m',
    S3Sync.backup_file bucket (prefix_of ns) (full_path, rel_path) m = (Ok tt, m')
    /\ calls m' = calls m ++
         [Open full_path; HeadObject bucket (key_of Tabbed ns rel_path);
          UploadFile full_path bucket (key_of Tabbed ns rel_path)
            {[ "file_md5" := hashlib.md5_oneshot content ]}]
    /\ log_text m' = log_text m ++
         [transfer_line
            (uploaded_line full_path bucket (key_of Tabbed ns rel_path))
            (upload_error_line full_path)
            (snd (fst (upload_file full_path bucket (key_of Tabbed ns rel_path)
                         {[ "file_md5" := hashlib.md5_oneshot content ]} w2)))].
Proof.
  intros Hopen Hhead.
  destruct (backup_file_uploads Tabbed bucket ns full_path rel_path m content w1
              _ w2 Hopen Hhead) as (m' & Hrun & Hcalls & _ & Hlog).
  { destruct e; cbn; auto. }
  exists m'. auto.
Qed.

(** C1. A metadata fetch that fails with an error other than "object not
    found" (here a 500 on [a.txt]): the headless pass of backupjob.py
    logs the error and leaves the file alone, as the specification has
    it, but the pass of S3Sync.py logs nothing about the error and
    uploads the file. *)
Theorem fetch_error_uploads_in_tabbed_pass :
  let tabbed := snd (S3Sync.backup_directory Mock.ui (Mock.start Mock.flaky)) in
  let headless :=
    snd (backupjob.backup_directory "/data" "bucket" "AKIA" "secret" "Default"
           (Mock.start Mock.flaky)) in
  calls tabbed =
    [ Walk "/data"; Getsize "/data/a.txt"; Getsize "/data/sub/b.txt";
      Open "/data/a.txt"; HeadObject "bucket" "backup/Default/a.txt";
      UploadFile "/data/a.txt" "bucket" "backup/Default/a.txt"
        {[ "file_md5" := "5d41402abc4b2a76b9719d911017c592" ]};
      Open "/data/sub/b.txt"; HeadObject "bucket" "backup/Default/sub/b.txt";
      UploadFile "/data/sub/b.txt" "bucket" "backup/Default/sub/b.txt"
        {[ "file_md5" := "7d793037a0760186574b0282f2f435e7" ]} ]
  /\ log_text tabbed =
    [ "Uploaded /data/a.txt to s3://bucket/backup/Default/a.txt";
      "Uploaded /data/sub/b.txt to s3://bucket/backup/Default/sub/b.txt" ]
  /\ calls headless =
    [ Walk "/data"; Getsize "/data/a.txt"; Getsize "/data/sub/b.txt";
      Open "/data/a.txt"; HeadObject "bucket" "backup/Default/a.txt";
      Open "/data/sub/b.txt"; HeadObject "bucket" "backup/Default/sub/b.txt";
      UploadFile "/data/sub/b.txt" "bucket" "backup/Default/sub/b.txt"
        {[ "file_md5" := "7d793037a0760186574b0282f2f435e7" ]} ]
  /\ log_text headless =
    [ "Error checking backup/Default/a.txt: An error occurred (500) when calling the HeadObject operation: Internal Server Error";
      "Uploaded /data/sub/b.txt to s3://bucket/backup/Default/sub/b.txt" ].
Proof. vm_compute. repeat split. Qed.

(** C6. A transfer that fails is logged and the pass goes on: when the
    upload of a file raises, the upload pass logs the error and runs the
    rest of the file list; when the download of an object raises, the
    restore pass logs the error and runs the rest of the object list. *)
Theorem transfer_failure_does_not_abort {W} {env : Environment W}
    (v : variant) (bucket ns : string)
    (pre post : list (string * string)) (full_path rel_path : string)
    (m0 m : machine W) (content : list byte) (w1 w2 w3 : W)
    (r : result (gmap string string)) (amounts : list Z) (e : exn)
    (restore_dir : string) (opre opost : list (string * Z))
    (key rel : string) (size : Z) (n0 n : machine W) (u1 u2 : W)
    (damounts : list Z) (de : exn) :
  (backup_loop v bucket ns pre m0 = (Ok tt, m) ->
   open_rb full_path (world m) = (Ok content, w1) ->
   head_object bucket (key_of v ns rel_path) w1 = (r, w2) ->
   wants_upload v r (hashlib.md5_oneshot content) ->
   upload_file full_path bucket (key_of v ns rel_path)
     {[ "file_md5" := hashlib.md5_oneshot content ]} w2
   = ((amounts, Raise e), w3) ->
   exists m',
     backup_loop v bucket ns (pre ++ (full_path, rel_path) :: post) m0
     = backup_loop v bucket ns post m'
     /\ log_text m' = log_text m ++ [upload_error_line full_path e]
     /\ world m' = w3)
  /\
  (for_each opre (S3Sync.restore_object bucket (prefix_of ns) restore_dir) n0
   = (Ok tt, n) ->
   posixpath.relpath (os_getcwd (world n)) key (prefix_of ns) = Some rel ->
   os_makedirs (posixpath.dirname (posixpath.join restore_dir rel)) (world n)
   = (Ok tt, u1) ->
   download_file bucket key (posixpath.join restore_dir rel) u1
   = ((damounts, Raise de), u2) ->
   exists n',
     for_each (opre ++ (key, size) :: opost)
       (S3Sync.restore_object bucket (prefix_of ns) restore_dir) n0
     = for_each opost (S3Sync.restore_object bucket (prefix_of ns) restore_dir) n'
     /\ log_text n' = log_text n ++ [download_error_line key de]
     /\ world n' = u2).
Proof.
  split.
  - intros Hpre Hopen Hhead Hwants Hup.
    destruct (backup_file_uploads v bucket ns full_path rel_path m content w1
                r w2 Hopen Hhead Hwants) as (m' & Hrun & _ & Hworld & Hlog).
    rewrite Hup in Hworld, Hlog. exists m'.
    split; [unfold backup_loop; eapply for_each_reach; eassumption|]. auto.
  - intros Hpre Hrel Hmk Hdl.
    destruct (restore_object_run bucket (prefix_of ns) restore_dir key size n
                rel u1 Hrel Hmk) as (n' & Hrun & _ & Hworld & Hlog).
    rewrite Hdl in Hworld, Hlog. exists n'.
    split; [eapply for_each_reach; eassumption|]. auto.
Qed.

Lemma transfer_failure_witness :
  (let m := Mock.start Mock.upload_broken in
   exists m',
     backup_loop Pro "bucket" "Default" ([] ++ Mock.a_txt :: [Mock.b_txt]) m
     = backup_loop Pro "bucket" "Default" [Mock.b_txt] m'
     /\ log_text m' = log_text m ++ [upload_error_line "/data/a.txt" Mock.timed_out]
     /\ world m' = Mock.upload_broken)
  /\
  (let n := Mock.start Mock.download_broken in
   exists n',
     for_each ([] ++ ("backup/Default/sub/b.txt", 5) :: [("backup/Default/a.txt", 5)])
       (S3Sync.restore_object "bucket" (prefix_of "Default") "/out") n
     = for_each [("backup/Default/a.txt", 5)]
         (S3Sync.restore_object "bucket" (prefix_of "Default") "/out") n'
     /\ log_text n' = log_text n ++
          [download_error_line "backup/Default/sub/b.txt" Mock.timed_out]
     /\ world n' = Mock.with_dirs Mock.download_broken ["/out/sub"]).
Proof.
  pose proof (transfer_failure_does_not_abort Pro "bucket" "Default"
                [] [Mock.b_txt] "/data/a.txt" "a.txt"
                (Mock.start Mock.upload_broken) (Mock.start Mock.upload_broken)
                (bytes_of_string "hello") Mock.upload_broken Mock.upload_broken
                Mock.upload_broken (Raise Mock.not_found) [] Mock.timed_out
                "/out" [] [("backup/Default/a.txt", 5)]
                "backup/Default/sub/b.txt" "sub/b.txt" 5
                (Mock.start Mock.download_broken) (Mock.start Mock.download_broken)
                (Mock.with_dirs Mock.download_broken ["/out/sub"])
                (Mock.with_dirs Mock.download_broken ["/out/sub"])
                [] Mock.timed_out) as [Hup Hdown].
  split.
  - apply Hup; try (vm_compute; reflexivity). left. reflexivity.
  - apply Hdown; vm_compute; reflexivity.
Defined.

(** C5. When the paginated listing fails, at whatever page, the restore
    pass stops there: in S3Sync.py it logs the error and returns, having
    made no call but the listing; in Ver4.2.py the error is logged by
    the pass or by the worker that runs it, and no directory is made and
    no object is downloaded. The world is left as the listing left it. *)
Theorem listing_failure_aborts_restore {W} {env : Environment W}
    (ui : entries) (m : machine W) (pages : list page) (e : exn) (w1 : W) :
  restore_ready ui = true ->
  paginate (strip (entry_bucket ui))
    (prefix_of (or_default (strip (entry_computer_id ui)))) (world m)
  = ((pages, Some e), w1) ->
  (exists m',
     S3Sync.restore_backup ui m = (Ok tt, m')
     /\ calls m' = calls m ++
          [Paginate (strip (entry_bucket ui))
             (prefix_of (or_default (strip (entry_computer_id ui))))]
     /\ log_text m' = log_text m ++ [listing_error_line e]
     /\ world m' = w1)
  /\
  (exists m',
     Ver4_2.run_restore ui m = (Ok tt, m')
     /\ Forall (fun c => touches_local_tree c = false)
          (calls_since (length (calls m)) m')
     /\ (listing_error_line e ∈ log_text m'
         \/ ("Restore error: " +:+ str e) ∈ log_text m')
     /\ world m' = w1).
Proof.
  intros Hready Hlist. split.
  - rewrite (restore_backup_listing_fails ui m pages e w1 Hready Hlist).
    eexists. split; [reflexivity|]. cbn. auto.
  - unfold Ver4_2.run_restore, try_except, bind.
    cbn [log]. machine_simpl.
    rewrite (restore_backup_listing_fails_pro ui
               (add_log "Starting restore..." m) pages e w1 Hready Hlist).
    destruct e as [code msg|msg]; cbn; eexists; (split; [reflexivity|]);
      unfold calls_since; cbn;
      rewrite <- ?app_assoc, drop_app_length;
      (split; [repeat constructor|]); (split; [|reflexivity]).
    + left. set_solver.
    + right. set_solver.
Qed.

Lemma listing_failure_witness :
  let m := Mock.start Mock.unlistable in
  Mock.listed "backup/Default/" Mock.unlistable <> []
  /\ (exists m',
        S3Sync.restore_backup Mock.ui m = (Ok tt, m')
        /\ calls m' = calls m ++
             [Paginate (strip (entry_bucket Mock.ui))
                (prefix_of (or_default (strip (entry_computer_id Mock.ui))))]
        /\ log_text m' = log_text m ++ [listing_error_line Mock.internal_error]
        /\ world m' = Mock.unlistable)
  /\ (exists m',
        Ver4_2.run_restore Mock.ui m = (Ok tt, m')
        /\ Forall (fun c => touches_local_tree c = false)
             (calls_since (length (calls m)) m')
        /\ (listing_error_line Mock.internal_error ∈ log_text m'
            \/ ("Restore error: " +:+ str Mock.internal_error) ∈ log_text m')
        /\ world m' = Mock.unlistable).
Proof.
  intros m. split; [vm_compute; discriminate|].
  apply (listing_failure_aborts_restore Mock.ui m
           (fst (fst (Mock.mock_paginate "bucket" "backup/Default/" Mock.unlistable)))
           Mock.internal_error Mock.unlistable);
    vm_compute; reflexivity.
Defined.

(** C7, amended. For every object of the restore pass, in S3Sync.py and
    in Ver4.2.py: the local path is the destination root joined with
    the key taken relative to the namespace prefix (for a key whose
    remainder after the prefix is a relative path in normal form, that
    is the remainder itself), and the parent directory is made first.
    When that succeeds the object is downloaded to the path, with no
    other call in between: no local file is opened or measured, the
    download is issued whatever is at the path. When the directory
    cannot be made, the pass ends there with the exception, and neither
    this object nor any after it is downloaded. *)
Theorem restore_overwrites_at_derived_path {W} {env : Environment W}
    (bucket ns restore_dir : string) (pre post : list (string * Z))
    (key rel : string) (size : Z) (m0 m : machine W) :
  for_each pre (S3Sync.restore_object bucket (prefix_of ns) restore_dir) m0
  = (Ok tt, m) ->
  posixpath.relpath (os_getcwd (world m)) key (prefix_of ns) = Some rel ->
  let local_path := posixpath.join restore_dir rel in
  let made := os_makedirs (posixpath.dirname local_path) (world m) in
  (forall rest,
     key = prefix_of ns +:+ rest ->
     plain_relative rest = true ->
     posixpath.startswith_sep (os_getcwd (world m)) = true ->
     rel = rest)
  /\ exists m',
       calls m' = calls m ++
         Makedirs (posixpath.dirname local_path) ::
         match fst made with
         | Ok _ => [DownloadFile bucket key local_path]
         | Raise _ => []
         end
       /\ match fst made with
          | Ok _ =>
              for_each (pre ++ (key, size) :: post)
                (S3Sync.restore_object bucket (prefix_of ns) restore_dir) m0
              = for_each post
                  (S3Sync.restore_object bucket (prefix_of ns) restore_dir) m'
              /\ for_each (pre ++ (key, size) :: post)
                   (Ver4_2.restore_object bucket (prefix_of ns) restore_dir) m0
                 = for_each post
                     (Ver4_2.restore_object bucket (prefix_of ns) restore_dir) m'
              /\ world m' = snd (download_file bucket key local_path (snd made))
          | Raise e =>
              for_each (pre ++ (key, size) :: post)
                (S3Sync.restore_object bucket (prefix_of ns) restore_dir) m0
              = (Raise e, m')
              /\ for_each (pre ++ (key, size) :: post)
                   (Ver4_2.restore_object bucket (prefix_of ns) restore_dir) m0
                 = (Raise e, m')
              /\ world m' = snd made
          end.
Proof.
  intros Hpre Hrel local_path made. split.
  - intros rest -> Hplain Hcwd.
    assert (posixpath.relpath (os_getcwd (world m)) (prefix_of ns +:+ rest)
              (prefix_of ns) = Some rest) as Hstrip.
    { unfold prefix_of.
      replace ("backup/" +:+ ns +:+ "/") with (("backup/" +:+ ns) +:+ "/")
        by apply append_assoc.
      rewrite (append_assoc ("backup/" +:+ ns) "/" rest).
      apply relpath_strip; [exact Hcwd | discriminate | reflexivity | exact Hplain]. }
    rewrite Hstrip in Hrel. injection Hrel as <-. reflexivity.
  - assert (for_each pre (Ver4_2.restore_object bucket (prefix_of ns) restore_dir) m0
            = (Ok tt, m)) as Hpre'.
    { rewrite <- Hpre. clear Hpre. revert m0.
      induction pre as [|obj pre IH]; intros m0; [reflexivity|].
      cbn [for_each]. unfold bind. rewrite restore_object_same.
      destruct (S3Sync.restore_object _ _ _ obj m0) as [[[]|e] m1];
        [apply IH | reflexivity]. }
    destruct made as [[[]|e] w1] eqn:Hmk; subst made; cbn [fst snd].
    + destruct (restore_object_run bucket (prefix_of ns) restore_dir key size m
                  rel w1 Hrel Hmk) as (m' & Hrun & Hcalls & Hworld & _).
      exists m'. split; [exact Hcalls|].
      split; [eapply for_each_reach; eassumption|].
      split; [|exact Hworld].
      eapply for_each_reach; [exact Hpre'|].
      rewrite restore_object_same. exact Hrun.
    + assert (S3Sync.restore_object bucket (prefix_of ns) restore_dir (key, size) m
              = (Raise e,
                 put_world w1
                   (add_call (Makedirs (posixpath.dirname local_path)) m)))
        as Hrun.
      { unfold S3Sync.restore_object.
        unfold bind at 1. rewrite relpath_eq, Hrel.
        unfold bind at 1. fold local_path. rewrite makedirs_eq, Hmk. reflexivity. }
      exists (put_world w1 (add_call (Makedirs (posixpath.dirname local_path)) m)).
      split; [|split; [|split]].
      * reflexivity.
      * rewrite (for_each_app _ _ _ _ _ Hpre).
        cbn [for_each]. unfold bind. rewrite Hrun. reflexivity.
      * rewrite (for_each_app _ _ _ _ _ Hpre').
        cbn [for_each]. unfold bind. rewrite restore_object_same, Hrun.
        reflexivity.
      * reflexivity.
Qed.

Lemma restore_overwrites_witness :
  let m := Mock.start Mock.stale in
  Mock.files Mock.stale !! "/out/a.txt" = Some (bytes_of_string "old")
  /\ Mock.files
       (snd (download_file "bucket" "backup/Default/a.txt" "/out/a.txt"
               (Mock.with_dirs Mock.stale ["/out"]))) !! "/out/a.txt"
     = Some (bytes_of_string "hello")
  /\ os_makedirs (posixpath.dirname (posixpath.join "/out" "a.txt")) (world m)
     = (Ok tt, Mock.with_dirs Mock.stale ["/out"])
  /\ (forall rest,
        "backup/Default/a.txt" = prefix_of "Default" +:+ rest ->
        plain_relative rest = true ->
        posixpath.startswith_sep (os_getcwd (world m)) = true ->
        "a.txt" = rest)
  /\ exists m',
       calls m' = calls m ++
         Makedirs (posixpath.dirname (posixpath.join "/out" "a.txt")) ::
         match fst (os_makedirs (posixpath.dirname (posixpath.join "/out" "a.txt"))
                      (world m)) with
         | Ok _ => [DownloadFile "bucket" "backup/Default/a.txt"
                      (posixpath.join "/out" "a.txt")]
         | Raise _ => []
         end
       /\ match fst (os_makedirs (posixpath.dirname (posixpath.join "/out" "a.txt"))
                       (world m)) with
          | Ok _ =>
              for_each ([] ++ ("backup/Default/a.txt", 5) :: [])
                (S3Sync.restore_object "bucket" (prefix_of "Default") "/out") m
              = for_each []
                  (S3Sync.restore_object "bucket" (prefix_of "Default") "/out") m'
              /\ for_each ([] ++ ("backup/Default/a.txt", 5) :: [])
                   (Ver4_2.restore_object "bucket" (prefix_of "Default") "/out") m
                 = for_each []
                     (Ver4_2.restore_object "bucket" (prefix_of "Default") "/out") m'
              /\ world m'
                 = snd (download_file "bucket" "backup/Default/a.txt"
                          (posixpath.join "/out" "a.txt")
                          (snd (os_makedirs
                                  (posixpath.dirname (posixpath.join "/out" "a.txt"))
                                  (world m))))
          | Raise e =>
              for_each ([] ++ ("backup/Default/a.txt", 5) :: [])
                (S3Sync.restore_object "bucket" (prefix_of "Default") "/out") m
              = (Raise e, m')
              /\ for_each ([] ++ ("backup/Default/a.txt", 5) :: [])
                   (Ver4_2.restore_object "bucket" (prefix_of "Default") "/out") m
                 = (Raise e, m')
              /\ world m'
                 = snd (os_makedirs
                          (posixpath.dirname (posixpath.join "/out" "a.txt"))
                          (world m))
          end.
Proof.
  intros m. split; [vm_compute; reflexivity|]. split; [vm_compute; reflexivity|].
  split; [vm_compute; reflexivity|].
  apply (restore_overwrites_at_derived_path "bucket" "Default" "/out" [] []
           "backup/Default/a.txt" "a.txt" 5 m m);
    vm_compute; reflexivity.
Defined.

(** The claim C7 as the specification words it fails: not every
    enumerated object is written. The parent directory is made outside
    the [try] of the download; where it cannot be made, the object is not
    downloaded and the pass is over, in both files. *)
Lemma restore_stops_at_unmakeable_directory :
  posixpath.relpath (os_getcwd Walls.read_only) "backup/Default/sub/b.txt"
    (prefix_of "Default") = Some "sub/b.txt"
  /\ S3Sync.restore_object "bucket" (prefix_of "Default") "/out"
       ("backup/Default/sub/b.txt", 5) (Mock.start Walls.read_only)
     = (Raise (OtherError "[Errno 13] Permission denied: '/out/sub'"),
        add_call (Makedirs "/out/sub") (Mock.start Walls.read_only))
  /\ Ver4_2.restore_object "bucket" (prefix_of "Default") "/out"
       ("backup/Default/sub/b.txt", 5) (Mock.start Walls.read_only)
     = (Raise (OtherError "[Errno 13] Permission denied: '/out/sub'"),
        add_call (Makedirs "/out/sub") (Mock.start Walls.read_only))
  /\ ~ (forall (bucket ns restore_dir key rel : string) (size : Z)
           (m : machine Mock.mock),
          posixpath.relpath (os_getcwd (world m)) key (prefix_of ns) = Some rel ->
          exists m',
            S3Sync.restore_object bucket (prefix_of ns) restore_dir (key, size) m
            = (Ok tt, m')
            /\ calls m' = calls m ++
                 [Makedirs (posixpath.dirname (posixpath.join restore_dir rel));
                  DownloadFile bucket key (posixpath.join restore_dir rel)]).
Proof.
  repeat (split; [vm_compute; reflexivity|]).
  intros Hclaim.
  destruct (Hclaim "bucket" "Default" "/out" "backup/Default/sub/b.txt" "sub/b.txt" 5
              (Mock.start Walls.read_only))
    as (m' & Hrun & _); [vm_compute; reflexivity|].
  assert (fst (S3Sync.restore_object "bucket" (prefix_of "Default") "/out"
                 ("backup/Default/sub/b.txt", 5) (Mock.start Walls.read_only))
          = Raise (OtherError "[Errno 13] Permission denied: '/out/sub'"))
    as Hfst by (vm_compute; reflexivity).
  rewrite Hrun in Hfst. discriminate Hfst.
Qed.

(** C9. In the selective restore the flag is read before each download.
    While it is up, the object is downloaded, and its transfer runs to
    its end (all the progress it reports is counted) even if the flag
    goes down meanwhile; after it the loop goes on only if the flag is
    still up. Once the flag is down when the loop reads it, the loop is
    left and nothing more of the selection is transferred. *)
Theorem cancellation_checked_before_each_download {W} {env : Environment W}
    (ui : entries) (bucket restore_dir : string) (total : Z)
    (item : tree_item) (rest : list tree_item) (m : machine W)
    (rel : string) (w1 w2 : W) (amounts : list Z) (res : result unit) :
  running (world m) = true ->
  posixpath.relpath (os_getcwd (world m)) (item_key item)
    ("backup/" +:+ or_default (strip (entry_computer_id ui))) = Some rel ->
  os_makedirs (posixpath.dirname (posixpath.join restore_dir rel)) (world m)
  = (Ok tt, w1) ->
  download_file bucket (item_key item) (posixpath.join restore_dir rel) w1
  = ((amounts, res), w2) ->
  (exists m',
     for_each_break (item :: rest)
       (S3Sync.restore_item ui bucket restore_dir total) m
     = (if running w2
        then for_each_break rest (S3Sync.restore_item ui bucket restore_dir total) m'
        else (Ok tt, m'))
     /\ calls m' = calls m ++
          [Makedirs (posixpath.dirname (posixpath.join restore_dir rel));
           DownloadFile bucket (item_key item) (posixpath.join restore_dir rel)]
     /\ bytes_downloaded m' = bytes_downloaded m + sum_amounts amounts
     /\ world m' = w2)
  /\
  (forall (items : list tree_item) (m1 : machine W),
     running (world m1) = false ->
     for_each_break items (S3Sync.restore_item ui bucket restore_dir total) m1
     = (Ok tt, m1)).
Proof.
  intros Hflag Hrel Hmk Hdl. split.
  - destruct (restore_item_run ui bucket restore_dir total item m rel w1
                amounts res w2 Hflag Hrel Hmk Hdl)
      as (m' & Hrun & Hcalls & Hworld & Hbytes & _).
    exists m'. split; [|auto].
    cbn [for_each_break]. unfold bind at 1. rewrite Hrun.
    destruct (running w2) eqn:Hafter; [reflexivity|].
    apply for_each_break_cancelled. rewrite Hworld. exact Hafter.
  - intros items m1 Hdown. apply for_each_break_cancelled. exact Hdown.
Qed.

Lemma cancellation_witness :
  let m := Mock.start Mock.interrupted in
  let w1 := Mock.with_dirs Mock.interrupted ["/out"] in
  let w2 := snd (Mock.mock_download "bucket" "backup/Default/a.txt" "/out/a.txt" w1) in
  let body := S3Sync.restore_item Mock.ui "bucket" "/out" 10 in
  running (world m) = true
  /\ running w2 = false
  /\ (exists m',
        for_each_break Mock.selected body m = (Ok tt, m')
        /\ calls m' = calls m ++
             [Makedirs "/out";
              DownloadFile "bucket" "backup/Default/a.txt" "/out/a.txt"]
        /\ bytes_downloaded m' = bytes_downloaded m + sum_amounts [5]
        /\ world m' = w2)
  /\ (forall (items : list tree_item) (m1 : machine Mock.mock),
        running (world m1) = false ->
        for_each_break items body m1 = (Ok tt, m1)).
Proof.
  intros m w1 w2 body.
  split; [vm_compute; reflexivity|]. split; [vm_compute; reflexivity|].
  exact (cancellation_checked_before_each_download
           (env := Mock.mock_environment) Mock.ui "bucket" "/out" 10
           (TreeItem "a.txt" 5 "2024-05-01 10:00:00" "backup/Default/a.txt")
           [TreeItem "b.txt" 5 "2024-05-01 10:00:01" "backup/Default/sub/b.txt"]
           m "a.txt" w1 w2 [5] (Ok tt)
           ltac:(vm_compute; reflexivity) ltac:(vm_compute; reflexivity)
           ltac:(vm_compute; reflexivity) ltac:(vm_compute; reflexivity)).
Defined.

Lemma key_of_shape (v : variant) (ns rel : string) :
  posixpath.startswith_sep rel = false ->
  key_of v ns rel
  = "backup/" +:+ replace_backslash ns +:+ "/" +:+ replace_backslash rel.
Proof.
  intros Hrel.
  assert (posixpath.join (prefix_of ns) rel = "backup/" +:+ ns +:+ "/" +:+ rel)
    as Hjoin.
  { unfold prefix_of.
    replace ("backup/" +:+ ns +:+ "/") with (("backup/" +:+ ns) +:+ "/")
      by apply append_assoc.
    rewrite join_relative by exact Hrel. apply append_assoc. }
  destruct v; cbn [key_of];
    unfold backupjob.s3_key, Ver4_2.s3_key, S3Sync.s3_key;
    rewrite ?Hjoin; apply replace_backslash_literal.
Qed.

Lemma key_of_distinct (v : variant) (ns1 ns2 rel : string) :
  posixpath.startswith_sep rel = false ->
  replace_backslash ns1 <> replace_backslash ns2 ->
  key_of v ns1 rel <> key_of v ns2 rel.
Proof.
  intros Hrel Hne. rewrite !key_of_shape by exact Hrel.
  rewrite <- !replace_backslash_literal.
  apply backupjob_key_distinct. exact Hne.
Qed.

(** Namespaces without a backslash are not touched by the replacement:
    among them, different namespaces give different keys. *)
Lemma key_distinct_plain_namespaces (v : variant) (ns1 ns2 rel : string) :
  posixpath.startswith_sep rel = false ->
  ~ occurs "\"%char ns1 -> ~ occurs "\"%char ns2 -> ns1 <> ns2 ->
  key_of v ns1 rel <> key_of v ns2 rel.
Proof.
  intros Hrel H1 H2 Hne. apply key_of_distinct; [exact Hrel|].
  rewrite !replace_backslash_id by assumption. exact Hne.
Qed.

(** The claim C4 as the specification words it fails: the backslashes of
    the namespace are replaced as well, so two namespaces that differ
    only by a backslash against a slash give one and the same key. *)
Lemma namespaces_collide_after_normalisation :
  "lab\pc1" <> "lab/pc1"
  /\ key_of Headless "lab\pc1" "a.txt" = key_of Headless "lab/pc1" "a.txt"
  /\ key_of Pro "lab\pc1" "a.txt" = key_of Pro "lab/pc1" "a.txt"
  /\ key_of Tabbed "lab\pc1" "a.txt" = key_of Tabbed "lab/pc1" "a.txt"
  /\ ~ (forall v ns1 ns2 rel,
          ns1 <> ns2 -> key_of v ns1 rel <> key_of v ns2 rel).
Proof.
  split; [discriminate|]. repeat (split; [reflexivity|]).
  intros Hclaim.
  apply (Hclaim Headless "lab\pc1" "lab/pc1" "a.txt"); [discriminate | reflexivity].
Qed.

(** C4, amended. The key of a file is a function of the namespace and
    the relative path: it is [backup/<namespace>/<relative-path>] with
    every backslash, of the namespace as of the path, replaced by a
    forward slash, and holds no backslash. For one relative path under
    two namespaces that still differ after that replacement, the keys
    are distinct. *)
Theorem key_derivation (v : variant) (ns1 ns2 rel : string) :
  posixpath.startswith_sep rel = false ->
  replace_backslash ns1 <> replace_backslash ns2 ->
  key_of v ns1 rel
  = "backup/" +:+ replace_backslash ns1 +:+ "/" +:+ replace_backslash rel
  /\ ~ occurs "\"%char (key_of v ns1 rel)
  /\ key_of v ns1 rel <> key_of v ns2 rel.
Proof.
  intros Hrel Hne. split; [apply key_of_shape; exact Hrel|]. split.
  - rewrite key_of_shape by exact Hrel.
    rewrite <- replace_backslash_literal. apply replace_backslash_free.
  - apply key_of_distinct; assumption.
Qed.

Lemma key_derivation_witness :
  key_of Tabbed "Default" "sub\b.txt" = "backup/Default/sub/b.txt"
  /\ ~ occurs "\"%char (key_of Tabbed "Default" "sub\b.txt")
  /\ key_of Tabbed "Default" "sub\b.txt" <> key_of Tabbed "Laptop" "sub\b.txt".
Proof.
  apply (key_derivation Tabbed "Default" "Laptop" "sub\b.txt").
  - reflexivity.
  - vm_compute. discriminate.
Defined.


(** * Further properties of the code *)

(** ** The upload loop *)

Section UploadLoopFacts.
Context {W : Type} `{Environment W}.

Lemma for_each_reach_raise {A} (pre post : list A) x (body : A -> M W unit)
    m0 m e m' :
  for_each pre body m0 = (Ok tt, m) ->
  body x m = (Raise e, m') ->
  for_each (pre ++ x :: post) body m0 = (Raise e, m').
Proof.
  intros Hpre Hx. rewrite (for_each_app _ _ _ _ _ Hpre).
  cbn [for_each]. unfold bind. rewrite Hx. reflexivity.
Qed.

Lemma backup_file_unreadable v bucket ns full_path rel_path (m : machine W) e w1 :
  open_rb full_path (world m) = (Raise e, w1) ->
  backup_file_of v bucket ns (full_path, rel_path) m
  = (Raise e, put_world w1 (add_call (Open full_path) m)).
Proof.
  intros Hopen.
  destruct v; cbn [backup_file_of];
    unfold backupjob.backup_file, Ver4_2.backup_file, S3Sync.backup_file;
    apply bind_raise, compute_md5_raise; exact Hopen.
Qed.

(** An unchanged file whose size cannot be read, in S3Sync.py: the
    exception is swallowed with those of the fetch, and the file is
    uploaded after all, after the line that says it is skipped. *)
Lemma backup_file_unsized_tabbed bucket ns full_path rel_path (m : machine W)
    content w1 metadata w2 e w3 :
  open_rb full_path (world m) = (Ok content, w1) ->
  head_object bucket (key_of Tabbed ns rel_path) w1 = (Ok metadata, w2) ->
  metadata !! "file_md5" = Some (hashlib.md5_oneshot content) ->
  os_path_getsize full_path w2 = (Raise e, w3) ->
  exists m',
    S3Sync.backup_file bucket (prefix_of ns) (full_path, rel_path) m = (Ok tt, m')
    /\ calls m' = calls m ++
         [Open full_path; HeadObject bucket (key_of Tabbed ns rel_path);
          Getsize full_path;
          UploadFile full_path bucket (key_of Tabbed ns rel_path)
            {[ "file_md5" := hashlib.md5_oneshot content ]}]
    /\ log_text m' = log_text m ++
         [skipping_line full_path;
          transfer_line
            (uploaded_line full_path bucket (key_of Tabbed ns rel_path))
            (upload_error_line full_path)
            (snd (fst (upload_file full_path bucket (key_of Tabbed ns rel_path)
                         {[ "file_md5" := hashlib.md5_oneshot content ]} w3)))]
    /\ bytes_uploaded m'
       = bytes_uploaded m
         + sum_amounts
             (fst (fst (upload_file full_path bucket (key_of Tabbed ns rel_path)
                          {[ "file_md5" := hashlib.md5_oneshot content ]} w3))).
Proof.
  intros Hopen Hhead Hsame Hsize. cbn [key_of] in *.
  unfold S3Sync.backup_file.
  erewrite bind_ok by (apply compute_md5_run; exact Hopen).
  unfold bind at 1. unfold try_except at 1. unfold bind at 1.
  rewrite s3_head_object_eq. machine_simpl. rewrite Hhead. machine_simpl.
  rewrite bool_decide_eq_true_2 by exact Hsame.
  unfold bind at 1. cbn [log]. unfold bind at 1.
  rewrite getsize_eq. machine_simpl. rewrite Hsize. machine_simpl.
  cbn [ret].
  unfold try_except, s3_upload_file, bind, record, perform. machine_simpl.
  destruct (upload_file full_path bucket (S3Sync.s3_key (prefix_of ns) rel_path)
              {[ "file_md5" := hashlib.md5_oneshot content ]} w3)
    as [[amounts res] w4].
  machine_simpl.
  match goal with
  | |- context [for_each amounts S3Sync.progress_callback ?m1] =>
      destruct (upload_callbacks amounts m1)
        as (m2 & Hrun & _ & Hw & Hc & Hl & _ & Hb)
  end.
  rewrite Hrun. machine_simpl.
  destruct res as [[]|e']; cbn; eexists; (split; [reflexivity|]); cbn;
    rewrite Hc, Hl, Hb, <- ?app_assoc; auto.
Qed.

Lemma backup_file_unsized_pro bucket ns full_path rel_path (m : machine W)
    content w1 metadata w2 msg w3 :
  open_rb full_path (world m) = (Ok content, w1) ->
  head_object bucket (key_of Pro ns rel_path) w1 = (Ok metadata, w2) ->
  metadata !! "file_md5" = Some (hashlib.md5_oneshot content) ->
  os_path_getsize full_path w2 = (Raise (OtherError msg), w3) ->
  exists m',
    Ver4_2.backup_file bucket (prefix_of ns) (full_path, rel_path) m
    = (Raise (OtherError msg), m')
    /\ calls m' = calls m ++
         [Open full_path; HeadObject bucket (key_of Pro ns rel_path);
          Getsize full_path]
    /\ log_text m' = log_text m ++ [skipping_line full_path].
Proof.
  intros Hopen Hhead Hsame Hsize. cbn [key_of] in *.
  unfold Ver4_2.backup_file.
  erewrite bind_ok by (apply compute_md5_run; exact Hopen).
  unfold bind at 1. unfold try_except at 1. unfold bind at 1.
  rewrite s3_head_object_eq. machine_simpl. rewrite Hhead. machine_simpl.
  rewrite bool_decide_eq_true_2 by exact Hsame.
  unfold bind at 1. cbn [log]. unfold bind at 1.
  rewrite getsize_eq. machine_simpl. rewrite Hsize. machine_simpl.
  eexists. split; [reflexivity|]. cbn. rewrite <- !app_assoc. auto.
Qed.

End UploadLoopFacts.

(** X1. In each upload pass, a file whose remote object carries a
    fingerprint different from the one just computed is uploaded again,
    with the new fingerprint as its metadata, and the pass goes on. *)
Theorem changed_file_reuploaded {W} {env : Environment W}
    (v : variant) (bucket ns : string)
    (pre post : list (string * string)) (full_path rel_path : string)
    (m0 m : machine W) (content : list byte) (w1 w2 : W)
    (metadata : gmap string string) (stored : string) :
  backup_loop v bucket ns pre m0 = (Ok tt, m) ->
  open_rb full_path (world m) = (Ok content, w1) ->
  head_object bucket (key_of v ns rel_path) w1 = (Ok metadata, w2) ->
  metadata !! "file_md5" = Some stored ->
  stored <> hashlib.md5_oneshot content ->
  exists m',
    backup_loop v bucket ns (pre ++ (full_path, rel_path) :: post) m0
    = backup_loop v bucket ns post m'
    /\ calls m' = calls m ++
         [Open full_path; HeadObject bucket (key_of v ns rel_path);
          UploadFile full_path bucket (key_of v ns rel_path)
            {[ "file_md5" := hashlib.md5_oneshot content ]}]
    /\ world m'
       = snd (upload_file full_path bucket (key_of v ns rel_path)
                {[ "file_md5" := hashlib.md5_oneshot content ]} w2).
Proof.
  intros Hpre Hopen Hhead Hstored Hdiff.
  destruct (backup_file_uploads v bucket ns full_path rel_path m content w1
              _ w2 Hopen Hhead) as (m' & Hrun & Hcalls & Hworld & _).
  { cbn. rewrite Hstored. intros [= Heq]. exact (Hdiff Heq). }
  exists m'. split; [|auto].
  unfold backup_loop. eapply for_each_reach; eassumption.
Qed.

Lemma changed_file_reuploaded_witness :
  let m := Mock.start Cases.edited in
  Mock.objects Cases.edited !! "backup/Default/a.txt"
  = Some (bytes_of_string "hello",
          {[ "file_md5" := "5d41402abc4b2a76b9719d911017c592" ]})
  /\ Mock.objects
       (snd (upload_file "/data/a.txt" "bucket" "backup/Default/a.txt"
               {[ "file_md5" := hashlib.md5_oneshot (bytes_of_string "HELLO") ]}
               Cases.edited)) !! "backup/Default/a.txt"
     = Some (bytes_of_string "HELLO",
             {[ "file_md5" := "eb61eead90e3b899c6bcbe27ac581660" ]})
  /\ exists m',
       backup_loop Pro "bucket" "Default" ([] ++ Mock.a_txt :: [Mock.b_txt]) m
       = backup_loop Pro "bucket" "Default" [Mock.b_txt] m'
       /\ calls m' = calls m ++
            [Open "/data/a.txt"; HeadObject "bucket" (key_of Pro "Default" "a.txt");
             UploadFile "/data/a.txt" "bucket" (key_of Pro "Default" "a.txt")
               {[ "file_md5" := hashlib.md5_oneshot (bytes_of_string "HELLO") ]}]
       /\ world m'
          = snd (upload_file "/data/a.txt" "bucket" (key_of Pro "Default" "a.txt")
                   {[ "file_md5" := hashlib.md5_oneshot (bytes_of_string "HELLO") ]}
                   Cases.edited).
Proof.
  intros m. split; [vm_compute; reflexivity|]. split; [vm_compute; reflexivity|].
  apply (changed_file_reuploaded Pro "bucket" "Default" [] [Mock.b_txt]
           "/data/a.txt" "a.txt" m m (bytes_of_string "HELLO")
           Cases.edited Cases.edited
           {[ "file_md5" := "5d41402abc4b2a76b9719d911017c592" ]}
           "5d41402abc4b2a76b9719d911017c592");
    try (vm_compute; reflexivity).
  vm_compute. discriminate.
Defined.

(** X2. The fingerprint is computed outside every [try]: in each upload
    pass, a file that cannot be opened ends the pass there with the
    exception. The file is not looked up, and no file after it in the
    list is opened, looked up or uploaded. *)
Theorem unreadable_file_aborts_upload_pass {W} {env : Environment W}
    (v : variant) (bucket ns : string)
    (pre post : list (string * string)) (full_path rel_path : string)
    (m0 m : machine W) (e : exn) (w1 : W) :
  backup_loop v bucket ns pre m0 = (Ok tt, m) ->
  open_rb full_path (world m) = (Raise e, w1) ->
  exists m',
    backup_loop v bucket ns (pre ++ (full_path, rel_path) :: post) m0
    = (Raise e, m')
    /\ calls m' = calls m ++ [Open full_path]
    /\ log_text m' = log_text m
    /\ world m' = w1.
Proof.
  intros Hpre Hopen. eexists. split.
  - unfold backup_loop. eapply for_each_reach_raise; [exact Hpre|].
    apply backup_file_unreadable. exact Hopen.
  - cbn. auto.
Qed.

Lemma unreadable_file_witness :
  let m := Mock.start Cases.vanished in
  exists m',
    backup_loop Headless "bucket" "Default" ([] ++ Mock.a_txt :: [Mock.b_txt]) m
    = (Raise (Mock.no_such_file "/data/a.txt"), m')
    /\ calls m' = calls m ++ [Open "/data/a.txt"]
    /\ log_text m' = log_text m
    /\ world m' = Cases.vanished.
Proof.
  intros m.
  apply (unreadable_file_aborts_upload_pass Headless "bucket" "Default"
           [] [Mock.b_txt] "/data/a.txt" "a.txt" m m);
    vm_compute; reflexivity.
Defined.

(** X3. In Ver4.2.py only a [ClientError] of the metadata fetch is
    handled. An exception of another class, raised by the fetch or, for
    an unchanged file, by the size query that follows it, ends the pass
    there: no file after it in the list is processed. *)
Theorem other_exception_aborts_pro_pass {W} {env : Environment W}
    (bucket ns : string)
    (pre post : list (string * string)) (full_path rel_path : string)
    (m0 m : machine W) (content : list byte) (w1 w2 w3 : W)
    (r : result (gmap string string)) (msg : string) :
  backup_loop Pro bucket ns pre m0 = (Ok tt, m) ->
  open_rb full_path (world m) = (Ok content, w1) ->
  head_object bucket (key_of Pro ns rel_path) w1 = (r, w2) ->
  (r = Raise (OtherError msg)
   \/ (exists metadata,
         r = Ok metadata
         /\ metadata !! "file_md5" = Some (hashlib.md5_oneshot content)
         /\ os_path_getsize full_path w2 = (Raise (OtherError msg), w3))) ->
  exists m',
    backup_loop Pro bucket ns (pre ++ (full_path, rel_path) :: post) m0
    = (Raise (OtherError msg), m')
    /\ Forall (fun c => is_transfer c = false) (calls_since (length (calls m)) m').
Proof.
  intros Hpre Hopen Hhead [->|(metadata & -> & Hsame & Hsize)].
  - destruct (fetch_error_in_pro bucket ns full_path rel_path m content w1
                (OtherError msg) w2 Hopen Hhead ltac:(discriminate))
      as (m' & Hrun & Hcalls & _).
    exists m'. split.
    + unfold backup_loop. eapply for_each_reach_raise; eassumption.
    + unfold calls_since. rewrite Hcalls, drop_app_length. repeat constructor.
  - destruct (backup_file_unsized_pro bucket ns full_path rel_path m content w1
                metadata w2 msg w3 Hopen Hhead Hsame Hsize)
      as (m' & Hrun & Hcalls & _).
    exists m'. split.
    + unfold backup_loop. eapply for_each_reach_raise; eassumption.
    + unfold calls_since. rewrite Hcalls, drop_app_length. repeat constructor.
Qed.

Lemma other_exception_aborts_pro_witness :
  let m := Mock.start Cases.slow in
  exists m',
    backup_loop Pro "bucket" "Default" ([] ++ Mock.a_txt :: [Mock.b_txt]) m
    = (Raise (OtherError "Read timeout on endpoint URL"), m')
    /\ Forall (fun c => is_transfer c = false) (calls_since (length (calls m)) m').
Proof.
  intros m.
  apply (other_exception_aborts_pro_pass "bucket" "Default" [] [Mock.b_txt]
           "/data/a.txt" "a.txt" m m (bytes_of_string "hello")
           Cases.slow Cases.slow Cases.slow (Raise Mock.timed_out)
           "Read timeout on endpoint URL");
    try (vm_compute; reflexivity).
  left. reflexivity.
Defined.

(** X4. In S3Sync.py the size query of an unchanged file sits inside the
    [try] whose handler is [except Exception: pass]: when it raises, the
    file, already logged as skipped, is uploaded in full after all, and
    the pass goes on. *)
Theorem unmeasurable_file_uploaded_again {W} {env : Environment W}
    (bucket ns : string)
    (pre post : list (string * string)) (full_path rel_path : string)
    (m0 m : machine W) (content : list byte) (w1 w2 w3 : W)
    (metadata : gmap string string) (e : exn) :
  backup_loop Tabbed bucket ns pre m0 = (Ok tt, m) ->
  open_rb full_path (world m) = (Ok content, w1) ->
  head_object bucket (key_of Tabbed ns rel_path) w1 = (Ok metadata, w2) ->
  metadata !! "file_md5" = Some (hashlib.md5_oneshot content) ->
  os_path_getsize full_path w2 = (Raise e, w3) ->
  exists m',
    backup_loop Tabbed bucket ns (pre ++ (full_path, rel_path) :: post) m0
    = backup_loop Tabbed bucket ns post m'
    /\ calls m' = calls m ++
         [Open full_path; HeadObject bucket (key_of Tabbed ns rel_path);
          Getsize full_path;
          UploadFile full_path bucket (key_of Tabbed ns rel_path)
            {[ "file_md5" := hashlib.md5_oneshot content ]}]
    /\ log_text m' = log_text m ++
         [skipping_line full_path;
          transfer_line
            (uploaded_line full_path bucket (key_of Tabbed ns rel_path))
            (upload_error_line full_path)
            (snd (fst (upload_file full_path bucket (key_of Tabbed ns rel_path)
                         {[ "file_md5" := hashlib.md5_oneshot content ]} w3)))].
Proof.
  intros Hpre Hopen Hhead Hsame Hsize.
  destruct (backup_file_unsized_tabbed bucket ns full_path rel_path m content
              w1 metadata w2 e w3 Hopen Hhead Hsame Hsize)
    as (m' & Hrun & Hcalls & Hlog & _).
  exists m'. split; [|auto].
  unfold backup_loop. eapply for_each_reach; eassumption.
Qed.

Lemma unmeasurable_file_witness :
  let m := Cases.start_unsized Mock.synced in
  exists m',
    backup_loop Tabbed "bucket" "Default" ([] ++ Mock.a_txt :: []) m
    = backup_loop Tabbed "bucket" "Default" [] m'
    /\ calls m' = calls m ++
         [Open "/data/a.txt"; HeadObject "bucket" (key_of Tabbed "Default" "a.txt");
          Getsize "/data/a.txt";
          UploadFile "/data/a.txt" "bucket" (key_of Tabbed "Default" "a.txt")
            {[ "file_md5" := hashlib.md5_oneshot (bytes_of_string "hello") ]}]
    /\ log_text m' = log_text m ++
         [skipping_line "/data/a.txt";
          transfer_line
            (uploaded_line "/data/a.txt" "bucket" (key_of Tabbed "Default" "a.txt"))
            (upload_error_line "/data/a.txt")
            (snd (fst (upload_file "/data/a.txt" "bucket"
                         (key_of Tabbed "Default" "a.txt")
                         {[ "file_md5" := hashlib.md5_oneshot (bytes_of_string "hello") ]}
                         (Cases.Unsized Mock.synced))))].
Proof.
  intros m.
  apply (unmeasurable_file_uploaded_again "bucket" "Default" [] []
           "/data/a.txt" "a.txt" m m (bytes_of_string "hello")
           (Cases.Unsized Mock.synced) (Cases.Unsized Mock.synced)
           (Cases.Unsized Mock.synced)
           {[ "file_md5" := "5d41402abc4b2a76b9719d911017c592" ]}
           (Mock.no_such_file "/data/a.txt"));
    vm_compute; reflexivity.
Defined.


(** ** The enumeration *)

Section Enumeration.
Context {W : Type} `{Environment W}.

Lemma filter_split_good (s : string) :
  Forall good (filter (fun x => posixpath.nonempty x = true) (posixpath.split s)).
Proof.
  apply Forall_forall. intros c Hc.
  apply list_elem_of_filter in Hc as [Hne Hin]. split.
  - unfold posixpath.nonempty in Hne. apply negb_true_iff in Hne.
    apply bool_decide_eq_false in Hne. exact Hne.
  - pose proof (split_slash_free s) as Hall.
    rewrite Forall_forall in Hall. apply Hall, Hin.
Qed.

Lemma good_dotdot : good "..".
Proof.
  split; [discriminate|]. intros Hocc. cbn in Hocc.
  destruct Hocc as [Hc|[Hc|[]]]; discriminate.
Qed.

Lemma startswith_join_sep a p :
  good a -> posixpath.startswith_sep (posixpath.join_sep (a :: p)) = false.
Proof.
  intros Ha. destruct p as [|b p].
  - apply startswith_good, Ha.
  - rewrite join_sep_cons by discriminate.
    rewrite startswith_append by apply Ha. apply startswith_good, Ha.
Qed.

(** [relpath] never answers an absolute path. *)
Lemma relpath_relative cwd path start r :
  posixpath.relpath cwd path start = Some r ->
  posixpath.startswith_sep r = false.
Proof.
  unfold posixpath.relpath. case_bool_decide; [discriminate|].
  set (start_list := filter _ (posixpath.split (posixpath.abspath cwd start))).
  set (path_list := filter _ (posixpath.split (posixpath.abspath cwd path))).
  set (i := posixpath.commonprefix_len start_list path_list).
  assert (Forall good (replicate (length start_list - i) ".." ++ drop i path_list))
    as Hgood.
  { apply Forall_app. split.
    - apply Forall_replicate, good_dotdot.
    - apply Forall_drop, filter_split_good. }
  destruct (replicate (length start_list - i) ".." ++ drop i path_list)
    as [|a p]; intros [= <-]; [reflexivity|].
  apply Forall_cons in Hgood as [Ha Hp].
  rewrite join_all_join_sep; [| apply Ha | | exact Hp].
  - apply startswith_join_sep, Ha.
  - apply endswith_slash_free, Ha.
Qed.

Lemma gather_file_eq local_dir root acc file (m : machine W) :
  gather_file local_dir root acc file m
  = match os_path_getsize (posixpath.join root file) (world m) with
    | (Ok size, w) =>
        match posixpath.relpath (os_getcwd w) (posixpath.join root file) local_dir with
        | Some rel_path =>
            (Ok (fst acc + size, snd acc ++ [(posixpath.join root file, rel_path)]),
             put_world w (add_call (Getsize (posixpath.join root file)) m))
        | None =>
            (Raise (OtherError "no path specified"),
             put_world w (add_call (Getsize (posixpath.join root file)) m))
        end
    | (Raise e, w) =>
        (Raise e, put_world w (add_call (Getsize (posixpath.join root file)) m))
    end.
Proof.
  unfold gather_file. unfold bind at 1. rewrite getsize_eq.
  destruct (os_path_getsize (posixpath.join root file) (world m)) as [[size|e] w];
    machine_simpl; [|reflexivity].
  unfold bind at 1. rewrite relpath_eq. machine_simpl.
  destruct (posixpath.relpath (os_getcwd w) (posixpath.join root file) local_dir);
    reflexivity.
Qed.




End Enumeration.

Section EnumerationFacts.
Context {W : Type} `{Environment W}.


Lemma is_enumeration_sizes paths :
  Forall (fun c => is_enumeration c = true) (Getsize <$> paths).
Proof. induction paths; constructor; [reflexivity | assumption]. Qed.

Lemma backup_ready_spec ui :
  backup_ready ui = true ->
  bool_decide (backup_dir_entry ui = "") = false
  /\ bool_decide (strip (entry_bucket ui) = "") = false
  /\ bool_decide (strip (entry_access ui) = "") = false
  /\ bool_decide (strip (entry_secret ui) = "") = false.
Proof.
  unfold backup_ready. rewrite !andb_true_iff, !negb_true_iff. tauto.
Qed.

(** With entries that are ready, the pass of a window is its enumeration
    followed by the loop, under the namespace of the entry or [Default]. *)
Lemma backup_directory_ready ui (m : machine W) :
  backup_ready ui = true ->
  let bucket := strip (entry_bucket ui) in
  let ns := or_default (strip (entry_computer_id ui)) in
  S3Sync.backup_directory ui m
  = (gathered <- gather (backup_dir_entry ui) ;;
     set_total_size (fst gathered) ;;;
     set_bytes_uploaded 0 ;;;
     progress_bar_set (0, 1) ;;;
     backup_loop Tabbed bucket ns (snd gathered)) m
  /\ Ver4_2.backup_directory ui m
     = (gathered <- gather (backup_dir_entry ui) ;;
        set_total_size (fst gathered) ;;;
        set_bytes_uploaded 0 ;;;
        progress_bar_set (0, 1) ;;;
        backup_loop Pro bucket ns (snd gathered)) m.
Proof.
  intros Hready bucket ns.
  apply backup_ready_spec in Hready as (Hd & Hb & Ha & Hs).
  unfold S3Sync.backup_directory, Ver4_2.backup_directory,
    S3Sync.get_s3_client, Ver4_2.get_s3_client.
  rewrite Hd, Hb, Ha, Hs. cbn [orb negb]. split; reflexivity.
Qed.

End EnumerationFacts.

Section EnumerationRuns.
Context {W : Type} `{Environment W}.

Lemma join_empty path : posixpath.join "" path = path.
Proof. unfold posixpath.join. destruct (posixpath.startswith_sep path); reflexivity. Qed.

Lemma relpath_answers cwd path start :
  path <> "" -> exists r, posixpath.relpath cwd path start = Some r.
Proof.
  intros Hne. unfold posixpath.relpath.
  rewrite bool_decide_eq_false_2 by exact Hne.
  destruct (_ ++ _); eexists; reflexivity.
Qed.

(** The enumeration sees a file only through its full path. *)
Lemma gather_files_flat local_dir root files : forall acc (m : machine W),
  gather_files local_dir root files acc m
  = gather_files local_dir "" (posixpath.join root <$> files) acc m.
Proof.
  induction files as [|file files IH]; intros acc m; [reflexivity|].
  cbn [gather_files fmap list_fmap]. unfold bind.
  assert (gather_file local_dir "" acc (posixpath.join root file) m
          = gather_file local_dir root acc file m) as ->
    by (unfold gather_file; rewrite join_empty; reflexivity).
  destruct (gather_file local_dir root acc file m) as [[acc'|e] m1];
    [apply IH | reflexivity].
Qed.

Lemma gather_files_app local_dir l1 l2 : forall acc (m : machine W),
  gather_files local_dir "" (l1 ++ l2) acc m
  = (acc' <- gather_files local_dir "" l1 acc ;;
     gather_files local_dir "" l2 acc')%py m.
Proof.
  induction l1 as [|p l1 IH]; intros acc m; [reflexivity|].
  cbn [gather_files app]. unfold bind.
  destruct (gather_file local_dir "" acc p m) as [[acc'|e] m1];
    [|reflexivity].
  rewrite IH. reflexivity.
Qed.

Lemma gather_dirs_flat local_dir tree : forall acc (m : machine W),
  gather_dirs local_dir tree acc m
  = gather_files local_dir "" (walked_paths tree) acc m.
Proof.
  induction tree as [|[root files] tree IH]; intros acc m; [reflexivity|].
  change (walked_paths ((root, files) :: tree))
    with ((posixpath.join root <$> files) ++ walked_paths tree).
  rewrite gather_files_app. cbn [gather_dirs]. unfold bind.
  rewrite gather_files_flat.
  destruct (gather_files local_dir "" (posixpath.join root <$> files) acc m)
    as [[acc'|e] m1]; [apply IH | reflexivity].
Qed.

(** Every size query answers: the whole list is measured. *)
Lemma gather_paths_ok local_dir paths : forall acc (m : machine W) total w',
  measured paths (fst acc) (world m) = Some (total, w') ->
  Forall (fun path => path <> "") paths ->
  exists added m',
    gather_files local_dir "" paths acc m = (Ok (total, snd acc ++ added), m')
    /\ fst <$> added = paths
    /\ Forall (fun p => posixpath.startswith_sep (snd p) = false) added
    /\ calls m' = calls m ++ (Getsize <$> paths)
    /\ log_text m' = log_text m
    /\ world m' = w'.
Proof.
  induction paths as [|p paths IH]; intros acc m total w' Hm Hne.
  - cbn in Hm. injection Hm as <- <-. exists [], m. cbn.
    rewrite !app_nil_r. destruct acc. repeat split. constructor.
  - apply Forall_cons in Hne as [Hp Hne]. cbn [measured] in Hm.
    cbn [gather_files]. unfold bind. rewrite gather_file_eq, join_empty.
    destruct (os_path_getsize p (world m)) as [[size|e] w1]; [|discriminate].
    destruct (relpath_answers (os_getcwd w1) p local_dir Hp) as [rel Hrel].
    rewrite Hrel.
    destruct (IH (fst acc + size, snd acc ++ [(p, rel)])
                (put_world w1 (add_call (Getsize p) m)) total w' Hm Hne)
      as (added & m' & Hrun & Hfst & Hrels & Hc & Hl & Hw).
    exists ((p, rel) :: added), m'. rewrite Hrun. cbn [fst snd] in *.
    rewrite <- app_assoc. split; [reflexivity|].
    split; [cbn; rewrite Hfst; reflexivity|].
    split; [constructor;
            [exact (relpath_relative _ _ _ _ Hrel) | exact Hrels]|].
    split; [rewrite Hc; cbn; rewrite <- app_assoc; reflexivity|].
    split; assumption.
Qed.

(** The size query of the path at position [k] is the first to fail:
    the enumeration ends there with its exception. *)
Lemma gather_paths_fails local_dir paths :
  forall k acc (m : machine W) path total wk e w',
  paths !! k = Some path ->
  Forall (fun path => path <> "") (take k paths) ->
  measured (take k paths) (fst acc) (world m) = Some (total, wk) ->
  os_path_getsize path wk = (Raise e, w') ->
  exists m',
    gather_files local_dir "" paths acc m = (Raise e, m')
    /\ calls m' = calls m ++ (Getsize <$> take (Datatypes.S k) paths)
    /\ log_text m' = log_text m
    /\ world m' = w'.
Proof.
  induction paths as [|p paths IH];
    intros k acc m path total wk e w' Hk Hne Hm Hfail; [discriminate|].
  cbn [gather_files]. unfold bind. rewrite gather_file_eq, join_empty.
  destruct k as [|k].
  - cbn in Hk, Hm. injection Hk as ->. injection Hm as <- <-.
    rewrite Hfail. eexists. split; [reflexivity|]. cbn. auto.
  - cbn in Hk. cbn [take] in Hne, Hm. apply Forall_cons in Hne as [Hp Hne].
    cbn [measured] in Hm.
    destruct (os_path_getsize p (world m)) as [[size|e0] w1]; [|discriminate].
    destruct (relpath_answers (os_getcwd w1) p local_dir Hp) as [rel ->].
    destruct (IH k (fst acc + size, snd acc ++ [(p, rel)])
                (put_world w1 (add_call (Getsize p) m)) path total wk e w'
                Hk Hne Hm Hfail)
      as (m' & Hrun & Hc & Hl & Hw).
    exists m'. rewrite Hrun. split; [reflexivity|].
    split; [rewrite Hc; cbn; rewrite <- app_assoc; reflexivity|].
    split; assumption.
Qed.

Lemma gather_flat local_dir (m : machine W) :
  gather local_dir m
  = gather_files local_dir "" (walked_paths (fst (os_walk local_dir (world m))))
      (0, [])
      (put_world (snd (os_walk local_dir (world m))) (add_call (Walk local_dir) m)).
Proof.
  unfold gather, walk.
  unfold bind at 1. unfold bind at 1. unfold record, perform. machine_simpl.
  destruct (os_walk local_dir (world m)) as [tree w0]. cbn [fst snd].
  apply gather_dirs_flat.
Qed.

End EnumerationRuns.

(** X5. When every size query answers, the enumeration that opens an
    upload pass makes the walk and one size query per file, in the order
    of the walk, and nothing else; it logs nothing. Its total is the
    sum of the sizes answered, and its file list holds exactly the
    files of the walk, each with its root joined to its name, in that
    order, each with a relative path that is not absolute. *)
Theorem enumeration_lists_the_walk {W} {env : Environment W}
    (local_dir : string) (m : machine W) (tree : list (string * list string))
    (w0 : W) (total : Z) (w' : W) :
  os_walk local_dir (world m) = (tree, w0) ->
  Forall (fun path => path <> "") (walked_paths tree) ->
  measured (walked_paths tree) 0 w0 = Some (total, w') ->
  exists file_list m',
    gather local_dir m = (Ok (total, file_list), m')
    /\ fst <$> file_list = walked_paths tree
    /\ Forall (fun p => posixpath.startswith_sep (snd p) = false) file_list
    /\ calls m' = calls m ++ Walk local_dir :: (Getsize <$> walked_paths tree)
    /\ log_text m' = log_text m
    /\ world m' = w'.
Proof.
  intros Hwalk Hne Hm. rewrite gather_flat, Hwalk. cbn [fst snd].
  destruct (gather_paths_ok local_dir (walked_paths tree) (0, [])
              (put_world w0 (add_call (Walk local_dir) m)) total w' Hm Hne)
    as (added & m' & Hrun & Hfst & Hrels & Hc & Hl & Hw).
  exists added, m'. rewrite Hrun. cbn in Hc. rewrite <- app_assoc in Hc.
  auto 10.
Qed.

Lemma enumeration_lists_the_walk_witness :
  let m := Mock.start Mock.laptop in
  walked_paths (Mock.tree Mock.laptop) = ["/data/a.txt"; "/data/sub/b.txt"]
  /\ exists file_list m',
       gather "/data" m = (Ok (10, file_list), m')
       /\ fst <$> file_list = walked_paths (Mock.tree Mock.laptop)
       /\ Forall (fun p => posixpath.startswith_sep (snd p) = false) file_list
       /\ calls m' = calls m ++
            Walk "/data" :: (Getsize <$> walked_paths (Mock.tree Mock.laptop))
       /\ log_text m' = log_text m
       /\ world m' = Mock.laptop.
Proof.
  intros m. split; [vm_compute; reflexivity|].
  apply (enumeration_lists_the_walk (env := Mock.mock_environment) "/data" m
           (Mock.tree Mock.laptop) Mock.laptop 10 Mock.laptop);
    try (vm_compute; reflexivity).
  repeat constructor; discriminate.
Defined.

(** X6. The size queries of the enumeration are outside every [try]: the
    first of them that raises ends each of the three passes with its
    exception, there and then. The pass has made the walk and the size
    queries up to that one and nothing else: no file after it is
    measured, no file is opened, nothing is asked of the bucket and
    nothing is logged. *)
Theorem enumeration_failure_aborts_pass {W} {env : Environment W}
    (ui : entries) (access_key secret_key : string) (m : machine W)
    (tree : list (string * list string)) (w0 : W)
    (k : nat) (path : string) (total : Z) (wk : W) (e : exn) (w' : W) :
  backup_ready ui = true ->
  os_walk (backup_dir_entry ui) (world m) = (tree, w0) ->
  walked_paths tree !! k = Some path ->
  Forall (fun path => path <> "") (take k (walked_paths tree)) ->
  measured (take k (walked_paths tree)) 0 w0 = Some (total, wk) ->
  os_path_getsize path wk = (Raise e, w') ->
  exists m',
    S3Sync.backup_directory ui m = (Raise e, m')
    /\ Ver4_2.backup_directory ui m = (Raise e, m')
    /\ backupjob.backup_directory (backup_dir_entry ui) (strip (entry_bucket ui))
         access_key secret_key (or_default (strip (entry_computer_id ui))) m
       = (Raise e, m')
    /\ calls m' = calls m ++
         Walk (backup_dir_entry ui) ::
         (Getsize <$> take (Datatypes.S k) (walked_paths tree))
    /\ log_text m' = log_text m
    /\ world m' = w'.
Proof.
  intros Hready Hwalk Hk Hne Hm Hfail.
  destruct (backup_directory_ready ui m Hready) as [-> ->].
  unfold backupjob.backup_directory, bind.
  rewrite gather_flat, Hwalk. cbn [fst snd].
  destruct (gather_paths_fails (backup_dir_entry ui) (walked_paths tree) k (0, [])
              (put_world w0 (add_call (Walk (backup_dir_entry ui)) m))
              path total wk e w' Hk Hne Hm Hfail)
    as (m' & Hrun & Hc & Hl & Hw).
  exists m'. rewrite Hrun. cbn in Hc. rewrite <- app_assoc in Hc. auto 10.
Qed.

Lemma enumeration_failure_witness :
  let gone :=
    Mock.with_files Mock.laptop
      (delete "/data/sub/b.txt" (Mock.files Mock.laptop)) false in
  let m := Mock.start gone in
  walked_paths (Mock.tree gone) = ["/data/a.txt"; "/data/sub/b.txt"]
  /\ exists m',
       S3Sync.backup_directory Mock.ui m
       = (Raise (Mock.no_such_file "/data/sub/b.txt"), m')
       /\ Ver4_2.backup_directory Mock.ui m
          = (Raise (Mock.no_such_file "/data/sub/b.txt"), m')
       /\ backupjob.backup_directory (backup_dir_entry Mock.ui)
            (strip (entry_bucket Mock.ui)) "AKIA" "secret"
            (or_default (strip (entry_computer_id Mock.ui))) m
          = (Raise (Mock.no_such_file "/data/sub/b.txt"), m')
       /\ calls m' = calls m ++
            Walk (backup_dir_entry Mock.ui) ::
            (Getsize <$> take 2 (walked_paths (Mock.tree gone)))
       /\ log_text m' = log_text m
       /\ world m' = gone.
Proof.
  intros gone m. split; [vm_compute; reflexivity|].
  apply (enumeration_failure_aborts_pass (env := Mock.mock_environment)
           Mock.ui "AKIA" "secret" m (Mock.tree gone) gone
           1%nat "/data/sub/b.txt" 5 gone (Mock.no_such_file "/data/sub/b.txt") gone);
    try (vm_compute; reflexivity).
  repeat constructor; discriminate.
Defined.



(** X8. A pass of the two windows that lacks a directory, a bucket name
    or a credential (blank counts as lacking for the bucket and the
    credentials) shows one error box and does nothing else: it makes no
    call to the file system or to the bucket, logs nothing and leaves
    the counters alone. *)
Theorem unready_pass_touches_nothing {W} {env : Environment W}
    (ui : entries) (m : machine W) :
  (backup_ready ui = false ->
   S3Sync.backup_directory ui m
   = (Ok tt, add_call (Messagebox "showerror" "Error" (backup_refusal ui)) m)
   /\ Ver4_2.backup_directory ui m
      = (Ok tt, add_call (Messagebox "showerror" "Error" (backup_refusal ui)) m))
  /\
  (restore_ready ui = false ->
   S3Sync.restore_backup ui m
   = (Ok tt, add_call (Messagebox "showerror" "Error" (restore_refusal ui)) m)
   /\ Ver4_2.restore_backup ui m
      = (Ok tt, add_call (Messagebox "showerror" "Error" (restore_refusal ui)) m)).
Proof.
  split.
  - unfold backup_ready, backup_refusal, S3Sync.backup_directory,
      Ver4_2.backup_directory, S3Sync.get_s3_client, Ver4_2.get_s3_client.
    destruct (bool_decide (backup_dir_entry ui = ""));
      destruct (bool_decide (strip (entry_bucket ui) = ""));
      destruct (bool_decide (strip (entry_access ui) = ""));
      destruct (bool_decide (strip (entry_secret ui) = ""));
      cbn; intros Hr; try discriminate Hr; split; reflexivity.
  - unfold restore_ready, restore_refusal, S3Sync.restore_backup,
      Ver4_2.restore_backup, S3Sync.get_s3_client, Ver4_2.get_s3_client.
    destruct (bool_decide (strip (entry_bucket ui) = ""));
      destruct (bool_decide (restore_dir_entry ui = ""));
      destruct (bool_decide (strip (entry_access ui) = ""));
      destruct (bool_decide (strip (entry_secret ui) = ""));
      cbn; intros Hr; try discriminate Hr; split; reflexivity.
Qed.

Lemma unready_pass_witness :
  let blank := Entries "AKIA" " " "bucket" "" "/data" "/out" in
  let m := Mock.start Mock.laptop in
  S3Sync.backup_directory blank m
  = (Ok tt, add_call
              (Messagebox "showerror" "Error" "Please provide AWS credentials.") m)
  /\ S3Sync.restore_backup blank m
     = (Ok tt, add_call
                 (Messagebox "showerror" "Error" "Please provide AWS credentials.") m).
Proof.
  intros blank m.
  destruct (unready_pass_touches_nothing blank m) as [Hb Hr].
  split.
  - apply Hb. vm_compute. reflexivity.
  - apply Hr. vm_compute. reflexivity.
Defined.


(** ** The restore passes *)

Section RestoreFacts.
Context {W : Type} `{Environment W}.

Lemma restore_object_no_directory bucket prefix restore_dir key size (m : machine W)
    rel e w1 :
  posixpath.relpath (os_getcwd (world m)) key prefix = Some rel ->
  os_makedirs (posixpath.dirname (posixpath.join restore_dir rel)) (world m)
  = (Raise e, w1) ->
  S3Sync.restore_object bucket prefix restore_dir (key, size) m
  = (Raise e,
     put_world w1
       (add_call (Makedirs (posixpath.dirname (posixpath.join restore_dir rel))) m)).
Proof.
  intros Hrel Hmk. unfold S3Sync.restore_object.
  unfold bind at 1. rewrite relpath_eq, Hrel.
  unfold bind at 1. rewrite makedirs_eq, Hmk. reflexivity.
Qed.

Lemma browse_ready_spec ui :
  browse_ready ui = true ->
  bool_decide (strip (restore_dir_entry ui) = "") = false
  /\ bool_decide (strip (entry_access ui) = "") = false
  /\ bool_decide (strip (entry_secret ui) = "") = false.
Proof.
  unfold browse_ready. rewrite !andb_true_iff, !negb_true_iff. tauto.
Qed.

Lemma restore_item_no_directory ui bucket restore_dir total item (m : machine W)
    rel e w1 :
  running (world m) = true ->
  posixpath.relpath (os_getcwd (world m)) (item_key item)
    ("backup/" +:+ or_default (strip (entry_computer_id ui))) = Some rel ->
  os_makedirs (posixpath.dirname (posixpath.join restore_dir rel)) (world m)
  = (Raise e, w1) ->
  S3Sync.restore_item ui bucket restore_dir total item m
  = (Raise e,
     put_world w1
       (add_call (Makedirs (posixpath.dirname (posixpath.join restore_dir rel))) m)).
Proof.
  intros Hflag Hrel Hmk.
  unfold S3Sync.restore_item, S3Sync.is_running.
  unfold bind at 1. unfold perform. rewrite Hflag, put_world_id. cbn [negb].
  unfold bind at 1. rewrite relpath_eq, Hrel.
  unfold bind at 1. rewrite makedirs_eq, Hmk. reflexivity.
Qed.

End RestoreFacts.

(** X9. The directory of an object is made outside the [try] of its
    download: when it cannot be made, the restore pass ends there with
    the exception. The object is not downloaded, and neither is any
    object after it in the listing. *)
Theorem directory_failure_aborts_restore {W} {env : Environment W}
    (bucket ns restore_dir : string) (pre post : list (string * Z))
    (key rel : string) (size : Z) (m0 m : machine W) (e : exn) (w1 : W) :
  for_each pre (S3Sync.restore_object bucket (prefix_of ns) restore_dir) m0
  = (Ok tt, m) ->
  posixpath.relpath (os_getcwd (world m)) key (prefix_of ns) = Some rel ->
  os_makedirs (posixpath.dirname (posixpath.join restore_dir rel)) (world m)
  = (Raise e, w1) ->
  exists m',
    for_each (pre ++ (key, size) :: post)
      (S3Sync.restore_object bucket (prefix_of ns) restore_dir) m0
    = (Raise e, m')
    /\ for_each (pre ++ (key, size) :: post)
         (Ver4_2.restore_object bucket (prefix_of ns) restore_dir) m0
       = (Raise e, m')
    /\ calls m' = calls m ++
         [Makedirs (posixpath.dirname (posixpath.join restore_dir rel))]
    /\ log_text m' = log_text m
    /\ world m' = w1.
Proof.
  intros Hpre Hrel Hmk. eexists. split; [|split].
  - eapply for_each_reach_raise; [exact Hpre|].
    apply restore_object_no_directory; eassumption.
  - eapply (for_each_reach_raise pre post (key, size)
              (S3Sync.restore_object bucket (prefix_of ns) restore_dir));
      [exact Hpre|].
    apply restore_object_no_directory; eassumption.
  - cbn. auto.
Qed.

Lemma directory_failure_witness :
  let m0 := Mock.start Walls.read_only in
  let body := S3Sync.restore_object "bucket" (prefix_of "Default") "/out" in
  let m := snd (for_each [("backup/Default/a.txt", 5)] body m0) in
  calls m = [Makedirs "/out";
             DownloadFile "bucket" "backup/Default/a.txt" "/out/a.txt"]
  /\ exists m',
       for_each ([("backup/Default/a.txt", 5)]
                 ++ ("backup/Default/sub/b.txt", 5) :: [("backup/Default/c.txt", 1)])
         body m0
       = (Raise (OtherError "[Errno 13] Permission denied: '/out/sub'"), m')
       /\ for_each ([("backup/Default/a.txt", 5)]
                    ++ ("backup/Default/sub/b.txt", 5) :: [("backup/Default/c.txt", 1)])
            (Ver4_2.restore_object "bucket" (prefix_of "Default") "/out") m0
          = (Raise (OtherError "[Errno 13] Permission denied: '/out/sub'"), m')
       /\ calls m' = calls m ++
            [Makedirs (posixpath.dirname (posixpath.join "/out" "sub/b.txt"))]
       /\ log_text m' = log_text m
       /\ world m' = world m.
Proof.
  intros m0 body m. split; [vm_compute; reflexivity|].
  apply (directory_failure_aborts_restore "bucket" "Default" "/out"
           [("backup/Default/a.txt", 5)] [("backup/Default/c.txt", 1)]
           "backup/Default/sub/b.txt" "sub/b.txt" 5 m0 m
           (OtherError "[Errno 13] Permission denied: '/out/sub'") (world m));
    vm_compute; reflexivity.
Defined.

(** X10. The selective restore never lets an exception out: whatever the
    selection, the entries and the world, it returns normally, and the
    last thing it does is to put the flag down. *)
Theorem selective_restore_always_returns {W} {env : Environment W}
    (ui : entries) (selected_items : list tree_item) (m : machine W) :
  exists m1,
    S3Sync.restore_selected_files ui selected_items m
    = (Ok tt, put_world (set_running false (world m1)) m1).
Proof.
  unfold S3Sync.restore_selected_files, try_finally, try_except.
  match goal with
  | |- context [match ?body m with _ => _ end] => destruct (body m) as [[[]|e] m1]
  end.
  - exists m1. reflexivity.
  - exists (add_call
              (Messagebox "showerror" "Error" ("Restore failed: " +:+ str e))
              (add_log ("Restore error: " +:+ str e) m1)).
    reflexivity.
Qed.

(** X11. In the selective restore the directory of an object is made
    inside the outer [try] only: when it cannot be made, the batch is
    given up. The error is logged and shown, the object and all those
    after it in the selection are not downloaded, and the flag is put
    down. *)
Theorem directory_failure_aborts_selection {W} {env : Environment W}
    (ui : entries) (item : tree_item) (rest : list tree_item) (m : machine W)
    (rel : string) (e : exn) (w1 : W) :
  browse_ready ui = true ->
  running (world m) = true ->
  posixpath.relpath (os_getcwd (world m)) (item_key item)
    ("backup/" +:+ or_default (strip (entry_computer_id ui))) = Some rel ->
  os_makedirs
    (posixpath.dirname (posixpath.join (strip (restore_dir_entry ui)) rel))
    (world m)
  = (Raise e, w1) ->
  exists m',
    S3Sync.restore_selected_files ui (item :: rest) m = (Ok tt, m')
    /\ calls m' = calls m ++
         [Makedirs
            (posixpath.dirname (posixpath.join (strip (restore_dir_entry ui)) rel));
          Messagebox "showerror" "Error" ("Restore failed: " +:+ str e)]
    /\ log_text m' = log_text m ++ ["Restore error: " +:+ str e]
    /\ world m' = set_running false w1.
Proof.
  intros Hready Hflag Hrel Hmk.
  apply browse_ready_spec in Hready as (Hd & Ha & Hs).
  unfold S3Sync.restore_selected_files, S3Sync.browse_get_s3_client.
  rewrite bool_decide_eq_false_2 by discriminate.
  rewrite Hd, Ha, Hs. cbn [orb negb].
  unfold try_finally, try_except.
  unfold bind at 1. cbn [ret negb].
  unfold bind at 1. cbn [set_bytes_downloaded].
  unfold bind at 1. cbn [progress_bar_set].
  unfold bind at 1. cbn [for_each_break].
  unfold bind at 1.
  rewrite (restore_item_no_directory ui _ _ _ item _ rel e w1); [|exact Hflag|exact Hrel|exact Hmk].
  eexists. split; [reflexivity|]. cbn. rewrite <- ?app_assoc. auto.
Qed.

Lemma directory_failure_selection_witness :
  let m := Mock.start Walls.read_only in
  let picked :=
    [ TreeItem "b.txt" 5 "2024-05-01 10:00:01" "backup/Default/sub/b.txt";
      TreeItem "a.txt" 5 "2024-05-01 10:00:00" "backup/Default/a.txt" ] in
  exists m',
    S3Sync.restore_selected_files Mock.ui picked m = (Ok tt, m')
    /\ calls m' = calls m ++
         [Makedirs
            (posixpath.dirname
               (posixpath.join (strip (restore_dir_entry Mock.ui)) "sub/b.txt"));
          Messagebox "showerror" "Error"
            ("Restore failed: "
             +:+ str (OtherError "[Errno 13] Permission denied: '/out/sub'"))]
    /\ log_text m' = log_text m ++
         ["Restore error: "
          +:+ str (OtherError "[Errno 13] Permission denied: '/out/sub'")]
    /\ world m' = set_running false Walls.read_only.
Proof.
  intros m picked.
  apply (directory_failure_aborts_selection Mock.ui
           (TreeItem "b.txt" 5 "2024-05-01 10:00:01" "backup/Default/sub/b.txt")
           [TreeItem "a.txt" 5 "2024-05-01 10:00:00" "backup/Default/a.txt"]
           m "sub/b.txt");
    vm_compute; reflexivity.
Defined.


(** ** Keys and the prefix of the restore *)

Section KeyFacts.

Lemma occurs_append c a b : occurs c (a +:+ b) <-> occurs c a \/ occurs c b.
Proof.
  induction a as [|x a IH]; [simpl; tauto|].
  rewrite append_cons. simpl. rewrite IH. tauto.
Qed.

Lemma prefix_append a b : String.prefix a (a +:+ b) = true.
Proof.
  induction a as [|x a IH]; [destruct b; reflexivity|].
  rewrite append_cons. simpl. destruct (ascii_dec x x); [exact IH | done].
Qed.

Lemma prefix_occurs c p : forall k,
  String.prefix p k = true -> occurs c p -> occurs c k.
Proof.
  induction p as [|x p IH]; intros k Hpre Hc; [destruct Hc|].
  destruct k as [|y k]; [discriminate|]. simpl in Hpre.
  destruct (ascii_dec x y) as [->|]; [|discriminate].
  destruct Hc as [->|Hc]; [left; reflexivity | right; apply IH; assumption].
Qed.

(** Whatever the relative path, a key holds no backslash. *)
Lemma key_of_backslash_free v ns rel : ~ occurs "\"%char (key_of v ns rel).
Proof. destruct v; apply replace_backslash_free. Qed.

Lemma plain_relative_not_rooted rel :
  plain_relative (replace_backslash rel) = true ->
  posixpath.startswith_sep rel = false.
Proof.
  destruct rel as [|c rel]; [reflexivity|].
  destruct (decide (c = posixpath.sep)) as [->|Hc].
  - intros Hplain. exfalso. cbn in Hplain. discriminate Hplain.
  - intros _. simpl. apply bool_decide_eq_false_2. exact Hc.
Qed.


End KeyFacts.

(** X12. What an upload pass stores comes back where it was: for a
    namespace without a backslash and a relative path in normal form,
    the key an upload pass derives lies under the prefix the restore
    pass lists, and the restore pass takes from it the relative path the
    file had, its backslashes replaced by slashes. *)
Theorem uploaded_key_restores_to_its_path (v : variant) (cwd ns rel : string) :
  posixpath.startswith_sep cwd = true ->
  ~ occurs "\"%char ns ->
  plain_relative (replace_backslash rel) = true ->
  String.prefix (prefix_of ns) (key_of v ns rel) = true
  /\ posixpath.relpath cwd (key_of v ns rel) (prefix_of ns)
     = Some (replace_backslash rel).
Proof.
  intros Hcwd Hns Hplain.
  rewrite key_of_shape by (apply plain_relative_not_rooted; exact Hplain).
  rewrite (replace_backslash_id ns) by exact Hns.
  unfold prefix_of.
  replace ("backup/" +:+ ns +:+ "/" +:+ replace_backslash rel)
    with (("backup/" +:+ ns +:+ "/") +:+ replace_backslash rel)
    by (rewrite !append_assoc; reflexivity).
  split; [apply prefix_append|].
  replace ("backup/" +:+ ns +:+ "/") with (("backup/" +:+ ns) +:+ "/")
    by apply append_assoc.
  rewrite (append_assoc ("backup/" +:+ ns) "/" (replace_backslash rel)).
  apply relpath_strip; [exact Hcwd | discriminate | reflexivity | exact Hplain].
Qed.

Lemma uploaded_key_restores_witness :
  String.prefix (prefix_of "Default") (key_of Tabbed "Default" "sub\b.txt") = true
  /\ posixpath.relpath "/home/u" (key_of Tabbed "Default" "sub\b.txt")
       (prefix_of "Default")
     = Some (replace_backslash "sub\b.txt").
Proof.
  apply (uploaded_key_restores_to_its_path Tabbed "/home/u" "Default" "sub\b.txt").
  - reflexivity.
  - vm_compute. intros H. decompose [or] H; discriminate || assumption.
  - vm_compute. reflexivity.
Defined.

(** X13. The upload passes replace the backslashes of the namespace, the
    restore pass lists the prefix with the namespace as it was typed:
    for a namespace that holds a backslash, no key of an upload pass
    starts with the prefix that the restore pass of the same namespace
    lists. *)
Theorem backslash_namespace_is_not_listed (v : variant) (ns rel : string) :
  occurs "\"%char ns ->
  String.prefix (prefix_of ns) (key_of v ns rel) = false.
Proof.
  intros Hns. apply not_true_is_false. intros Hpre.
  apply (key_of_backslash_free v ns rel).
  apply (prefix_occurs _ _ _ Hpre).
  unfold prefix_of. rewrite !occurs_append. auto.
Qed.

Lemma backslash_namespace_witness :
  String.prefix (prefix_of "lab\pc1") (key_of Pro "lab\pc1" "a.txt") = false.
Proof.
  apply (backslash_namespace_is_not_listed Pro "lab\pc1" "a.txt").
  vm_compute. auto 10.
Defined.




(** ** Whole runs *)

Section RunFacts.
Context {W : Type} `{Environment W}.

Lemma backup_loop_unchanged v bucket ns sizes file_list : forall m : machine W,
  Forall (unchanged v bucket ns sizes (world m)) file_list ->
  exists m' extra,
    backup_loop v bucket ns file_list m = (Ok tt, m')
    /\ world m' = world m
    /\ calls m' = calls m ++ extra
    /\ Forall (fun c => is_transfer c = false) extra
    /\ log_text m' = log_text m ++ (skipping_line ∘ fst <$> file_list)
    /\ (v <> Headless ->
        bytes_uploaded m'
        = bytes_uploaded m + sum_amounts (sizes ∘ fst <$> file_list)).
Proof.
  induction file_list as [|[full_path rel_path] rest IH]; intros m Hall.
  - exists m, []. cbn. rewrite !app_nil_r.
    repeat split; [constructor | intros _; lia].
  - apply Forall_cons in Hall as [(content & metadata & Ho & Hh & Hmd & Hs) Hrest].
    cbn [fst snd] in Ho, Hh, Hs.
    assert (exists m1 three,
              backup_file_of v bucket ns (full_path, rel_path) m = (Ok tt, m1)
              /\ world m1 = world m
              /\ calls m1 = calls m ++ three
              /\ Forall (fun c => is_transfer c = false) three
              /\ log_text m1 = log_text m ++ [skipping_line full_path]
              /\ (v <> Headless ->
                  bytes_uploaded m1 = bytes_uploaded m + sizes full_path))
      as (m1 & three & Hrun & Hw & Hc & Hq & Hl & Hb).
    { assert (v = Headless \/ v <> Headless) as [->|Hv]
        by (destruct v; auto; right; discriminate).
      - destruct (backup_file_skips_headless bucket ns full_path rel_path m
                    content (world m) metadata (world m) Ho Hh Hmd)
          as (m1 & Hrun & Hc & Hl & Hw).
        exists m1, [Open full_path; HeadObject bucket (backupjob.s3_key ns rel_path)].
        repeat split; try assumption; [repeat constructor | done].
      - destruct (backup_file_skips v bucket ns full_path rel_path m
                    content (world m) metadata (world m) (sizes full_path) (world m)
                    Hv Ho Hh Hmd Hs)
          as (m1 & Hrun & Hc & Hb & Hl & Hw).
        exists m1, [Open full_path; HeadObject bucket (key_of v ns rel_path);
                    Getsize full_path].
        repeat split; try assumption; [repeat constructor | intros _; exact Hb]. }
    rewrite <- Hw in Hrest.
    destruct (IH m1 Hrest) as (m' & extra & Hrun' & Hw' & Hc' & Hq' & Hl' & Hb').
    exists m', (three ++ extra). unfold backup_loop in *.
    rewrite (for_each_cons_ok _ _ _ _ _ Hrun).
    split; [exact Hrun'|]. split; [congruence|].
    split; [rewrite Hc', Hc, <- app_assoc; reflexivity|].
    split; [apply Forall_app; split; assumption|].
    split; [rewrite Hl', Hl, <- app_assoc; reflexivity|].
    intros Hv. rewrite (Hb' Hv), (Hb Hv). cbn. unfold sum_amounts. lia.
Qed.

Lemma collect_page_spec acc pg :
  collect_page acc pg
  = (fst acc + sum_amounts (Size <$> page_objects pg),
     snd acc ++ ((fun obj => (Key obj, Size obj)) <$> page_objects pg)).
Proof.
  unfold collect_page, page_objects. destruct pg as [[objs|]]; cbn.
  - revert acc. induction objs as [|obj objs IH]; intros acc; cbn.
    + rewrite Z.add_0_r, app_nil_r. destruct acc; reflexivity.
    + rewrite IH. cbn. rewrite <- app_assoc.
      apply pair_equal_spec. split; [unfold sum_amounts; lia | reflexivity].
  - rewrite Z.add_0_r, app_nil_r. destruct acc; reflexivity.
Qed.

Lemma sum_amounts_app a b :
  sum_amounts (a ++ b) = sum_amounts a + sum_amounts b.
Proof.
  unfold sum_amounts. induction a as [|z a IH]; cbn; [reflexivity|].
  rewrite IH. lia.
Qed.

Lemma collect_pages_spec pages :
  collect_pages pages
  = (sum_amounts (Size <$> listed_objects pages),
     (fun obj => (Key obj, Size obj)) <$> listed_objects pages).
Proof.
  unfold collect_pages.
  assert (forall acc,
            foldl collect_page acc pages
            = (fst acc + sum_amounts (Size <$> listed_objects pages),
               snd acc ++ ((fun obj => (Key obj, Size obj)) <$> listed_objects pages)))
    as Hgen.
  { induction pages as [|pg pages IH]; intros acc.
    - cbn. rewrite Z.add_0_r, app_nil_r. destruct acc; reflexivity.
    - cbn [foldl]. rewrite IH, collect_page_spec. cbn [fst snd].
      change (listed_objects (pg :: pages))
        with (page_objects pg ++ listed_objects pages).
      rewrite !fmap_app, sum_amounts_app, <- app_assoc.
      apply pair_equal_spec. split; [lia | reflexivity]. }
  rewrite Hgen. reflexivity.
Qed.

(** The pass once the listing is in: the counters are set and the loop
    runs over the listed objects. *)
Lemma restore_backup_listed ui (m : machine W) pages w1 :
  restore_ready ui = true ->
  let bucket := strip (entry_bucket ui) in
  let prefix := prefix_of (or_default (strip (entry_computer_id ui))) in
  paginate bucket prefix (world m) = ((pages, None), w1) ->
  let start :=
    put_progress (0, 1)
      (put_bytes_downloaded 0
         (put_total_download_size (sum_amounts (Size <$> listed_objects pages))
            (put_world w1 (add_call (Paginate bucket prefix) m)))) in
  let object_list := (fun obj => (Key obj, Size obj)) <$> listed_objects pages in
  S3Sync.restore_backup ui m
  = for_each object_list
      (S3Sync.restore_object bucket prefix (restore_dir_entry ui)) start
  /\ Ver4_2.restore_backup ui m
     = for_each object_list
         (Ver4_2.restore_object bucket prefix (restore_dir_entry ui)) start.
Proof.
  intros Hready bucket prefix Hlist start object_list.
  apply restore_ready_spec in Hready as (Hb & Hr & Ha & Hs).
  unfold S3Sync.restore_backup, Ver4_2.restore_backup,
    S3Sync.get_s3_client, Ver4_2.get_s3_client.
  subst bucket prefix start object_list. unfold prefix_of in *.
  rewrite Hb, Hr, Ha, Hs. cbn [orb negb].
  split.
  - unfold bind at 1. cbn [ret negb].
    unfold bind at 1. unfold try_except. unfold bind at 1.
    rewrite list_objects_eq, Hlist. cbn [fst snd ret].
    rewrite collect_pages_spec. reflexivity.
  - unfold bind at 1. cbn [ret negb].
    unfold bind at 1. unfold try_except. unfold bind at 1.
    rewrite list_objects_same, list_objects_eq, Hlist. cbn [fst snd ret].
    rewrite collect_pages_spec. reflexivity.
Qed.

End RunFacts.

(** X15. A pass over a tree that is in the bucket as it is on the disk
    transfers nothing: every file is read, looked up and logged as
    skipped, no upload is issued and the world is left as it was; in the
    two windows the byte counter still moves by the size of every file. *)
Theorem synced_tree_transfers_nothing {W} {env : Environment W}
    (v : variant) (bucket ns : string) (sizes : string -> Z)
    (file_list : list (string * string)) (m : machine W) :
  Forall (unchanged v bucket ns sizes (world m)) file_list ->
  exists m',
    backup_loop v bucket ns file_list m = (Ok tt, m')
    /\ world m' = world m
    /\ Forall (fun c => is_transfer c = false) (calls_since (length (calls m)) m')
    /\ log_text m' = log_text m ++ (skipping_line ∘ fst <$> file_list)
    /\ (v <> Headless ->
        bytes_uploaded m'
        = bytes_uploaded m + sum_amounts (sizes ∘ fst <$> file_list)).
Proof.
  intros Hall.
  destruct (backup_loop_unchanged v bucket ns sizes file_list m Hall)
    as (m' & extra & Hrun & Hw & Hc & Hq & Hl & Hb).
  exists m'. repeat (split; [assumption|]).
  split; [|split; assumption].
  unfold calls_since. rewrite Hc, drop_app_length. exact Hq.
Qed.

Lemma synced_tree_witness :
  let m := Mock.start Mock.synced in
  exists m',
    backup_loop Tabbed "bucket" "Default" [Mock.a_txt; Mock.b_txt] m = (Ok tt, m')
    /\ world m' = world m
    /\ Forall (fun c => is_transfer c = false) (calls_since (length (calls m)) m')
    /\ log_text m' = log_text m ++ (skipping_line ∘ fst <$> [Mock.a_txt; Mock.b_txt])
    /\ (Tabbed <> Headless ->
        bytes_uploaded m'
        = bytes_uploaded m
          + sum_amounts ((fun _ => 5) ∘ fst <$> [Mock.a_txt; Mock.b_txt])).
Proof.
  intros m.
  apply (synced_tree_transfers_nothing (env := Mock.mock_environment)
           Tabbed "bucket" "Default" (fun _ => 5) [Mock.a_txt; Mock.b_txt] m).
  repeat constructor.
  - exists (bytes_of_string "hello"),
      {[ "file_md5" := hashlib.md5_oneshot (bytes_of_string "hello") ]}.
    repeat split; vm_compute; reflexivity.
  - exists (bytes_of_string "world"),
      {[ "file_md5" := hashlib.md5_oneshot (bytes_of_string "world") ]}.
    repeat split; vm_compute; reflexivity.
Defined.

(** X16. When the listing of a restore pass succeeds, the total against
    which the progress is measured is the sum of the sizes of the listed
    objects, the byte counter and the bar are put back to zero, and the
    objects are restored in the order of the listing, page after page; a
    page without [Contents] adds nothing. *)
Theorem restore_takes_the_listing_in_order {W} {env : Environment W}
    (ui : entries) (m : machine W) (pages : list page) (w1 : W) :
  restore_ready ui = true ->
  paginate (strip (entry_bucket ui))
    (prefix_of (or_default (strip (entry_computer_id ui)))) (world m)
  = ((pages, None), w1) ->
  exists start,
    S3Sync.restore_backup ui m
    = for_each ((fun obj => (Key obj, Size obj)) <$> listed_objects pages)
        (S3Sync.restore_object (strip (entry_bucket ui))
           (prefix_of (or_default (strip (entry_computer_id ui))))
           (restore_dir_entry ui)) start
    /\ Ver4_2.restore_backup ui m
       = for_each ((fun obj => (Key obj, Size obj)) <$> listed_objects pages)
           (Ver4_2.restore_object (strip (entry_bucket ui))
              (prefix_of (or_default (strip (entry_computer_id ui))))
              (restore_dir_entry ui)) start
    /\ total_download_size start = sum_amounts (Size <$> listed_objects pages)
    /\ bytes_downloaded start = 0
    /\ progress start = (0, 1)
    /\ world start = w1
    /\ calls start = calls m ++
         [Paginate (strip (entry_bucket ui))
            (prefix_of (or_default (strip (entry_computer_id ui))))]
    /\ log_text start = log_text m.
Proof.
  intros Hready Hlist.
  destruct (restore_backup_listed ui m pages w1 Hready Hlist) as [Ht Hp].
  eexists. split; [exact Ht|]. split; [exact Hp|]. cbn. auto 10.
Qed.

Lemma restore_takes_the_listing_witness :
  let m := Mock.start Mock.synced in
  let pages :=
    [Page (Some [S3Object "backup/Default/sub/b.txt" 5;
                 S3Object "backup/Default/a.txt" 5])] in
  listed_objects pages
  = [S3Object "backup/Default/sub/b.txt" 5; S3Object "backup/Default/a.txt" 5]
  /\ exists start,
    S3Sync.restore_backup Mock.ui m
    = for_each ((fun obj => (Key obj, Size obj)) <$> listed_objects pages)
        (S3Sync.restore_object (strip (entry_bucket Mock.ui))
           (prefix_of (or_default (strip (entry_computer_id Mock.ui))))
           (restore_dir_entry Mock.ui)) start
    /\ Ver4_2.restore_backup Mock.ui m
       = for_each ((fun obj => (Key obj, Size obj)) <$> listed_objects pages)
           (Ver4_2.restore_object (strip (entry_bucket Mock.ui))
              (prefix_of (or_default (strip (entry_computer_id Mock.ui))))
              (restore_dir_entry Mock.ui)) start
    /\ total_download_size start = sum_amounts (Size <$> listed_objects pages)
    /\ bytes_downloaded start = 0
    /\ progress start = (0, 1)
    /\ world start = Mock.synced
    /\ calls start = calls m ++
         [Paginate (strip (entry_bucket Mock.ui))
            (prefix_of (or_default (strip (entry_computer_id Mock.ui))))]
    /\ log_text start = log_text m.
Proof.
  intros m pages. split; [reflexivity|].
  apply (restore_takes_the_listing_in_order (env := Mock.mock_environment)
           Mock.ui m pages Mock.synced);
    vm_compute; reflexivity.
Defined.

(** X17. A restore of a namespace under which the bucket lists nothing
    is reported as a success: in both windows the run makes the listing
    call and no other, creates and downloads nothing, logs its two
    lines and shows the box of a completed restore. *)
Theorem empty_listing_reports_success {W} {env : Environment W}
    (ui : entries) (m : machine W) (pages : list page) (w1 : W) :
  restore_ready ui = true ->
  paginate (strip (entry_bucket ui))
    (prefix_of (or_default (strip (entry_computer_id ui)))) (world m)
  = ((pages, None), w1) ->
  listed_objects pages = [] ->
  exists m',
    S3Sync.run_restore ui m = (Ok tt, m')
    /\ Ver4_2.run_restore ui m = (Ok tt, m')
    /\ calls m' = calls m ++
         [Paginate (strip (entry_bucket ui))
            (prefix_of (or_default (strip (entry_computer_id ui))));
          Messagebox "showinfo" "Restore" "Restore completed successfully!"]
    /\ log_text m' = log_text m ++
         ["Starting restore..."; "Restore completed successfully!"]
    /\ world m' = w1.
Proof.
  intros Hready Hlist Hnone.
  destruct (restore_backup_listed ui (add_log "Starting restore..." m) pages w1
              Hready Hlist) as [Ht Hp].
  rewrite Hnone in Ht, Hp. cbn [fmap list_fmap for_each ret] in Ht, Hp.
  unfold S3Sync.run_restore, Ver4_2.run_restore, try_except.
  unfold bind at 1. cbn [log]. unfold bind at 1. rewrite Ht.
  unfold bind at 3. cbn [log]. unfold bind at 3. rewrite Hp.
  eexists. split; [reflexivity|]. split; [reflexivity|].
  cbn. rewrite <- !app_assoc. auto.
Qed.

Lemma empty_listing_witness :
  let other := Entries "AKIA" "secret" "bucket" "Office" "/data" "/out" in
  let m := Mock.start Mock.synced in
  exists m',
    S3Sync.run_restore other m = (Ok tt, m')
    /\ Ver4_2.run_restore other m = (Ok tt, m')
    /\ calls m' = calls m ++
         [Paginate (strip (entry_bucket other))
            (prefix_of (or_default (strip (entry_computer_id other))));
          Messagebox "showinfo" "Restore" "Restore completed successfully!"]
    /\ log_text m' = log_text m ++
         ["Starting restore..."; "Restore completed successfully!"]
    /\ world m' = Mock.synced.
Proof.
  intros other m.
  apply (empty_listing_reports_success (env := Mock.mock_environment)
           other m [Page None] Mock.synced);
    vm_compute; reflexivity.
Defined.

(** X18. A run whose pass is refused for a lacking entry still reports
    success: in both windows the error box of the refusal is followed by
    the log line and the box of a completed backup, or restore. *)
Theorem refused_run_reports_success {W} {env : Environment W}
    (ui : entries) (m : machine W) :
  (backup_ready ui = false ->
   let m' :=
     add_call (Messagebox "showinfo" "Backup" "Backup completed successfully!")
       (add_log "Backup completed successfully!"
          (add_call (Messagebox "showerror" "Error" (backup_refusal ui))
             (add_log "Starting backup..." m))) in
   S3Sync.run_backup ui m = (Ok tt, m') /\ Ver4_2.run_backup ui m = (Ok tt, m'))
  /\ (restore_ready ui = false ->
   let m' :=
     add_call (Messagebox "showinfo" "Restore" "Restore completed successfully!")
       (add_log "Restore completed successfully!"
          (add_call (Messagebox "showerror" "Error" (restore_refusal ui))
             (add_log "Starting restore..." m))) in
   S3Sync.run_restore ui m = (Ok tt, m') /\ Ver4_2.run_restore ui m = (Ok tt, m')).
Proof.
  split.
  - unfold backup_ready, backup_refusal, S3Sync.run_backup, Ver4_2.run_backup,
      S3Sync.backup_directory, Ver4_2.backup_directory,
      S3Sync.get_s3_client, Ver4_2.get_s3_client.
    destruct (bool_decide (backup_dir_entry ui = ""));
      destruct (bool_decide (strip (entry_bucket ui) = ""));
      destruct (bool_decide (strip (entry_access ui) = ""));
      destruct (bool_decide (strip (entry_secret ui) = ""));
      cbn; intros Hr; try discriminate Hr; split; reflexivity.
  - unfold restore_ready, restore_refusal, S3Sync.run_restore, Ver4_2.run_restore,
      S3Sync.restore_backup, Ver4_2.restore_backup,
      S3Sync.get_s3_client, Ver4_2.get_s3_client.
    destruct (bool_decide (strip (entry_bucket ui) = ""));
      destruct (bool_decide (restore_dir_entry ui = ""));
      destruct (bool_decide (strip (entry_access ui) = ""));
      destruct (bool_decide (strip (entry_secret ui) = ""));
      cbn; intros Hr; try discriminate Hr; split; reflexivity.
Qed.

Lemma refused_run_witness :
  let blank := Entries "AKIA" "secret" "  " "" "/data" "/out" in
  let m := Mock.start Mock.laptop in
  S3Sync.run_backup blank m
  = (Ok tt,
     add_call (Messagebox "showinfo" "Backup" "Backup completed successfully!")
       (add_log "Backup completed successfully!"
          (add_call
             (Messagebox "showerror" "Error"
                "Please select a backup directory and enter a bucket name.")
             (add_log "Starting backup..." m))))
  /\ Ver4_2.run_restore blank m
     = (Ok tt,
        add_call (Messagebox "showinfo" "Restore" "Restore completed successfully!")
          (add_log "Restore completed successfully!"
             (add_call
                (Messagebox "showerror" "Error"
                   "Please enter bucket name and select restore directory.")
                (add_log "Starting restore..." m)))).
Proof.
  intros blank m.
  destruct (refused_run_reports_success blank m) as [Hb Hr].
  split.
  - apply Hb. vm_compute. reflexivity.
  - apply Hr. vm_compute. reflexivity.
Defined.


(** ** The scheduled backup of Ver4.2.py *)

Section ScheduleFacts.
Context {W : Type} `{Environment W}.

(** Whatever the pass does, the run of a backup returns. *)
Lemma run_backup_returns ui (m : machine W) :
  exists m1, Ver4_2.run_backup ui m = (Ok tt, m1).
Proof.
  unfold Ver4_2.run_backup, try_except.
  match goal with
  | |- context [match ?body m with _ => _ end] => destruct (body m) as [[[]|e] m1]
  end.
  - exists m1. reflexivity.
  - eexists. reflexivity.
Qed.

Lemma start_scheduled_backup_fresh {T} `{Scheduler.Toolkit T}
    python_int repr se (a : Scheduler.app T) (m : machine W) n factor :
  Scheduler.scheduled_job a = None ->
  python_int (Scheduler.entry_interval se) = Some n ->
  Scheduler.TIME_CONVERSIONS !! Scheduler.interval_unit se = Some factor ->
  Scheduler.start_scheduled_backup python_int repr se a m
  = (Ok (Scheduler.App
           (Some (fst (Scheduler.after (n * factor) (Scheduler.toolkit a))))
           (snd (Scheduler.after (n * factor) (Scheduler.toolkit a)))
           (Scheduler.tk_calls a ++ [Scheduler.After (n * factor)])),
     add_log ("Scheduled backup started (every " +:+ pretty n +:+ " "
              +:+ Scheduler.interval_unit se +:+ ")") m).
Proof.
  intros Hjob Hint Hunit. unfold Scheduler.start_scheduled_backup.
  rewrite Hjob, bool_decide_eq_false_2 by (intros Hne; apply Hne; reflexivity).
  rewrite Hint, Hunit.
  destruct (Scheduler.after (n * factor) (Scheduler.toolkit a)) as [job tk].
  reflexivity.
Qed.

Lemma start_scheduled_backup_busy {T} `{Scheduler.Toolkit T}
    python_int repr se (a : Scheduler.app T) (m : machine W) job :
  Scheduler.scheduled_job a = Some job ->
  Scheduler.start_scheduled_backup python_int repr se a m
  = (Ok a,
     add_call (Messagebox "showinfo" "Info" "Scheduled backup already running") m).
Proof.
  intros Hjob. unfold Scheduler.start_scheduled_backup.
  rewrite Hjob, bool_decide_eq_true_2 by discriminate. reflexivity.
Qed.

End ScheduleFacts.

(** X19. A scheduled backup runs once. Starting the schedule with a
    valid interval asks for one timer and keeps its identifier; when the
    timer fires, the backup is run and the schedule is started again,
    but the identifier is still there: the window says that a scheduled
    backup is already running and asks for no new timer. *)
Theorem schedule_fires_once {W} {env : Environment W}
    {T} {tk : Scheduler.Toolkit T}
    (python_int : string -> option Z) (repr : string -> string)
    (ui : entries) (se : Scheduler.schedule_entries)
    (a : Scheduler.app T) (m : machine W) (n factor : Z) :
  Scheduler.scheduled_job a = None ->
  python_int (Scheduler.entry_interval se) = Some n ->
  Scheduler.TIME_CONVERSIONS !! Scheduler.interval_unit se = Some factor ->
  exists a1 m1 m2,
    Scheduler.start_scheduled_backup python_int repr se a m = (Ok a1, m1)
    /\ Scheduler.tk_calls a1 = Scheduler.tk_calls a ++ [Scheduler.After (n * factor)]
    /\ Scheduler.scheduled_job a1
       = Some (fst (Scheduler.after (n * factor) (Scheduler.toolkit a)))
    /\ Ver4_2.run_backup ui m1 = (Ok tt, m2)
    /\ Scheduler.scheduled_backup python_int repr ui se a1 m1
       = (Ok a1,
          add_call
            (Messagebox "showinfo" "Info" "Scheduled backup already running") m2).
Proof.
  intros Hjob Hint Hunit.
  pose proof (start_scheduled_backup_fresh python_int repr se a m n factor
                Hjob Hint Hunit) as Hstart.
  destruct (run_backup_returns ui
              (add_log ("Scheduled backup started (every " +:+ pretty n +:+ " "
                        +:+ Scheduler.interval_unit se +:+ ")") m))
    as [m2 Hrun].
  eexists _, _, m2. split; [exact Hstart|].
  split; [reflexivity|]. split; [reflexivity|]. split; [exact Hrun|].
  unfold Scheduler.scheduled_backup, bind. rewrite Hrun.
  eapply start_scheduled_backup_busy. reflexivity.
Qed.

Lemma schedule_fires_once_witness :
  let se := Scheduler.ScheduleEntries "60" "Minutes" in
  let a := Scheduler.App None 0%nat [] in
  let m := Mock.start Mock.laptop in
  exists a1 m1 m2,
    Scheduler.start_scheduled_backup Scheduler.decimal Scheduler.quoted se a m
    = (Ok a1, m1)
    /\ Scheduler.tk_calls a1
       = Scheduler.tk_calls a ++ [Scheduler.After (60 * 60000)]
    /\ Scheduler.scheduled_job a1
       = Some (fst (Scheduler.after (60 * 60000) (Scheduler.toolkit a)))
    /\ Ver4_2.run_backup Mock.ui m1 = (Ok tt, m2)
    /\ Scheduler.scheduled_backup Scheduler.decimal Scheduler.quoted Mock.ui se a1 m1
       = (Ok a1,
          add_call
            (Messagebox "showinfo" "Info" "Scheduled backup already running") m2).
Proof.
  intros se a m.
  apply (schedule_fires_once (env := Mock.mock_environment)
           (tk := Scheduler.counting_toolkit)
           Scheduler.decimal Scheduler.quoted Mock.ui se a m 60 60000);
    vm_compute; reflexivity.
Defined.

(** X20. A schedule that cannot be started leaves no timer behind. When
    the interval is not an integer, an error box is shown; when the unit
    is none of the four of the table, the lookup raises and the
    exception leaves the function, without a box or a log line. In both
    cases no timer is asked for and no job is kept. *)
Theorem bad_schedule_sets_no_timer {W} {env : Environment W}
    {T} {tk : Scheduler.Toolkit T}
    (python_int : string -> option Z) (repr : string -> string)
    (se : Scheduler.schedule_entries) (a : Scheduler.app T) (m : machine W) :
  Scheduler.scheduled_job a = None ->
  (python_int (Scheduler.entry_interval se) = None ->
   Scheduler.start_scheduled_backup python_int repr se a m
   = (Ok a, add_call (Messagebox "showerror" "Error" "Invalid interval value") m))
  /\
  (forall n,
     python_int (Scheduler.entry_interval se) = Some n ->
     Scheduler.interval_unit se ∉
       ["Seconds"; "Minutes"; "Hours"; "Days"] ->
     Scheduler.start_scheduled_backup python_int repr se a m
     = (Raise (OtherError (repr (Scheduler.interval_unit se))), m)).
Proof.
  intros Hjob. unfold Scheduler.start_scheduled_backup.
  rewrite Hjob, bool_decide_eq_false_2 by (intros Hne; apply Hne; reflexivity).
  split.
  - intros ->. reflexivity.
  - intros n -> Hunit.
    assert (Scheduler.TIME_CONVERSIONS !! Scheduler.interval_unit se = None) as ->;
      [|reflexivity].
    unfold Scheduler.TIME_CONVERSIONS.
    rewrite !lookup_insert_ne, lookup_singleton_ne; [reflexivity | ..];
      intros Heq; apply Hunit; rewrite <- Heq; set_solver.
Qed.

Lemma bad_schedule_witness :
  let a := Scheduler.App None 0%nat [] in
  let m := Mock.start Mock.laptop in
  Scheduler.start_scheduled_backup Scheduler.decimal Scheduler.quoted
    (Scheduler.ScheduleEntries "soon" "Minutes") a m
  = (Ok a, add_call (Messagebox "showerror" "Error" "Invalid interval value") m)
  /\ Scheduler.start_scheduled_backup Scheduler.decimal Scheduler.quoted
       (Scheduler.ScheduleEntries "2" "Weeks") a m
     = (Raise (OtherError (Scheduler.quoted "Weeks")), m).
Proof.
  intros a m. split.
  - apply (bad_schedule_sets_no_timer (env := Mock.mock_environment)
             (tk := Scheduler.counting_toolkit)
             Scheduler.decimal Scheduler.quoted
             (Scheduler.ScheduleEntries "soon" "Minutes") a m);
      vm_compute; reflexivity.
  - apply (bad_schedule_sets_no_timer (env := Mock.mock_environment)
             (tk := Scheduler.counting_toolkit)
             Scheduler.decimal Scheduler.quoted
             (Scheduler.ScheduleEntries "2" "Weeks") a m eq_refl) with (n := 2).
    + vm_compute. reflexivity.
    + intros Hin. repeat (apply elem_of_cons in Hin as [Hin|Hin]; [discriminate|]).
      apply elem_of_nil in Hin. exact Hin.
Defined.

(** X21. Stopping a schedule cancels the timer that was kept, forgets it
    and logs one line; stopping again does nothing; and a schedule can
    then be started anew, which asks for one new timer. *)
Theorem stop_makes_room_for_a_new_schedule {W} {env : Environment W}
    {T} {tk : Scheduler.Toolkit T}
    (python_int : string -> option Z) (repr : string -> string)
    (se : Scheduler.schedule_entries) (a : Scheduler.app T) (m : machine W)
    (job : string) (n factor : Z) :
  Scheduler.scheduled_job a = Some job ->
  job <> "" ->
  python_int (Scheduler.entry_interval se) = Some n ->
  Scheduler.TIME_CONVERSIONS !! Scheduler.interval_unit se = Some factor ->
  exists a1 m1 a2 m2,
    Scheduler.stop_scheduled_backup a m = (Ok a1, m1)
    /\ Scheduler.scheduled_job a1 = None
    /\ Scheduler.stop_scheduled_backup a1 m1 = (Ok a1, m1)
    /\ Scheduler.start_scheduled_backup python_int repr se a1 m1 = (Ok a2, m2)
    /\ Scheduler.tk_calls a2
       = Scheduler.tk_calls a
         ++ [Scheduler.AfterCancel job; Scheduler.After (n * factor)]
    /\ log_text m2 = log_text m ++
         ["Scheduled backup stopped";
          "Scheduled backup started (every " +:+ pretty n +:+ " "
          +:+ Scheduler.interval_unit se +:+ ")"]
    /\ calls m2 = calls m.
Proof.
  intros Hjob Hne Hint Hunit.
  set (a1 := Scheduler.App None (Scheduler.after_cancel job (Scheduler.toolkit a))
               (Scheduler.tk_calls a ++ [Scheduler.AfterCancel job])).
  set (m1 := add_log "Scheduled backup stopped" m).
  pose proof (start_scheduled_backup_fresh python_int repr se a1 m1 n factor
                eq_refl Hint Hunit) as Hstart.
  eexists a1, m1, _, _.
  split; [|split; [reflexivity|split; [reflexivity|split; [exact Hstart|]]]].
  - unfold Scheduler.stop_scheduled_backup.
    rewrite Hjob, bool_decide_eq_false_2 by exact Hne. reflexivity.
  - cbn. rewrite <- !app_assoc. auto.
Qed.

Lemma stop_makes_room_witness :
  let se := Scheduler.ScheduleEntries "5" "Seconds" in
  let a := Scheduler.App (Some "after#0") 1%nat [Scheduler.After 3600000] in
  let m := Mock.start Mock.laptop in
  exists a1 m1 a2 m2,
    Scheduler.stop_scheduled_backup a m = (Ok a1, m1)
    /\ Scheduler.scheduled_job a1 = None
    /\ Scheduler.stop_scheduled_backup a1 m1 = (Ok a1, m1)
    /\ Scheduler.start_scheduled_backup Scheduler.decimal Scheduler.quoted se a1 m1
       = (Ok a2, m2)
    /\ Scheduler.tk_calls a2
       = Scheduler.tk_calls a
         ++ [Scheduler.AfterCancel "after#0"; Scheduler.After (5 * 1000)]
    /\ log_text m2 = log_text m ++
         ["Scheduled backup stopped";
          "Scheduled backup started (every " +:+ pretty 5 +:+ " "
          +:+ Scheduler.interval_unit se +:+ ")"]
    /\ calls m2 = calls m.
Proof.
  intros se a m.
  apply (stop_makes_room_for_a_new_schedule (env := Mock.mock_environment)
           (tk := Scheduler.counting_toolkit)
           Scheduler.decimal Scheduler.quoted se a m "after#0" 5 1000);
    try (vm_compute; reflexivity).
  discriminate.
Defined.


(** ** The script of backupjob.py *)

Section Frame.
Context {W : Type} `{Environment W}.
Variable P : W -> Prop.

Lemma keeps_bind {A B} (c : M W A) (k : A -> M W B) :
  keeps P c -> (forall a, keeps P (k a)) -> keeps P (bind c k).
Proof.
  intros Hc Hk m HP. unfold bind. specialize (Hc m HP).
  destruct (c m) as [[a|e] m1]; cbn in *; [apply Hk|]; exact Hc.
Qed.

Lemma keeps_try_except {A} (c : M W A) (h : exn -> M W A) :
  keeps P c -> (forall e, keeps P (h e)) -> keeps P (try_except c h).
Proof.
  intros Hc Hh m HP. unfold try_except. specialize (Hc m HP).
  destruct (c m) as [[a|e] m1]; cbn in *; [|apply Hh]; exact Hc.
Qed.

Lemma keeps_for_each {A} (l : list A) (body : A -> M W unit) :
  (forall x, keeps P (body x)) -> keeps P (for_each l body).
Proof.
  intros Hbody. induction l as [|x l IH]; [intros m HP; exact HP|].
  cbn [for_each]. apply keeps_bind; [apply Hbody | intros _; exact IH].
Qed.

Lemma keeps_ret {A} (a : A) : keeps P (ret a).
Proof. intros m HP. exact HP. Qed.

Lemma keeps_raise {A} e : keeps P (raise (A := A) e).
Proof. intros m HP. exact HP. Qed.

Lemma keeps_lift {A} (r : result A) : keeps P (lift r).
Proof. destruct r; intros m HP; exact HP. Qed.

Lemma keeps_log message : keeps P (log message).
Proof. intros m HP. exact HP. Qed.

Lemma keeps_record c : keeps P (record c).
Proof. intros m HP. exact HP. Qed.

Lemma keeps_perform {A} (op : W -> A * W) :
  (forall w, P w -> P (snd (op w))) -> keeps P (perform op).
Proof.
  intros Hop m HP. unfold perform. specialize (Hop _ HP).
  destruct (op (world m)) as [a w]. exact Hop.
Qed.

Hypothesis Hops : respects P.

Lemma keeps_compute_md5 path : keeps P (compute_md5 path).
Proof.
  unfold compute_md5.
  apply keeps_bind; [apply keeps_record | intros _].
  apply keeps_bind; [apply keeps_perform, Hops | intros r].
  apply keeps_bind; [apply keeps_lift | intros f; apply keeps_ret].
Qed.

Lemma keeps_gather local_dir : keeps P (gather local_dir).
Proof.
  assert (forall root acc file, keeps P (gather_file local_dir root acc file))
    as Hfile.
  { intros root acc file. unfold gather_file, getsize, relpath, getcwd.
    apply keeps_bind; [|intros size].
    - apply keeps_bind; [apply keeps_record | intros _].
      apply keeps_bind; [apply keeps_perform, Hops | intros r; apply keeps_lift].
    - apply keeps_bind; [|intros rel; apply keeps_ret].
      apply keeps_bind; [intros m HP; exact HP | intros cwd].
      destruct (posixpath.relpath _ _ _); [apply keeps_ret | apply keeps_raise]. }
  assert (forall root files acc, keeps P (gather_files local_dir root files acc))
    as Hfiles.
  { intros root files. induction files as [|file files IH]; intros acc;
      [apply keeps_ret|].
    cbn [gather_files]. apply keeps_bind; [apply Hfile | intros acc'; apply IH]. }
  assert (forall tree acc, keeps P (gather_dirs local_dir tree acc)) as Hdirs.
  { intros tree. induction tree as [|[root files] tree IH]; intros acc;
      [apply keeps_ret|].
    cbn [gather_dirs]. apply keeps_bind; [apply Hfiles | intros acc'; apply IH]. }
  unfold gather, walk.
  apply keeps_bind; [|intros tree; apply Hdirs].
  apply keeps_bind; [apply keeps_record | intros _; apply keeps_perform, Hops].
Qed.

Lemma keeps_backup_file bucket ns entry :
  keeps P (backupjob.backup_file bucket ns entry).
Proof.
  destruct entry as [full_path rel_path]. unfold backupjob.backup_file.
  apply keeps_bind; [apply keeps_compute_md5 | intros local_md5].
  apply keeps_try_except; [|intros e; apply keeps_log].
  apply keeps_bind; [|intros skip].
  - apply keeps_try_except; [|intros e].
    + unfold s3_head_object.
      apply keeps_bind; [|intros response].
      * apply keeps_bind; [apply keeps_record | intros _].
        apply keeps_bind; [apply keeps_perform, Hops | intros r; apply keeps_lift].
      * case_bool_decide; [|apply keeps_ret].
        apply keeps_bind; [apply keeps_log | intros _; apply keeps_ret].
    + destruct e as [code msg|msg]; [|apply keeps_raise].
      destruct (negb _); [|apply keeps_ret].
      apply keeps_bind; [apply keeps_log | intros _; apply keeps_ret].
  - destruct skip; [apply keeps_ret|]. unfold s3_upload_file.
    apply keeps_bind; [|intros _; apply keeps_log].
    apply keeps_bind; [apply keeps_record | intros _].
    apply keeps_bind; [apply keeps_perform, Hops | intros r].
    apply keeps_bind; [|intros _; apply keeps_lift].
    apply keeps_for_each. intros x. apply keeps_ret.
Qed.

(** The headless pass changes the world through the operations of the
    environment only. *)
Lemma keeps_backup_directory local_dir bucket access_key secret_key ns :
  keeps P (backupjob.backup_directory local_dir bucket access_key secret_key ns).
Proof.
  unfold backupjob.backup_directory.
  apply keeps_bind; [apply keeps_gather | intros gathered].
  apply keeps_for_each. intros entry. apply keeps_backup_file.
Qed.

End Frame.

Section ScriptFacts.
Context {W D : Type} `{Environment W} `{Job.Chatty W} `{Job.Desktop D}.

(** The operations of the pass leave the desktop and the events of the
    script alone, and only add to the log file. *)
Lemma job_respects (d : D) (l : list string) (ev : list Job.job_event) :
  respects (fun w : Job.job_world W D =>
              Job.desktop w = d /\ Job.events w = ev
              /\ exists records, Job.backup_log w = l ++ records).
Proof.
  split; try (intros; assumption).
  - intros b k w (Hd & He & records & Hl). cbn. rewrite Hl, <- app_assoc. eauto.
  - intros f b k md w (Hd & He & records & Hl). cbn.
    rewrite Hl, <- app_assoc. eauto.
Qed.

Lemma config_ready_spec config :
  Job.config_ready config = true ->
  exists access_key secret_key bucket computer_folder local_dir,
    Job.load_config config
    = Ok (Some (access_key, secret_key, bucket, computer_folder, local_dir))
    /\ bool_decide (access_key = "") || bool_decide (secret_key = "")
       || bool_decide (bucket = "") || bool_decide (local_dir = "") = false.
Proof.
  unfold Job.config_ready.
  destruct (Job.load_config config) as [[[[[[ak sk] b] ns] dir]|]|e];
    [|discriminate|discriminate].
  intros Hready. exists ak, sk, b, ns, dir. split; [reflexivity|].
  destruct (bool_decide (ak = "")), (bool_decide (sk = "")),
    (bool_decide (b = "")), (bool_decide (dir = "")); done.
Qed.

(** The script as far as the configuration. *)
Lemma main_opening config (m : machine (Job.job_world W D)) d0 :
  Job.basic_config (Job.desktop (world m)) = (Ok tt, d0) ->
  Job.main config m
  = (loaded <- lift (Job.load_config config) ;;
     match loaded with
     | None => Job.refuse
     | Some (access_key, secret_key, bucket, computer_folder, local_dir) =>
         if bool_decide (access_key = "") || bool_decide (secret_key = "")
            || bool_decide (bucket = "") || bool_decide (local_dir = "")
         then Job.refuse
         else
           Job.log ("Starting backup for " +:+ local_dir +:+ "...") ;;;
           Job.backup_directory local_dir bucket access_key secret_key
             computer_folder ;;;
           Job.log "Backup completed successfully." ;;;
           Job.show_windows_notification "Backup completed successfully!" ;;;
           Job.sleep 5 ;;;
           Job.log "Backup script completed."
     end)%py
      (put_world
         (Job.JobWorld (Job.storage (world m)) d0
            (Job.backup_log (world m) ++ ["Backup script started."])
            (Job.events (world m))) m).
Proof.
  intros Hopen. unfold Job.main.
  unfold bind at 1. unfold Job.logging_basicConfig.
  unfold bind at 1. unfold perform at 1. rewrite Hopen. cbn [lift ret].
  unfold bind at 1. unfold Job.log at 1, perform. machine_simpl.
  cbn [Job.storage Job.desktop Job.backup_log Job.events]. reflexivity.
Qed.

(** The script as far as the pass, for a configuration it is ready
    with: the log file is open, two lines are written, the client is
    made. *)
Lemma main_ready config (m : machine (Job.job_world W D)) d0
    access_key secret_key bucket computer_folder local_dir :
  Job.basic_config (Job.desktop (world m)) = (Ok tt, d0) ->
  Job.config_ready config = true ->
  Job.load_config config
  = Ok (Some (access_key, secret_key, bucket, computer_folder, local_dir)) ->
  let m1 :=
    put_world
      (Job.JobWorld (Job.storage (world m)) d0
         (Job.backup_log (world m) ++
            ["Backup script started.";
             "Starting backup for " +:+ local_dir +:+ "..."])
         (Job.events (world m))) m in
  Job.main config m
  = (Job.backup_directory local_dir bucket access_key secret_key
       computer_folder ;;;
     Job.log "Backup completed successfully." ;;;
     Job.show_windows_notification "Backup completed successfully!" ;;;
     Job.sleep 5 ;;;
     Job.log "Backup script completed.")%py m1.
Proof.
  intros Hopen Hready Hload m1.
  destruct (config_ready_spec config Hready)
    as (ak & sk & b & ns & dir & Hload' & Hfull).
  rewrite Hload in Hload'. injection Hload' as <- <- <- <- <-.
  rewrite (main_opening config m d0 Hopen), Hload.
  unfold bind at 1. cbn [lift ret]. rewrite Hfull.
  unfold bind at 1. unfold Job.log at 1, perform. machine_simpl.
  cbn [Job.storage Job.desktop Job.backup_log Job.events].
  rewrite <- app_assoc. reflexivity.
Qed.

(** The pass of the script only adds records to the log file, and
    leaves the desktop and the events alone. *)
Lemma job_pass_frame local_dir bucket access_key secret_key computer_folder
    (m : machine (Job.job_world W D)) :
  let after :=
    snd (Job.backup_directory local_dir bucket access_key secret_key
           computer_folder m) in
  Job.desktop (world after) = Job.desktop (world m)
  /\ Job.events (world after) = Job.events (world m)
  /\ exists records,
       Job.backup_log (world after) = Job.backup_log (world m) ++ records.
Proof.
  intros after. subst after.
  set (P := fun w : Job.job_world W D =>
              Job.desktop w = Job.desktop (world m)
              /\ Job.events w = Job.events (world m)
              /\ exists records,
                   Job.backup_log w = Job.backup_log (world m) ++ records).
  assert (keeps P (Job.backup_directory local_dir bucket access_key secret_key
                     computer_folder)) as Hkeeps.
  { unfold Job.backup_directory. apply keeps_bind.
    - intros m0 (Hd & He & records & Hl). unfold P. cbn.
      rewrite Hl, <- app_assoc. eauto.
    - intros _. apply keeps_backup_directory, job_respects. }
  apply (Hkeeps m). unfold P. split; [reflexivity|]. split; [reflexivity|].
  exists []. rewrite app_nil_r. reflexivity.
Qed.

End ScriptFacts.

(** X22. Without a usable configuration the script does nothing. When
    the file or its section is missing, or a credential, the bucket
    name or the backup directory is empty, it prints one line, writes
    two lines to its log and returns. When reading the configuration
    raises, the exception leaves the script after its first log line.
    In neither case is there a call to the file system or the bucket, a
    client, a notification or a pause. *)
Theorem unready_script_touches_nothing {W D} {env : Environment W}
    {sdk : Job.Chatty W} {desk : Job.Desktop D}
    (config : result (option Job.section)) (m : machine (Job.job_world W D))
    (d0 : D) :
  Job.basic_config (Job.desktop (world m)) = (Ok tt, d0) ->
  (Job.config_refused config = true ->
   exists m',
     Job.main config m = (Ok tt, m')
     /\ calls m' = calls m
     /\ log_text m' = log_text m ++
          ["Error: Please provide valid AWS credentials, bucket name, and backup directory in config.ini."]
     /\ Job.storage (world m') = Job.storage (world m)
     /\ Job.desktop (world m') = d0
     /\ Job.events (world m') = Job.events (world m)
     /\ Job.backup_log (world m') = Job.backup_log (world m) ++
          ["Backup script started.";
           "Error: Invalid AWS credentials, bucket name, or backup directory."])
  /\
  (forall e,
     Job.load_config config = Raise e ->
     exists m',
       Job.main config m = (Raise e, m')
       /\ calls m' = calls m
       /\ log_text m' = log_text m
       /\ Job.storage (world m') = Job.storage (world m)
       /\ Job.desktop (world m') = d0
       /\ Job.events (world m') = Job.events (world m)
       /\ Job.backup_log (world m') = Job.backup_log (world m) ++
            ["Backup script started."]).
Proof.
  intros Hopen. rewrite (main_opening config m d0 Hopen). split.
  - intros Hrefused. unfold Job.config_refused in Hrefused.
    assert (forall m0 : machine (Job.job_world W D),
              exists m', Job.refuse m0 = (Ok tt, m')
                /\ calls m' = calls m0
                /\ log_text m' = log_text m0 ++
                     ["Error: Please provide valid AWS credentials, bucket name, and backup directory in config.ini."]
                /\ Job.storage (world m') = Job.storage (world m0)
                /\ Job.desktop (world m') = Job.desktop (world m0)
                /\ Job.events (world m') = Job.events (world m0)
                /\ Job.backup_log (world m') = Job.backup_log (world m0) ++
                     ["Error: Invalid AWS credentials, bucket name, or backup directory."])
      as Hrefuse.
    { intros m0. eexists. split; [reflexivity|]. cbn. auto 10. }
    set (m1 := put_world _ m).
    destruct (Hrefuse m1) as (m' & Hrun & Hc & Hl & Hs & Hd & He & Hb).
    exists m'. subst m1. cbn in Hc, Hl, Hs, Hd, He, Hb.
    rewrite <- app_assoc in Hb. cbn in Hb.
    split; [|auto 10].
    unfold bind.
    destruct (Job.load_config config) as [[[[[[ak sk] b] ns] dir]|]|e];
      [|exact Hrun|discriminate].
    cbn [lift ret]. rewrite Hrefused. exact Hrun.
  - intros e ->. eexists. split; [reflexivity|]. cbn. auto 10.
Qed.

Lemma unready_script_witness :
  let m := Job.start Mock.laptop true in
  (exists m',
     Job.main (Ok (Some (delete "bucket_name" Job.saved))) m = (Ok tt, m')
     /\ calls m' = calls m
     /\ log_text m' = log_text m ++
          ["Error: Please provide valid AWS credentials, bucket name, and backup directory in config.ini."]
     /\ Job.storage (world m') = Job.storage (world m)
     /\ Job.desktop (world m') = true
     /\ Job.events (world m') = Job.events (world m)
     /\ Job.backup_log (world m') = Job.backup_log (world m) ++
          ["Backup script started.";
           "Error: Invalid AWS credentials, bucket name, or backup directory."])
  /\ (exists m',
        Job.main (Ok (Some (<["backup_dir" := Raise Job.bad_percent]> Job.saved))) m
        = (Raise Job.bad_percent, m')
        /\ calls m' = calls m
        /\ log_text m' = log_text m
        /\ Job.storage (world m') = Job.storage (world m)
        /\ Job.desktop (world m') = true
        /\ Job.events (world m') = Job.events (world m)
        /\ Job.backup_log (world m') = Job.backup_log (world m) ++
             ["Backup script started."]).
Proof.
  intros m. split.
  - apply (unready_script_touches_nothing (env := Mock.mock_environment)
             (sdk := Job.mock_chatty) (desk := Job.bool_desktop)
             (Ok (Some (delete "bucket_name" Job.saved))) m true);
      vm_compute; reflexivity.
  - apply (unready_script_touches_nothing (env := Mock.mock_environment)
             (sdk := Job.mock_chatty) (desk := Job.bool_desktop)
             (Ok (Some (<["backup_dir" := Raise Job.bad_percent]> Job.saved)))
             m true eq_refl);
      vm_compute; reflexivity.
Defined.

(** X23. Once the pass has returned, the script reports a completed
    backup, whatever the pass printed about its files: it writes
    "Backup completed successfully." to its log, shows the notification,
    pauses for five seconds and writes its last line. What the SDK
    logged meanwhile lies between "Starting backup for ..." and
    "Backup completed successfully."; the pass shows no notification
    and makes no pause. *)
Theorem script_reports_completion {W D} {env : Environment W}
    {sdk : Job.Chatty W} {desk : Job.Desktop D}
    (config : result (option Job.section)) (m m2 : machine (Job.job_world W D))
    (access_key secret_key bucket computer_folder local_dir : string)
    (d0 d' : D) :
  Job.basic_config (Job.desktop (world m)) = (Ok tt, d0) ->
  Job.config_ready config = true ->
  Job.load_config config
  = Ok (Some (access_key, secret_key, bucket, computer_folder, local_dir)) ->
  Job.backup_directory local_dir bucket access_key secret_key computer_folder
    (put_world
       (Job.JobWorld (Job.storage (world m)) d0
          (Job.backup_log (world m) ++
             ["Backup script started.";
              "Starting backup for " +:+ local_dir +:+ "..."])
          (Job.events (world m))) m)
  = (Ok tt, m2) ->
  Job.notify "S3Sync" "Backup completed successfully!" "S3Sync" d0
  = (Ok tt, d') ->
  exists m' records,
    Job.main config m = (Ok tt, m')
    /\ Job.backup_log (world m') = Job.backup_log (world m) ++
         ["Backup script started.";
          "Starting backup for " +:+ local_dir +:+ "..."]
         ++ records ++
         ["Backup completed successfully.";
          "Backup script completed."]
    /\ Job.events (world m') = Job.events (world m) ++
         [Job.Notify "S3Sync" "Backup completed successfully!" "S3Sync";
          Job.Sleep 5]
    /\ Job.desktop (world m') = d'
    /\ Job.storage (world m') = Job.storage (world m2)
    /\ calls m' = calls m2
    /\ log_text m' = log_text m2.
Proof.
  intros Hopen Hready Hload Hpass Hnotify.
  rewrite (main_ready config m d0 _ _ _ _ _ Hopen Hready Hload).
  pose proof (job_pass_frame local_dir bucket access_key secret_key computer_folder
                (put_world
                   (Job.JobWorld (Job.storage (world m)) d0
                      (Job.backup_log (world m) ++
                         ["Backup script started.";
                          "Starting backup for " +:+ local_dir +:+ "..."])
                      (Job.events (world m))) m)) as Hkept.
  cbv zeta in Hkept. rewrite Hpass in Hkept.
  cbn [snd world put_world Job.desktop Job.events Job.backup_log] in Hkept.
  destruct Hkept as (Hd & He & records & Hl).
  unfold bind at 1. rewrite Hpass.
  unfold bind at 1. unfold Job.log at 1, perform. machine_simpl.
  unfold bind at 1. unfold Job.show_windows_notification.
  unfold bind at 1. unfold perform. machine_simpl.
  cbn [Job.storage Job.desktop Job.backup_log Job.events].
  rewrite Hd, Hnotify. cbn. eexists _, records. split; [reflexivity|]. cbn.
  rewrite Hl, He, <- !app_assoc. auto 10.
Qed.

Lemma script_reports_completion_witness :
  let m := Job.start Mock.upload_broken true in
  let m2 :=
    snd (Job.backup_directory "/data" "bucket" "AKIA" "secret" "Default"
           (put_world
              (Job.JobWorld (Job.storage (world m)) true
                 (Job.backup_log (world m) ++
                    ["Backup script started.";
                     "Starting backup for " +:+ "/data" +:+ "..."])
                 (Job.events (world m))) m)) in
  log_text m2
  = ["Error uploading /data/a.txt: Read timeout on endpoint URL";
     "Uploaded /data/sub/b.txt to s3://bucket/backup/Default/sub/b.txt"]
  /\ exists m' records,
       Job.main (Ok (Some (delete "computer_id" Job.saved))) m = (Ok tt, m')
       /\ Job.backup_log (world m') = Job.backup_log (world m) ++
            ["Backup script started.";
             "Starting backup for " +:+ "/data" +:+ "..."]
            ++ records ++
            ["Backup completed successfully.";
             "Backup script completed."]
       /\ Job.events (world m') = Job.events (world m) ++
            [Job.Notify "S3Sync" "Backup completed successfully!" "S3Sync";
             Job.Sleep 5]
       /\ Job.desktop (world m') = true
       /\ Job.storage (world m') = Job.storage (world m2)
       /\ calls m' = calls m2
       /\ log_text m' = log_text m2.
Proof.
  intros m m2. split; [vm_compute; reflexivity|].
  apply (script_reports_completion (env := Mock.mock_environment)
           (sdk := Job.mock_chatty) (desk := Job.bool_desktop)
           (Ok (Some (delete "computer_id" Job.saved))) m m2
           "AKIA" "secret" "bucket" "Default" "/data" true true);
    vm_compute; reflexivity.
Defined.

(** X24. What ends the script early. When the log file cannot be
    opened, the script ends before its first line. An exception of the
    pass leaves the script at once: after "Starting backup for ..." the
    log holds nothing but what the SDK wrote, and no notification is
    shown. An exception of the notification leaves it after "Backup
    completed successfully." was logged: there is no pause and no last
    line. *)
Theorem script_failures {W D} {env : Environment W}
    {sdk : Job.Chatty W} {desk : Job.Desktop D}
    (config : result (option Job.section)) (m m2 : machine (Job.job_world W D))
    (access_key secret_key bucket computer_folder local_dir : string)
    (r0 : result unit) (d0 : D) (r : result unit) (e : exn) :
  Job.basic_config (Job.desktop (world m)) = (r0, d0) ->
  (r0 = Raise e ->
   Job.main config m
   = (Raise e,
      put_world
        (Job.JobWorld (Job.storage (world m)) d0 (Job.backup_log (world m))
           (Job.events (world m))) m))
  /\
  (r0 = Ok tt ->
   Job.config_ready config = true ->
   Job.load_config config
   = Ok (Some (access_key, secret_key, bucket, computer_folder, local_dir)) ->
   Job.backup_directory local_dir bucket access_key secret_key computer_folder
     (put_world
        (Job.JobWorld (Job.storage (world m)) d0
           (Job.backup_log (world m) ++
              ["Backup script started.";
               "Starting backup for " +:+ local_dir +:+ "..."])
           (Job.events (world m))) m)
   = (r, m2) ->
   (r = Raise e ->
    exists records,
      Job.main config m = (Raise e, m2)
      /\ Job.backup_log (world m2) = Job.backup_log (world m) ++
           ["Backup script started.";
            "Starting backup for " +:+ local_dir +:+ "..."] ++ records
      /\ Job.events (world m2) = Job.events (world m))
   /\
   (r = Ok tt ->
    forall d',
      Job.notify "S3Sync" "Backup completed successfully!" "S3Sync" d0
      = (Raise e, d') ->
      exists m' records,
        Job.main config m = (Raise e, m')
        /\ Job.backup_log (world m') = Job.backup_log (world m) ++
             ["Backup script started.";
              "Starting backup for " +:+ local_dir +:+ "..."]
             ++ records ++ ["Backup completed successfully."]
        /\ Job.events (world m') = Job.events (world m) ++
             [Job.Notify "S3Sync" "Backup completed successfully!" "S3Sync"])).
Proof.
  intros Hopen. split.
  - intros ->. unfold Job.main.
    unfold bind at 1. unfold Job.logging_basicConfig.
    unfold bind at 1. unfold perform at 1. rewrite Hopen. reflexivity.
  - intros -> Hready Hload Hpass.
    rewrite (main_ready config m d0 _ _ _ _ _ Hopen Hready Hload).
    pose proof (job_pass_frame local_dir bucket access_key secret_key
                  computer_folder
                  (put_world
                     (Job.JobWorld (Job.storage (world m)) d0
                        (Job.backup_log (world m) ++
                           ["Backup script started.";
                            "Starting backup for " +:+ local_dir +:+ "..."])
                        (Job.events (world m))) m)) as Hkept.
    cbv zeta in Hkept. rewrite Hpass in Hkept.
    cbn [snd world put_world Job.desktop Job.events Job.backup_log] in Hkept.
    destruct Hkept as (Hd & He & records & Hl).
    split.
    + intros ->. exists records. unfold bind at 1. rewrite Hpass.
      rewrite Hl, <- !app_assoc. auto.
    + intros -> d' Hnotify.
      unfold bind at 1. rewrite Hpass.
      unfold bind at 1. unfold Job.log at 1, perform. machine_simpl.
      unfold bind at 1. unfold Job.show_windows_notification.
      unfold bind at 1. unfold perform. machine_simpl.
      cbn [Job.storage Job.desktop Job.backup_log Job.events].
      rewrite Hd, Hnotify. cbn. eexists _, records. split; [reflexivity|]. cbn.
      rewrite Hl, He, <- !app_assoc. auto.
Qed.

Lemma script_failures_witness :
  let m := Job.start Cases.vanished false in
  let e := Mock.no_such_file "/data/a.txt" in
  let m2 :=
    snd (Job.backup_directory "/data" "bucket" "AKIA" "secret" ""
           (put_world
              (Job.JobWorld (Job.storage (world m)) false
                 (Job.backup_log (world m) ++
                    ["Backup script started.";
                     "Starting backup for " +:+ "/data" +:+ "..."])
                 (Job.events (world m))) m)) in
  exists records,
    Job.main (Ok (Some Job.saved)) m = (Raise e, m2)
    /\ Job.backup_log (world m2) = Job.backup_log (world m) ++
         ["Backup script started.";
          "Starting backup for " +:+ "/data" +:+ "..."] ++ records
    /\ Job.events (world m2) = Job.events (world m).
Proof.
  intros m e m2.
  apply (script_failures (env := Mock.mock_environment)
           (sdk := Job.mock_chatty) (desk := Job.bool_desktop)
           (Ok (Some Job.saved)) m m2
           "AKIA" "secret" "bucket" "" "/data" (Ok tt) false (Raise e) e);
    vm_compute; reflexivity.
Defined.

(** ** Further facts on fingerprints, namespaces and empty trees *)

Section FingerprintFacts.

Lemma hex_byte_lower b :
  forallb lower_hex (list_ascii_of_string (hashlib.hex_byte b)) = true.
Proof. destruct b; vm_compute; reflexivity. Qed.

Lemma list_ascii_append a b :
  list_ascii_of_string (a +:+ b)
  = list_ascii_of_string a ++ list_ascii_of_string b.
Proof.
  induction a as [|x a IH]; [reflexivity|].
  rewrite append_cons. cbn. rewrite IH. reflexivity.
Qed.

Lemma hexlify_shape bs :
  String.length (hashlib.hexlify bs) = (2 * length bs)%nat
  /\ forallb lower_hex (list_ascii_of_string (hashlib.hexlify bs)) = true.
Proof.
  induction bs as [|b bs [IHl IHh]]; [split; reflexivity|].
  cbn [hashlib.hexlify]. split.
  - rewrite length_append, IHl. cbn [length]. unfold hashlib.hex_byte. cbn. lia.
  - rewrite list_ascii_append, forallb_app, hex_byte_lower, IHh. reflexivity.
Qed.

Lemma encode_fingerprint h :
  is_fingerprint (hashlib.hexlify (hashlib.encode h)) = true.
Proof.
  unfold is_fingerprint.
  destruct (hexlify_shape (hashlib.encode h)) as [Hl Hh].
  rewrite Hh, andb_true_r. apply bool_decide_eq_true_2.
  rewrite Hl. unfold hashlib.encode.
  rewrite !length_app, !length_le_bytes. reflexivity.
Qed.

End FingerprintFacts.

(** X25. A fingerprint is thirty-two lowercase hexadecimal digits,
    whatever was read: this holds for the digest of every state of the
    chunked computation and for the digest of every content. *)
Theorem fingerprint_format :
  (forall st, is_fingerprint (hashlib.hexdigest st) = true)
  /\ (forall content, is_fingerprint (hashlib.md5_oneshot content) = true).
Proof.
  split; intros; apply encode_fingerprint.
Qed.

(** X26. A configuration file with an empty [computer_id], which is what
    the windows save when the user directory is left blank, sends the
    script and the windows to different places: whenever the script
    gets its configuration, its namespace is the empty string and it
    uploads under [backup//]; the windows upload under
    [backup/Default/] and restore from there, and no key of the script
    starts with that prefix. *)
Theorem blank_user_directory_splits_the_backups
    (settings : Job.section) (ui : entries) (v : variant) (rel : string) :
  settings !! "computer_id" = Some (Ok "") ->
  strip (entry_computer_id ui) = "" ->
  posixpath.startswith_sep rel = false ->
  (forall access_key secret_key bucket computer_folder local_dir,
     Job.load_config (Ok (Some settings))
     = Ok (Some (access_key, secret_key, bucket, computer_folder, local_dir)) ->
     computer_folder = "")
  /\ key_of Headless "" rel = "backup//" +:+ replace_backslash rel
  /\ key_of v (or_default (strip (entry_computer_id ui))) rel
     = "backup/Default/" +:+ replace_backslash rel
  /\ String.prefix (prefix_of (or_default (strip (entry_computer_id ui))))
       (key_of Headless "" rel) = false.
Proof.
  intros Hid Hblank Hrel. rewrite Hblank, !key_of_shape by exact Hrel.
  split; [|split; [reflexivity|split; [reflexivity|]]].
  - intros ak sk b ns dir. unfold Job.load_config, Job.and_then, Job.settings_get.
    rewrite Hid.
    destruct (settings !! "aws_access_key") as [[?|?]|];
      destruct (settings !! "aws_secret_key") as [[?|?]|];
      destruct (settings !! "bucket_name") as [[?|?]|];
      destruct (settings !! "backup_dir") as [[?|?]|];
      intros Heq; try discriminate Heq; injection Heq as <- <- <- <- <-;
      reflexivity.
  - vm_compute. reflexivity.
Qed.

Lemma blank_user_directory_witness :
  Job.load_config (Ok (Some Job.saved))
  = Ok (Some ("AKIA", "secret", "bucket", "", "/data"))
  /\ (forall access_key secret_key bucket computer_folder local_dir,
        Job.load_config (Ok (Some Job.saved))
        = Ok (Some (access_key, secret_key, bucket, computer_folder, local_dir)) ->
        computer_folder = "")
  /\ key_of Headless "" "sub/b.txt" = "backup//" +:+ replace_backslash "sub/b.txt"
  /\ key_of Tabbed (or_default (strip (entry_computer_id Mock.ui))) "sub/b.txt"
     = "backup/Default/" +:+ replace_backslash "sub/b.txt"
  /\ String.prefix (prefix_of (or_default (strip (entry_computer_id Mock.ui))))
       (key_of Headless "" "sub/b.txt") = false.
Proof.
  split; [vm_compute; reflexivity|].
  apply (blank_user_directory_splits_the_backups Job.saved Mock.ui Tabbed "sub/b.txt");
    vm_compute; reflexivity.
Defined.

Section EmptyTree.
Context {W : Type} `{Environment W}.

Lemma gather_dirs_empty local_dir tree : forall acc (m : machine W),
  walked_paths tree = [] ->
  gather_dirs local_dir tree acc m = (Ok acc, m).
Proof.
  induction tree as [|[root files] tree IH]; intros acc m Hnone; [reflexivity|].
  unfold walked_paths in Hnone. cbn in Hnone.
  apply app_eq_nil in Hnone as [Hfiles Hrest].
  apply fmap_nil_inv in Hfiles. subst files.
  cbn [gather_dirs gather_files]. unfold bind at 1. cbn [ret].
  apply IH. exact Hrest.
Qed.

Lemma gather_empty local_dir (m : machine W) tree w1 :
  os_walk local_dir (world m) = (tree, w1) ->
  walked_paths tree = [] ->
  gather local_dir m
  = (Ok (0, []), put_world w1 (add_call (Walk local_dir) m)).
Proof.
  intros Hwalk Hnone. unfold gather, walk.
  unfold bind at 1. unfold bind at 1. unfold record, perform. machine_simpl.
  rewrite Hwalk. apply gather_dirs_empty. exact Hnone.
Qed.

End EmptyTree.

(** X27. A tree without a file: each pass makes the walk and nothing
    else. No file is read, nothing is asked of the bucket and nothing is
    logged; the two windows put the total, the counter and the bar to
    zero. *)
Theorem empty_tree_uploads_nothing {W} {env : Environment W}
    (ui : entries) (m : machine W) (tree : list (string * list string)) (w1 : W) :
  backup_ready ui = true ->
  os_walk (backup_dir_entry ui) (world m) = (tree, w1) ->
  walked_paths tree = [] ->
  let walked := put_world w1 (add_call (Walk (backup_dir_entry ui)) m) in
  let reset := put_progress (0, 1) (put_bytes_uploaded 0 (put_total_size 0 walked)) in
  S3Sync.backup_directory ui m = (Ok tt, reset)
  /\ Ver4_2.backup_directory ui m = (Ok tt, reset)
  /\ forall bucket access_key secret_key ns,
       backupjob.backup_directory (backup_dir_entry ui) bucket access_key
         secret_key ns m
       = (Ok tt, walked).
Proof.
  intros Hready Hwalk Hnone walked reset.
  destruct (backup_directory_ready ui m Hready) as [-> ->].
  pose proof (gather_empty (backup_dir_entry ui) m tree w1 Hwalk Hnone) as Hg.
  split; [|split].
  - unfold bind at 1. rewrite Hg. reflexivity.
  - unfold bind at 1. rewrite Hg. reflexivity.
  - intros bucket access_key secret_key ns.
    unfold backupjob.backup_directory, bind. rewrite Hg. reflexivity.
Qed.

Lemma empty_tree_witness :
  let bare :=
    Mock.MockWorld "/home/u" [("/data", []); ("/data/sub", [])] ∅ [] ∅ ∅ ∅ ∅ ∅
      None false None in
  let m := Mock.start bare in
  let walked := put_world bare (add_call (Walk (backup_dir_entry Mock.ui)) m) in
  let reset := put_progress (0, 1) (put_bytes_uploaded 0 (put_total_size 0 walked)) in
  S3Sync.backup_directory Mock.ui m = (Ok tt, reset)
  /\ Ver4_2.backup_directory Mock.ui m = (Ok tt, reset)
  /\ forall bucket access_key secret_key ns,
       backupjob.backup_directory (backup_dir_entry Mock.ui) bucket access_key
         secret_key ns m
       = (Ok tt, walked).
Proof.
  intros bare m.
  apply (empty_tree_uploads_nothing (env := Mock.mock_environment) Mock.ui m
           [("/data", []); ("/data/sub", [])] bare);
    vm_compute; reflexivity.
Defined.

Example posix_relpath_ex :
  posixpath.relpath "/home/u" "backup/Default/y/z.txt" "backup/Default/" = Some "y/z.txt"
  /\ posixpath.relpath "/home/u" "backup/Default/a//b/../c" "backup/Default/" = Some "a/c"
  /\ posixpath.relpath "/home/u" "backup/Default/" "backup/Default/" = Some "."
  /\ posixpath.relpath "/home/u" "backup/Other/x" "backup/Default/" = Some "../Other/x"
  /\ posixpath.dirname "/out/y/z.txt" = "/out/y"
  /\ posixpath.dirname "z.txt" = ""
  /\ posixpath.dirname "/z.txt" = "/"
  /\ posixpath.dirname "a//b" = "a"
  /\ posixpath.basename "/out/y/z.txt" = "z.txt"
  /\ posixpath.normpath "//a/./b/../../.." = "//"
  /\ posixpath.normpath "a/../.." = ".."
  /\ posixpath.join "/out" "y/z.txt" = "/out/y/z.txt"
  /\ posixpath.join "/out" "" = "/out/"
  /\ posixpath.relpath "/home/u" "backup/Default//etc/x" "backup/Default/" = Some "etc/x"
  /\ posixpath.relpath "/home/u" "backup/Default/../../x" "backup/Default/" = Some "../../x"
  /\ posixpath.dirname "//a" = "//"
  /\ posixpath.dirname "a/b/" = "a/b"
  /\ posixpath.basename "a/b/" = ""
  /\ strip "  Default	 " = "Default".
Proof. vm_compute. repeat split. Qed.

Example scenario_upload :
  let r := S3Sync.backup_directory Mock.ui (Mock.start Mock.laptop) in
  calls (snd r) =
    [ Walk "/data"; Getsize "/data/a.txt"; Getsize "/data/sub/b.txt";
      Open "/data/a.txt"; HeadObject "bucket" "backup/Default/a.txt";
      UploadFile "/data/a.txt" "bucket" "backup/Default/a.txt"
        {[ "file_md5" := "5d41402abc4b2a76b9719d911017c592" ]};
      Open "/data/sub/b.txt"; HeadObject "bucket" "backup/Default/sub/b.txt";
      UploadFile "/data/sub/b.txt" "bucket" "backup/Default/sub/b.txt"
        {[ "file_md5" := "7d793037a0760186574b0282f2f435e7" ]} ]
  /\ bytes_uploaded (snd r) = 10 /\ total_size (snd r) = 10.
Proof. vm_compute. repeat split. Qed.

Example scenario_rerun :
  let w := Mock.after (S3Sync.backup_directory Mock.ui (Mock.start Mock.laptop)) in
  let r := S3Sync.backup_directory Mock.ui (Mock.start w) in
  filter (fun c => is_transfer c = true) (calls (snd r)) = []
  /\ bytes_uploaded (snd r) = 10 /\ progress (snd r) = (10, 10)
  /\ log_text (snd r) = [ "Skipping /data/a.txt (no changes)";
                         "Skipping /data/sub/b.txt (no changes)" ].
Proof. vm_compute. repeat split. Qed.

Example scenario_restore :
  let w := Mock.after (S3Sync.backup_directory Mock.ui (Mock.start Mock.laptop)) in
  let r := S3Sync.restore_backup Mock.ui (Mock.start w) in
  calls (snd r) =
    [ Paginate "bucket" "backup/Default/";
      Makedirs "/out/sub";
      DownloadFile "bucket" "backup/Default/sub/b.txt" "/out/sub/b.txt";
      Makedirs "/out"; DownloadFile "bucket" "backup/Default/a.txt" "/out/a.txt" ]
  /\ Mock.files (world (snd r)) !! "/out/sub/b.txt" = Some (bytes_of_string "world").
Proof. vm_compute. repeat split. Qed.

Example scenario_cancel :
  let r := S3Sync.restore_selected_files Mock.ui Mock.selected
             (Mock.start Mock.interrupted) in
  fst r = Ok tt
  /\ calls (snd r) =
       [ Makedirs "/out";
         DownloadFile "bucket" "backup/Default/a.txt" "/out/a.txt" ]
  /\ log_text (snd r) = [ "Successfully restored: a.txt" ]
  /\ bytes_downloaded (snd r) = 5
  /\ running (world (snd r)) = false.
Proof. vm_compute. repeat split. Qed.

Example scenario_unreachable :
  let r := Ver4_2.run_restore Mock.ui (Mock.start Mock.unreachable) in
  calls (snd r) =
    [ Paginate "bucket" "backup/Default/";
      Messagebox "showerror" "Restore Error" "Read timeout on endpoint URL" ]
  /\ log_text (snd r) =
       [ "Starting restore..."; "Restore error: Read timeout on endpoint URL" ].
Proof. vm_compute. repeat split. Qed.

Example scenario_download_fails :
  let r := S3Sync.restore_backup Mock.ui (Mock.start Mock.download_broken) in
  log_text (snd r) =
    [ "Error downloading backup/Default/sub/b.txt: Read timeout on endpoint URL";
      "Downloaded backup/Default/a.txt to /out/a.txt" ]
  /\ Mock.files (world (snd r)) !! "/out/a.txt" = Some (bytes_of_string "hello")
  /\ Mock.files (world (snd r)) !! "/out/sub/b.txt" = None.
Proof. vm_compute. repeat split. Qed.
